(** * Portfolio KPI dashboard: derivation and scoring engine

    A shallow embedding of the computational core of
    [src/portfolio_dashboard.py] and the properties its specification
    states about it.

    Conventions of the embedding.
    - Python floats are taken as exact rationals ([Q]); rounding is not
      modelled.  Where the code can meet a not-a-number (the traffic-light
      classifier), the value type carries an explicit [NaN].
    - Every division of the modelled code sits behind the guard the source
      writes ([> 0], [!= 0], an early return); the guards are kept, so the
      convention [x / 0 == 0] of [Q] is never relied upon.
    - A Python dict read and written by key ([cost_analysis], [revenues],
      [earned_value]) is a [gmap string _]: [d[k]] is the lookup [d !! k]
      (a [KeyError] is [None]) and [d.get(k, x)] is [default x (d !! k)].
      A dict that is only iterated ([.values()], [.items()], [len]) is an
      association list in insertion order; a dict or tuple with a fixed
      shape is a record.
    - Text is ASCII: [lower], [upper] and [strip] act on the ASCII letters
      and blanks only.
    - User-interface calls ([st.write], [st.info], ...) have no effect on
      the computed data and are left out. *)

From Stdlib Require Import QArith Qabs Lqa Ascii String.
From stdpp Require Import base option list strings gmap.

Open Scope string_scope.
Open Scope Q_scope.

(* ================================================================== *)
(** * Numbers *)

Module PyNum.

(** [x < y], [x <= y], [x == y] as Python evaluates them on floats. *)
Definition ltb (x y : Q) : bool :=
  match x ?= y with Lt => true | _ => false end.
Definition leb (x y : Q) : bool := Qle_bool x y.
Definition eqb (x y : Q) : bool := Qeq_bool x y.
Definition gtb (x y : Q) : bool := ltb y x.
Definition geb (x y : Q) : bool := leb y x.
Definition neqb (x y : Q) : bool := negb (eqb x y).

(** The builtins [min(a, b)] and [max(a, b)]: the first argument is kept
    unless the second is strictly smaller (resp. larger). *)
Definition py_min (a b : Q) : Q := if ltb b a then b else a.
Definition py_max (a b : Q) : Q := if gtb b a then b else a.

(** The builtin [sum]: starts from 0 and adds from the left. *)
Definition py_sum (l : list Q) : Q := fold_left Qplus l 0.

(** [len(...)] as a number. *)
Definition of_nat (n : nat) : Q := inject_Z (Z.of_nat n).

End PyNum.
Import PyNum.

Declare Scope py_scope.
Delimit Scope py_scope with py.
Notation "x <? y" := (ltb x y) : py_scope.
Notation "x <=? y" := (leb x y) : py_scope.
Notation "x >? y" := (gtb x y) : py_scope.
Notation "x >=? y" := (geb x y) : py_scope.
Notation "x =? y" := (eqb x y) : py_scope.
Open Scope py_scope.

(* ================================================================== *)
(** * Text *)

Module PyStr.

Definition lower_ascii (c : ascii) : ascii :=
  let n := nat_of_ascii c in
  if (65 <=? n)%nat && (n <=? 90)%nat then ascii_of_nat (n + 32) else c.

Definition upper_ascii (c : ascii) : ascii :=
  let n := nat_of_ascii c in
  if (97 <=? n)%nat && (n <=? 122)%nat then ascii_of_nat (n - 32) else c.

(** [s.lower()] and [s.upper()]. *)
Fixpoint lower (s : string) : string :=
  match s with
  | EmptyString => EmptyString
  | String c t => String (lower_ascii c) (lower t)
  end.

Fixpoint upper (s : string) : string :=
  match s with
  | EmptyString => EmptyString
  | String c t => String (upper_ascii c) (upper t)
  end.

(** [needle in hay] on strings: substring test. *)
Fixpoint contains (needle hay : string) : bool :=
  if String.prefix needle hay then true
  else match hay with
       | EmptyString => false
       | String _ t => contains needle t
       end.

(** Blanks removed by [s.strip()]: space, tab, newline, vertical tab,
    form feed, carriage return, and the four separators 28 to 31. *)
Definition is_blank (c : ascii) : bool :=
  let n := nat_of_ascii c in
  (n =? 32)%nat || ((9 <=? n)%nat && (n <=? 13)%nat)
  || ((28 <=? n)%nat && (n <=? 31)%nat).

Fixpoint lstrip (s : string) : string :=
  match s with
  | EmptyString => EmptyString
  | String c t => if is_blank c then lstrip t else s
  end.

Fixpoint rstrip (s : string) : string :=
  match s with
  | EmptyString => EmptyString
  | String c t =>
      match rstrip t with
      | EmptyString => if is_blank c then EmptyString else String c EmptyString
      | t' => String c t'
      end
  end.

Definition strip (s : string) : string := rstrip (lstrip s).

End PyStr.
Import PyStr.

(* ================================================================== *)
(** * Work packages *)

(** One entry of [project_data['work_packages']], as
    [parse_excel_template_v24] builds it; the dict is keyed by [code]. *)
Record WorkPackage := {
  code : string;
  description : string;
  as_sold : Q;
  committed : Q;
  ctc : Q;
  fct_n : Q;
  fct_n1 : Q;
  actuals : Q;
  variance_pct : Q;
  commitment_ratio : Q;
  is_risk_contingency : bool
}.

(** ['risk' in d.lower() and 'contingenc' in d.lower()]. *)
Definition mentions_risk_contingency (d : string) : bool :=
  contains "risk" (lower d) && contains "contingenc" (lower d).

(** The list comprehension that selects the risk-contingency packages,
    written identically in [calculate_contingency_metrics] and in
    [assess_project_risks]. *)
Definition risk_contingencies (work_packages : list WorkPackage)
  : list WorkPackage :=
  List.filter (fun wp => mentions_risk_contingency (description wp))
    work_packages.

(* ================================================================== *)
(** * Contingency efficiency engine *)

Inductive Icon :=
| GreenCircle | BlueSquare | YellowCircle | RedCircle | Dash
| ArrowUpRight | ArrowDownRight | ArrowRight.

(** The dict returned by [calculate_contingency_metrics].  The keys that
    only the full bundle carries are options, [None] standing for an
    absent key; [efficiency] is [None] in the sentinel by the code's own
    assignment. *)
Record ContingencyMetrics := {
  has_contingency : bool;
  contingency_as_sold : Q;
  contingency_fct_n1 : Q;
  contingency_fct_n : Q;
  consumed_amount : Q;
  consumed_percentage : Q;
  remaining_amount : option Q;
  remaining_percentage : option Q;
  efficiency : option Q;
  trend : string;
  trend_icon : option Icon;
  status : string;
  status_icon : Icon;
  status_color : string;
  early_consumption : option Q;
  recent_consumption : option Q
}.

Definition no_contingency_metrics : ContingencyMetrics := {|
  has_contingency := false;
  contingency_as_sold := 0;
  contingency_fct_n1 := 0;
  contingency_fct_n := 0;
  consumed_amount := 0;
  consumed_percentage := 0;
  remaining_amount := None;
  remaining_percentage := None;
  efficiency := None;
  trend := "No Contingency";
  trend_icon := None;
  status := "N/A";
  status_icon := Dash;
  status_color := "info";
  early_consumption := None;
  recent_consumption := None
|}.

(** The trend branch: label and icon. *)
Definition contingency_trend (early recent : Q) : string * Icon :=
  if (early >? 0) && (recent >? early * 1.2) then ("Accelerating", ArrowUpRight)
  else if recent <? early * 0.8 then ("Improving", ArrowDownRight)
  else ("Stable", ArrowRight).

(** The status branch: label, icon and colour. *)
Definition contingency_status (eff : Q) : string * Icon * string :=
  if eff >=? 150 then ("Excellent", GreenCircle, "success")
  else if eff >=? 120 then ("Good", GreenCircle, "success")
  else if eff >=? 80 then ("On Track", BlueSquare, "info")
  else if eff >=? 50 then ("Warning", YellowCircle, "warning")
  else ("Critical", RedCircle, "error").

Definition calculate_contingency_metrics
  (work_packages : list WorkPackage) (poc_current : Q) : ContingencyMetrics :=
  let rcs := risk_contingencies work_packages in
  match rcs with
  | [] => no_contingency_metrics
  | _ :: _ =>
      let c_as_sold := py_sum (map as_sold rcs) in
      let c_fct_n1 := py_sum (map fct_n1 rcs) in
      let c_fct_n := py_sum (map fct_n rcs) in
      let consumed := c_as_sold - c_fct_n in
      let consumed_pct :=
        if c_as_sold >? 0 then consumed / c_as_sold * 100 else 0 in
      let eff0 :=
        if poc_current >? 0 then (2 - consumed_pct / poc_current) * 100
        else 200 in
      let eff := py_max 0 (py_min 200 eff0) in
      let early := if c_as_sold >? 0 then c_as_sold - c_fct_n1 else 0 in
      let recent := if c_fct_n1 >? 0 then c_fct_n1 - c_fct_n else 0 in
      let '(tr, tr_icon) := contingency_trend early recent in
      let '(st, st_icon, st_color) := contingency_status eff in
      {| has_contingency := true;
         contingency_as_sold := c_as_sold;
         contingency_fct_n1 := c_fct_n1;
         contingency_fct_n := c_fct_n;
         consumed_amount := consumed;
         consumed_percentage := consumed_pct;
         remaining_amount := Some c_fct_n;
         remaining_percentage :=
           Some (if c_as_sold >? 0 then c_fct_n / c_as_sold * 100 else 0);
         efficiency := Some eff;
         trend := tr;
         trend_icon := Some tr_icon;
         status := st;
         status_icon := st_icon;
         status_color := st_color;
         early_consumption := Some early;
         recent_consumption := Some recent |}
  end.

(* ================================================================== *)
(** * Threshold table and traffic-light classifier *)

(** One entry of [EXECUTIVE_THRESHOLDS]: the four cutoffs every entry
    has, and the ['stable'] cutoff only some have. *)
Record ThresholdBand := {
  excellent : Q;
  good : Q;
  stable : option Q;
  warning : Q;
  critical : Q
}.

Record ThresholdTable := {
  cm2_margin : ThresholdBand;
  cm1_margin : ThresholdBand;
  poc_velocity : ThresholdBand;
  cash_flow_efficiency : ThresholdBand;
  revenue_growth : ThresholdBand;
  committed_vs_budget : ThresholdBand;
  cost_variance : ThresholdBand;
  schedule_performance : ThresholdBand;
  cost_performance_index : ThresholdBand;
  schedule_performance_index : ThresholdBand
}.

Definition band (e g w c : Q) : ThresholdBand :=
  {| excellent := e; good := g; stable := None; warning := w; critical := c |}.

(** The table as the module defines it; [main] later overwrites the
    [cm2_margin] cutoffs from the sidebar, which is why the functions
    below take the table as an argument. *)
Definition EXECUTIVE_THRESHOLDS : ThresholdTable := {|
  cm2_margin := band 15 10 5 0;
  cm1_margin := band 25 20 15 10;
  poc_velocity := band 10 5 2 0;
  cash_flow_efficiency := band 1.1 0.95 0.85 0.75;
  revenue_growth :=
    {| excellent := 15; good := 5; stable := Some (-2); warning := -5;
       critical := -15 |};
  committed_vs_budget := band 0.9 1.0 1.1 1.2;
  cost_variance := band (-5) 5 15 25;
  schedule_performance := band 110 95 80 70;
  cost_performance_index := band 1.1 1.0 0.9 0.8;
  schedule_performance_index := band 1.1 1.0 0.9 0.8
|}.

(** A float handed to the classifier: a number or not-a-number. *)
Inductive num := Real (q : Q) | NaN.

(** [value >= c] and [value <= c]; both are false on NaN. *)
Definition num_geb (value : num) (c : Q) : bool :=
  match value with Real q => q >=? c | NaN => false end.
Definition num_leb (value : num) (c : Q) : bool :=
  match value with Real q => q <=? c | NaN => false end.

Definition get_traffic_light_status
  (value : num) (thresholds : ThresholdBand) (reverse : bool)
  : Icon * string * string :=
  if reverse then
    if num_leb value (excellent thresholds) then
      (GreenCircle, "Excellent", "excellent")
    else if num_leb value (good thresholds) then
      (GreenCircle, "Good", "good")
    else if num_leb value (warning thresholds) then
      (YellowCircle, "Warning", "warning")
    else (RedCircle, "Critical", "critical")
  else
    if num_geb value (excellent thresholds) then
      (GreenCircle, "Excellent", "excellent")
    else if num_geb value (good thresholds) then
      (GreenCircle, "Good", "good")
    else if match stable thresholds with
            | Some s => num_geb value s
            | None => false
            end then
      (BlueSquare, "Stable", "stable")
    else if num_geb value (warning thresholds) then
      (YellowCircle, "Warning", "warning")
    else (RedCircle, "Critical", "critical").

(* ================================================================== *)
(** * Small utilities *)

(** [safe_get_value(data_dict, k1, k2)] on a dict of dicts of floats,
    default 0. *)
Definition safe_get_value
  (d : gmap string (gmap string Q)) (k1 k2 : string) : Q :=
  default 0 (d !! k1 ≫= (fun inner => inner !! k2)).

(** Both arguments are floats at every call site, so the conversions of
    the source are the identity and its [except] branch is not taken. *)
Definition calculate_poc_velocity (poc_current poc_previous : Q) : Q :=
  poc_current - poc_previous.

Definition calculate_period_variance (current_value previous_value : Q) : Q :=
  if previous_value =? 0 then
    (if current_value >? 0 then 100 else 0)
  else (current_value - previous_value) / Qabs previous_value * 100.

(* ================================================================== *)
(** * Project records *)

Module Risk.

(** One finding.  The description is an f-string in the source; it is
    kept as its template together with the numbers substituted into
    it, in order. *)
Record RiskFactor := {
  type : string;
  severity : string;
  description : string * list Q;
  impact : string;
  recommendation : string
}.

End Risk.

(** One entry of [cash_flow_quarterly]. *)
Record CashFlowQuarter := {
  cf_as_sold : Q;
  cf_fct_n1 : Q;
  cf_fct_n : Q;
  variance_n_vs_sold : Q;
  variance_n_vs_n1 : Q
}.

(** The part of [project_data] the engine reads.  [selling_price_found]
    is the one boolean entry of the [cost_analysis] dict, kept beside its
    numeric entries ([None]: the key is absent). *)
Record ProjectData := {
  revenues : gmap string (gmap string Q);
  work_packages : list WorkPackage;
  cash_flow_quarterly : list (string * CashFlowQuarter);
  cost_analysis : gmap string Q;
  selling_price_found : option bool;
  earned_value : gmap string Q;
  risk_factors : list Risk.RiskFactor
}.

Definition with_cost_analysis (pd : ProjectData) (ca : gmap string Q)
  : ProjectData :=
  {| revenues := revenues pd; work_packages := work_packages pd;
     cash_flow_quarterly := cash_flow_quarterly pd; cost_analysis := ca;
     selling_price_found := selling_price_found pd;
     earned_value := earned_value pd; risk_factors := risk_factors pd |}.

Definition with_work_packages (pd : ProjectData) (wps : list WorkPackage)
  : ProjectData :=
  {| revenues := revenues pd; work_packages := wps;
     cash_flow_quarterly := cash_flow_quarterly pd;
     cost_analysis := cost_analysis pd;
     selling_price_found := selling_price_found pd;
     earned_value := earned_value pd; risk_factors := risk_factors pd |}.

Definition with_selling_price_found (pd : ProjectData) (b : bool)
  : ProjectData :=
  {| revenues := revenues pd; work_packages := work_packages pd;
     cash_flow_quarterly := cash_flow_quarterly pd;
     cost_analysis := cost_analysis pd;
     selling_price_found := Some b;
     earned_value := earned_value pd; risk_factors := risk_factors pd |}.

(** [work_packages[k] = wp] on the insertion-ordered dict: an existing
    key keeps its place, a new key goes last. *)
Fixpoint dict_set (k : string) (wp : WorkPackage) (d : list WorkPackage)
  : list WorkPackage :=
  match d with
  | [] => [wp]
  | x :: t => if String.eqb (code x) k then wp :: t else x :: dict_set k wp t
  end.

(* ================================================================== *)
(** * Cost and margin deriver: the cost-breakdown part of
      [parse_excel_template_v24] *)

(** A spreadsheet cell read for a number. *)
Inductive Cell := Blank | Number (q : Q) | Text (s : string).

(** [safe_float]: [None] and text that is no numeral give 0 (text that
    is a numeral is taken as read, that is as [Number]). *)
Definition safe_float (value : Cell) : Q :=
  match value with Number q => q | _ => 0 end.

(** One row of the sheet ['3_Cost_Breakdown']: column 1 ([None]: empty
    cell), column 2 after [str(... or '')], and the numeric columns
    3, 4, 5, 6, 7 and 9. *)
Record CostRow := {
  item_code : option string;
  description_cell : string;
  cell_as_sold : Cell;
  cell_committed : Cell;
  cell_ctc : Cell;
  cell_fct_n : Cell;
  cell_fct_n1 : Cell;
  cell_actuals : Cell
}.

(** The sheet: its [max_column] and its rows from row 2 down to
    [max_row]. *)
Record CostSheet := {
  max_column : nat;
  cost_rows : list CostRow
}.

(** The keys [cost_analysis] is initialised with, all at 0. *)
Definition cost_analysis_keys : list string :=
  [ "total_as_sold"; "total_committed"; "total_fct_n"; "total_actuals";
    "ec_total_as_sold"; "ec_total_fct_n"; "ic_total_as_sold";
    "ic_total_fct_n";
    "cm1_value_as_sold"; "cm1_value_fct_n"; "cm1_pct_as_sold";
    "cm1_pct_fct_n";
    "cm2_value_as_sold"; "cm2_value_fct_n"; "cm2_pct_as_sold";
    "cm2_pct_fct_n";
    "committed_ratio"; "cost_variance_pct";
    "cm1_value_fct_n1"; "cm1_pct_fct_n1";
    "cm2_value_fct_n1"; "cm2_pct_fct_n1";
    "ec_total_fct_n1"; "ic_total_fct_n1";
    "selling_price_as_sold"; "selling_price_fct_n1"; "selling_price_fct_n";
    "total_fct_n1" ].

Definition initial_cost_analysis : gmap string Q :=
  list_to_map (List.map (fun k => (k, 0)) cost_analysis_keys).

(** [project_data] as the parser creates it, with the revenues already
    read from sheet 2. *)
Definition initial_project_data (revs : gmap string (gmap string Q))
  : ProjectData :=
  {| revenues := revs; work_packages := []; cash_flow_quarterly := [];
     cost_analysis := ∅; selling_price_found := None;
     earned_value := ∅; risk_factors := [] |}.

(** The work package built from one row. *)
Definition make_work_package
  (item_str descr : string) (a_s cmt c_t_c f_n f_n1 act : Q) : WorkPackage :=
  {| code := item_str;
     description := descr;
     as_sold := a_s;
     committed := cmt;
     ctc := c_t_c;
     fct_n := f_n;
     fct_n1 := f_n1;
     actuals := act;
     variance_pct :=
       if a_s >? 0 then calculate_period_variance f_n a_s else 0;
     commitment_ratio := if a_s >? 0 then cmt / a_s else 0;
     is_risk_contingency := mentions_risk_contingency descr |}.

(** The body of the loop over the rows.  The state is [project_data] and
    the local flag [selling_price_found]; the counters
    [work_package_count] and [total_wp_value] are never read and are
    left out.  None of the statements can raise on cells of the shape
    above, so the [except] branch of the row is not taken. *)
Definition parse_cost_row (max_col : nat)
  (st : ProjectData * bool) (row : CostRow) : ProjectData * bool :=
  let '(pd, found) := st in
  match item_code row with
  | None => st
  | Some "" => st
  | Some ic =>
      let item_str := strip ic in
      let item_upper := upper item_str in
      let descr := description_cell row in
      let a_s := safe_float (cell_as_sold row) in
      let cmt := safe_float (cell_committed row) in
      let c_t_c := safe_float (cell_ctc row) in
      let f_n := safe_float (cell_fct_n row) in
      let f_n1 :=
        if (7 <=? max_col)%nat then safe_float (cell_fct_n1 row) else 0 in
      let act :=
        if (9 <=? max_col)%nat then safe_float (cell_actuals row) else 0 in
      if (contains "SELLING PRICE" item_upper
          || contains "SELLING PRICE" (upper descr)) && negb found
      then
        (with_cost_analysis pd
           (<["selling_price_fct_n" := f_n]>
              (<["selling_price_fct_n1" := f_n1]>
                 (<["selling_price_as_sold" := a_s]> (cost_analysis pd)))),
         true)
      else
        let pd1 :=
          if negb (existsb (fun keyword => contains keyword item_upper)
                     ["TOTAL"; "CM1"; "CM2"; "SELLING"])
          then with_work_packages pd
                 (dict_set item_str
                    (make_work_package item_str descr a_s cmt c_t_c f_n f_n1
                       act)
                    (work_packages pd))
          else pd in
        let ca := cost_analysis pd1 in
        let ca' :=
          if String.eqb item_upper "TOTAL" then
            <["cost_variance_pct" := calculate_period_variance f_n a_s]>
              (<["total_actuals" := act]>
                 (<["total_fct_n1" := f_n1]>
                    (<["total_fct_n" := f_n]>
                       (<["total_committed" := cmt]>
                          (<["total_as_sold" := a_s]> ca)))))
          else if contains "TOTAL EC" item_upper
                  || (contains "EC" item_upper && contains "TOTAL" item_upper)
          then
            <["ec_total_fct_n" := f_n]>
              (<["ec_total_fct_n1" := f_n1]>
                 (<["ec_total_as_sold" := a_s]> ca))
          else if contains "TOTAL IL" item_upper
                  || (contains "IL" item_upper && contains "TOTAL" item_upper)
                  || (contains "IC" item_upper && contains "TOTAL" item_upper)
          then
            <["ic_total_fct_n" := f_n]>
              (<["ic_total_fct_n1" := f_n1]>
                 (<["ic_total_as_sold" := a_s]> ca))
          else ca in
        (with_cost_analysis pd1 ca', found)
  end.

(** The block [if '3_Cost_Breakdown' in workbook.sheetnames]: rows 2 to
    [min(max_row, 50)]. *)
Definition parse_cost_sheet (sheet : CostSheet) (pd : ProjectData)
  : ProjectData :=
  let pd0 := with_cost_analysis pd initial_cost_analysis in
  let '(pd1, found) :=
    fold_left (parse_cost_row (max_column sheet))
      (firstn 49 (cost_rows sheet)) (pd0, false) in
  with_selling_price_found pd1 found.

(** The three selling prices replaced by the contract value. *)
Definition selling_price_fallback (contract_value : Q) (ca : gmap string Q)
  : gmap string Q :=
  <["selling_price_fct_n" := contract_value]>
    (<["selling_price_fct_n1" := contract_value]>
       (<["selling_price_as_sold" := contract_value]> ca)).

(** The margin block of one period.  The source writes it three times,
    for the key suffixes [as_sold], [fct_n1] and [fct_n]; [None] is a
    [KeyError]. *)
Definition derive_margins (period : string) (ca : gmap string Q)
  : option (gmap string Q) :=
  selling_price ← ca !! ("selling_price_" +:+ period);
  if selling_price >? 0 then
    ec ← ca !! ("ec_total_" +:+ period);
    ic ← ca !! ("ic_total_" +:+ period);
    Some
      (<["cm2_pct_" +:+ period :=
           if selling_price >? 0
           then (selling_price - ec - ic) / selling_price * 100 else 0]>
         (<["cm2_value_" +:+ period := selling_price - ec - ic]>
            (<["cm1_pct_" +:+ period :=
                 if selling_price >? 0
                 then (selling_price - ec) / selling_price * 100 else 0]>
               (<["cm1_value_" +:+ period := selling_price - ec]> ca))))
  else Some ca.

Definition periods : list string := ["as_sold"; "fct_n1"; "fct_n"].

(** The statements after the sheet block, up to the committed ratio. *)
Definition enhanced_cost_analysis (pd : ProjectData) : option ProjectData :=
  let contract_value := safe_get_value (revenues pd) "Contract Price" "n_ptd" in
  let ca := cost_analysis pd in
  ca1 ← (if negb (default false (selling_price_found pd)) then
           total ← ca !! "total_as_sold";
           if total >? 0 then Some (selling_price_fallback contract_value ca)
           else Some (selling_price_fallback contract_value ca)
         else Some ca);
  ca2 ← derive_margins "as_sold" ca1;
  ca3 ← derive_margins "fct_n1" ca2;
  ca4 ← derive_margins "fct_n" ca3;
  total ← ca4 !! "total_as_sold";
  ca5 ← (if total >? 0 then
           cmt ← ca4 !! "total_committed";
           tot ← ca4 !! "total_as_sold";
           Some (<["committed_ratio" := cmt / tot]> ca4)
         else Some ca4);
  Some (with_cost_analysis pd ca5).

(** The cost-breakdown part of [parse_excel_template_v24], from the
    sheet-3 block to the committed ratio; [None] is the parser's
    [return None] on an exception. *)
Definition parse_excel_template_v24_costs
  (revs : gmap string (gmap string Q)) (sheet : option CostSheet)
  : option ProjectData :=
  let pd := initial_project_data revs in
  let pd1 := match sheet with
             | Some s => parse_cost_sheet s pd
             | None => pd
             end in
  enhanced_cost_analysis pd1.

(* ================================================================== *)
(** * Margin variability engine *)

(** [np.std] of a list is the square root of its population variance;
    the root is kept symbolic, by its radicand. *)
Inductive Root := SqrtOf (radicand : Q).

Definition mean (l : list Q) : Q := py_sum l / of_nat (length l).

Definition np_std (l : list Q) : Root :=
  let m := mean l in
  SqrtOf (mean (List.map (fun v => (v - m) * (v - m)) l)).

Definition calculate_volatility_index (margin_values : list Q) : Root :=
  if (length margin_values <? 2)%nat then SqrtOf 0
  else
    let valid_values := List.filter (fun v => neqb v 0) margin_values in
    if (length valid_values <? 2)%nat then SqrtOf 0
    else np_std valid_values.

(** The labels of the three assessments below are returned without the
    pictograph the source puts in front of them. *)
Definition assess_margin_trend (cm2_as_sold cm2_fct_n1 cm2_fct_n : Q)
  : string :=
  if cm2_as_sold =? 0 then "Unknown"
  else
    let total_change := cm2_fct_n - cm2_as_sold in
    let recent_change :=
      if neqb cm2_fct_n1 0 then cm2_fct_n - cm2_fct_n1 else 0 in
    if total_change >? 2 then "Improving"
    else if total_change <? -5 then "Severely Declining"
    else if total_change <? -2 then "Declining"
    else if Qabs recent_change <=? 1 then "Stable"
    else "Volatile".

Definition assess_margin_risk (th : ThresholdTable)
  (current_cm2 cm2_total_erosion : Q) : string :=
  let cm2_excellent := excellent (cm2_margin th) in
  let cm2_good := good (cm2_margin th) in
  let cm2_warning := warning (cm2_margin th) in
  if cm2_total_erosion >? 2 then
    if current_cm2 >=? cm2_excellent then "Low"
    else if current_cm2 >=? cm2_good then "Low"
    else if current_cm2 >=? cm2_warning then "Medium"
    else "High"
  else if cm2_total_erosion >=? -2 then
    if current_cm2 >=? cm2_excellent then "Low"
    else if current_cm2 >=? cm2_good then "Medium"
    else if current_cm2 >=? cm2_warning then "High"
    else "Critical"
  else
    if (current_cm2 >=? cm2_excellent) && (cm2_total_erosion >? -5)
    then "Medium"
    else if (current_cm2 >=? cm2_good) && (cm2_total_erosion >? -5)
    then "High"
    else if (current_cm2 >=? cm2_warning) && (cm2_total_erosion >? -10)
    then "High"
    else "Critical".

Definition assess_forecast_reliability (cm2_n1 cm2_n cm1_n1 cm1_n : Q)
  : string :=
  let cm2_change := if neqb cm2_n1 0 then Qabs (cm2_n - cm2_n1) else 0 in
  let cm1_change := if neqb cm1_n1 0 then Qabs (cm1_n - cm1_n1) else 0 in
  let avg_change := (cm2_change + cm1_change) / 2 in
  if avg_change <=? 1 then "Highly Reliable"
  else if avg_change <=? 3 then "Reliable"
  else if avg_change <=? 5 then "Moderately Reliable"
  else "Unreliable".

Module MV.

(** The full bundle of [calculate_margin_variability_metrics]. *)
Record Metrics := {
  cm2_total_erosion : Q;
  cm2_recent_change : Q;
  cm2_forecast_accuracy : Q;
  cm2_volatility_index : Root;
  cm1_total_erosion : Q;
  cm1_recent_change : Q;
  cm1_forecast_accuracy : Q;
  cm1_volatility_index : Root;
  margin_trend : string;
  margin_risk_level : string;
  forecast_reliability : string;
  cm2_erosion_value : Q;
  cm1_erosion_value : Q;
  cm2_current : Q;
  cm1_current : Q;
  has_historical_data : bool;
  cm2_as_sold : Q;
  cm2_fct_n1 : Q;
  cm1_as_sold : Q;
  cm1_fct_n1 : Q;
  selling_price_as_sold : Q;
  selling_price_fct_n : Q
}.

(** The two dicts the function can return. *)
Inductive Result :=
| NoData (cm2_cur cm1_cur : Q) (message : string)
| Analysed (m : Metrics).

(** [result['has_historical_data']]. *)
Definition flag (r : Result) : bool :=
  match r with
  | NoData _ _ _ => false
  | Analysed m => has_historical_data m
  end.

End MV.

(** The test that sets [has_historical_data]. *)
Definition historical_data_check
  (cm2_as_sold cm2_fct_n1 cm2_fct_n cm1_as_sold cm1_fct_n1 cm1_fct_n : Q)
  : bool :=
  if (neqb cm2_as_sold 0 && neqb cm2_as_sold cm2_fct_n)
     || (neqb cm2_fct_n1 0 && neqb cm2_fct_n1 cm2_fct_n) then true
  else if (neqb cm1_as_sold 0 && neqb cm1_as_sold cm1_fct_n)
          || (neqb cm1_fct_n1 0 && neqb cm1_fct_n1 cm1_fct_n) then true
  else false.

Definition calculate_margin_variability_metrics (th : ThresholdTable)
  (project_data : ProjectData) : MV.Result :=
  let ca := cost_analysis project_data in
  let contract_value :=
    safe_get_value (revenues project_data) "Contract Price" "n_ptd" in
  let cm2_as_sold := default 0 (ca !! "cm2_pct_as_sold") in
  let cm2_fct_n1 := default 0 (ca !! "cm2_pct_fct_n1") in
  let cm2_fct_n := default 0 (ca !! "cm2_pct_fct_n") in
  let cm1_as_sold := default 0 (ca !! "cm1_pct_as_sold") in
  let cm1_fct_n1 := default 0 (ca !! "cm1_pct_fct_n1") in
  let cm1_fct_n := default 0 (ca !! "cm1_pct_fct_n") in
  let sp_as_sold := default contract_value (ca !! "selling_price_as_sold") in
  let sp_fct_n := default contract_value (ca !! "selling_price_fct_n") in
  let has_hist :=
    historical_data_check cm2_as_sold cm2_fct_n1 cm2_fct_n
      cm1_as_sold cm1_fct_n1 cm1_fct_n in
  if negb has_hist then
    MV.NoData cm2_fct_n cm1_fct_n
      "No historical margin data found for variability analysis"
  else
    let cm2_total_erosion := cm2_fct_n - cm2_as_sold in
    let cm1_total_erosion := cm1_fct_n - cm1_as_sold in
    let cm2_erosion_value := cm2_total_erosion / 100 * sp_fct_n in
    let cm1_erosion_value := cm1_total_erosion / 100 * sp_fct_n in
    MV.Analysed
      {| MV.cm2_total_erosion := cm2_total_erosion;
         MV.cm2_recent_change := cm2_fct_n - cm2_fct_n1;
         MV.cm2_forecast_accuracy :=
           if neqb cm2_fct_n1 0 then Qabs (cm2_fct_n1 - cm2_fct_n) else 0;
         MV.cm2_volatility_index :=
           calculate_volatility_index [cm2_as_sold; cm2_fct_n1; cm2_fct_n];
         MV.cm1_total_erosion := cm1_total_erosion;
         MV.cm1_recent_change := cm1_fct_n - cm1_fct_n1;
         MV.cm1_forecast_accuracy :=
           if neqb cm1_fct_n1 0 then Qabs (cm1_fct_n1 - cm1_fct_n) else 0;
         MV.cm1_volatility_index :=
           calculate_volatility_index [cm1_as_sold; cm1_fct_n1; cm1_fct_n];
         MV.margin_trend :=
           assess_margin_trend cm2_as_sold cm2_fct_n1 cm2_fct_n;
         MV.margin_risk_level :=
           assess_margin_risk th cm2_fct_n cm2_total_erosion;
         MV.forecast_reliability :=
           assess_forecast_reliability cm2_fct_n1 cm2_fct_n cm1_fct_n1
             cm1_fct_n;
         MV.cm2_erosion_value := cm2_erosion_value;
         MV.cm1_erosion_value := cm1_erosion_value;
         MV.cm2_current := cm2_fct_n;
         MV.cm1_current := cm1_fct_n;
         MV.has_historical_data := has_hist;
         MV.cm2_as_sold := cm2_as_sold;
         MV.cm2_fct_n1 := cm2_fct_n1;
         MV.cm1_as_sold := cm1_as_sold;
         MV.cm1_fct_n1 := cm1_fct_n1;
         MV.selling_price_as_sold := sp_as_sold;
         MV.selling_price_fct_n := sp_fct_n |}.

(* ================================================================== *)
(** * Risk assessment engine *)

Definition risk (ty sev : string) (descr : string * list Q)
  (imp rec : string) : Risk.RiskFactor :=
  {| Risk.type := ty; Risk.severity := sev; Risk.description := descr;
     Risk.impact := imp; Risk.recommendation := rec |}.

(** The work packages counted by the concentration rule: variance above
    15 and not a risk-contingency line. *)
Definition high_variance_wps (wps : list WorkPackage) : list WorkPackage :=
  List.filter
    (fun wp => (variance_pct wp >? 15)
               && negb (mentions_risk_contingency (description wp)))
    wps.

(** No statement of the source's [try] block can raise on a record of
    the shape above (every division is guarded, every key is read with a
    default), so its [except] branch, which appends an 'Assessment Error'
    finding, is never entered and is not part of the model.  Each rule
    contributes the findings it appends, in the order of the source. *)
Definition assess_project_risks (th : ThresholdTable)
  (project_data : ProjectData) : list Risk.RiskFactor :=
  let ca := cost_analysis project_data in
  let cm2_pct := default 0 (ca !! "cm2_pct_fct_n") in
  let committed_ratio := default 0 (ca !! "committed_ratio") in
  let cost_var := default 0 (ca !! "cost_variance_pct") in
  let cm2_excellent := excellent (cm2_margin th) in
  let cm2_good := good (cm2_margin th) in
  let cm2_warning := warning (cm2_margin th) in
  let margin_rule :=
    if cm2_pct <? cm2_warning then
      [risk "Margin Risk" "Critical"
         ("CM2 margin critically low at {cm2_pct:.1f}% (below warning threshold: {cm2_warning}%)",
          [cm2_pct; cm2_warning])
         "High"
         "Immediate cost reduction and revenue optimization required"]
    else if cm2_pct <? cm2_good then
      [risk "Margin Risk" "High"
         ("CM2 margin below target at {cm2_pct:.1f}% (target: {cm2_good}%)",
          [cm2_pct; cm2_good])
         "Medium"
         "Review cost structure and identify optimization opportunities"]
    else if cm2_pct <? cm2_excellent then
      [risk "Margin Risk" "Medium"
         ("CM2 margin at {cm2_pct:.1f}% - room for improvement (excellent: {cm2_excellent}%)",
          [cm2_pct; cm2_excellent])
         "Low"
         "Continue monitoring and seek margin enhancement opportunities"]
    else [] in
  let commitment_rule :=
    if committed_ratio >? 1.2 then
      [risk "Cost Commitment" "Critical"
         ("Severe cost overcommitment: {committed_ratio:.2f} ratio",
          [committed_ratio])
         "High" "Emergency cost review and procurement controls"]
    else if committed_ratio >? 1.1 then
      [risk "Cost Commitment" "High"
         ("High cost commitment: {committed_ratio:.2f} ratio",
          [committed_ratio])
         "Medium" "Enhanced cost monitoring and approval processes"]
    else [] in
  let variance_rule :=
    if cost_var >? 25 then
      [risk "Cost Variance" "Critical"
         ("Extreme cost variance: {cost_variance:+.1f}%", [cost_var])
         "High" "Comprehensive cost baseline review required"]
    else if cost_var >? 15 then
      [risk "Cost Variance" "High"
         ("High cost variance: {cost_variance:+.1f}%", [cost_var])
         "Medium" "Detailed variance analysis and corrective action plan"]
    else [] in
  let poc_current := safe_get_value (revenues project_data) "POC%" "n_ptd" in
  let poc_previous := safe_get_value (revenues project_data) "POC%" "n1_ptd" in
  let poc_vel := calculate_poc_velocity poc_current poc_previous in
  let schedule_rule :=
    if (poc_vel <? 2) && (poc_current <? 90) then
      [risk "Schedule Risk" "High"
         ("Low POC velocity: {poc_velocity:.1f}%/month", [poc_vel])
         "Medium" "Resource reallocation and schedule acceleration"]
    else [] in
  let quarterly_data := cash_flow_quarterly project_data in
  let cash_flow_rule :=
    match quarterly_data with
    | [] => []
    | _ :: _ =>
        let negative_quarters :=
          length (List.filter (fun q => cf_fct_n (snd q) <? 0) quarterly_data) in
        let total_quarters := length quarterly_data in
        if of_nat negative_quarters >? of_nat total_quarters * 0.3 then
          [risk "Cash Flow" "High"
             ("Multiple negative cash flow quarters: {negative_quarters}/{total_quarters}",
              [of_nat negative_quarters; of_nat total_quarters])
             "High" "Cash flow optimization and milestone acceleration"]
        else []
    end in
  let revenue_current :=
    safe_get_value (revenues project_data) "Revenues" "n_ptd" in
  let revenue_previous :=
    safe_get_value (revenues project_data) "Revenues" "n1_ptd" in
  let revenue_variance :=
    calculate_period_variance revenue_current revenue_previous in
  let revenue_rule :=
    if revenue_variance <? -15 then
      [risk "Revenue Risk" "Critical"
         ("Significant revenue decline: {revenue_variance:.1f}%",
          [revenue_variance])
         "High" "Revenue recovery plan and stakeholder engagement"]
    else [] in
  let wps := work_packages project_data in
  let rcs := risk_contingencies wps in
  let contract_value :=
    safe_get_value (revenues project_data) "Contract Price" "n_ptd" in
  let total_risk_contingency := py_sum (List.map fct_n rcs) in
  let contingency_percentage :=
    if contract_value >? 0 then total_risk_contingency / contract_value * 100
    else 0 in
  let original_contingency := py_sum (List.map as_sold rcs) in
  let contingency_consumption :=
    if original_contingency >? 0
    then (original_contingency - total_risk_contingency)
         / original_contingency * 100
    else 0 in
  let contingency_rule :=
    match rcs with
    | _ :: _ =>
        if contingency_percentage <? 1 then
          [risk "Contingency Risk" "Medium"
             ("Insufficient risk contingency: {contingency_percentage:.1f}% of contract value",
              [contingency_percentage])
             "Medium"
             "Review risk register and consider contingency replenishment"]
        else if (contingency_percentage <? 5)
                && (contingency_consumption >? 80) then
          [risk "Contingency Risk" "High"
             ("Low contingency: {contingency_percentage:.1f}% remaining, {contingency_consumption:.0f}% consumed",
              [contingency_percentage; contingency_consumption])
             "High"
             "Monitor emerging risks closely, prepare contingency plan"]
        else []
    | [] =>
        [risk "Contingency Risk" "High"
           ("No risk contingency identified in project structure", [])
           "High"
           "Establish risk contingency budget for unforeseen events"]
    end in
  let high := high_variance_wps wps in
  let wp_rule :=
    if (0 <? length wps)%nat
       && (of_nat (length high) / of_nat (length wps) >? 0.3) then
      [risk "WP Performance Risk" "High"
         ("{len(high_variance_wps)} of {len(work_packages)} work packages exceeding budget by >15%",
          [of_nat (length high); of_nat (length wps)])
         "High"
         "Systemic issue - review estimation or execution processes"]
    else [] in
  let buffer_rule :=
    match rcs with
    | _ :: _ =>
        if (contingency_percentage <? 3) && (cm2_pct <? 10) then
          [risk "Financial Buffer Risk" "Critical"
             ("Low contingency ({contingency_percentage:.1f}%) combined with thin margins ({cm2_pct:.1f}%)",
              [contingency_percentage; cm2_pct])
             "High" "Project has minimal financial buffer for risks"]
        else []
    | [] => []
    end in
  margin_rule ++ commitment_rule ++ variance_rule ++ schedule_rule
  ++ cash_flow_rule ++ revenue_rule ++ contingency_rule ++ wp_rule
  ++ buffer_rule.

(* ================================================================== *)
(** * Portfolio aggregator *)

(** One entry of [portfolio_data]; [data] is [None] when the stored
    value is empty. *)
Record Project := {
  name : string;
  data : option ProjectData
}.

Module Metrics.

(** The accumulator dict [metrics]. *)
Record t := {
  total_contract_value_n : Q;
  total_contract_value_n1 : Q;
  total_revenue_n : Q;
  total_revenue_n1 : Q;
  total_cash_in_n : Q;
  total_cash_in_n1 : Q;
  total_cash_out_n : Q;
  total_cash_out_n1 : Q;
  total_cm1_value : Q;
  total_cm2_value : Q;
  total_ec : Q;
  total_ic : Q;
  total_committed : Q;
  total_as_sold : Q;
  valid_projects : nat;
  weighted_poc_n : Q;
  weighted_poc_n1 : Q;
  total_cpi : Q;
  total_spi : Q;
  total_risk_score : nat;
  total_contingency_as_sold : Q;
  total_contingency_fct_n : Q;
  weighted_poc_for_contingency : Q;
  projects_with_contingency : nat
}.

Definition zero : t := {|
  total_contract_value_n := 0; total_contract_value_n1 := 0;
  total_revenue_n := 0; total_revenue_n1 := 0;
  total_cash_in_n := 0; total_cash_in_n1 := 0;
  total_cash_out_n := 0; total_cash_out_n1 := 0;
  total_cm1_value := 0; total_cm2_value := 0;
  total_ec := 0; total_ic := 0;
  total_committed := 0; total_as_sold := 0;
  valid_projects := 0; weighted_poc_n := 0; weighted_poc_n1 := 0;
  total_cpi := 0; total_spi := 0; total_risk_score := 0;
  total_contingency_as_sold := 0;
  total_contingency_fct_n := 0;
  weighted_poc_for_contingency := 0;
  projects_with_contingency := 0
|}.

End Metrics.

Module Summary.

(** The dict [portfolio_summary]. *)
Record t := {
  total_contract_value : Q;
  total_revenue : Q;
  total_cm1 : Q;
  total_cm2 : Q;
  net_cash_flow : Q;
  project_count : nat;
  total_contract_value_n1 : Q;
  total_revenue_n1 : Q;
  net_cash_flow_n1 : Q;
  contract_variance : Q;
  revenue_variance : Q;
  net_cash_variance : Q;
  avg_cm1_pct : Q;
  avg_cm2_pct : Q;
  portfolio_ec_pct : Q;
  portfolio_ic_pct : Q;
  portfolio_committed_ratio : Q;
  avg_cost_performance_index : Q;
  avg_schedule_performance_index : Q;
  weighted_poc_n : Q;
  weighted_poc_n1 : Q;
  average_risk_score : Q;
  total_portfolio_value_at_risk : Q;
  cash_flow_efficiency : Q;
  portfolio_contingency_efficiency : option Q;
  total_contingency_as_sold : Q;
  total_contingency_fct_n : Q;
  projects_with_contingency : nat;
  weighted_poc_velocity : Q
}.

End Summary.

Definition severity_in (sevs : list string) (r : Risk.RiskFactor) : bool :=
  existsb (String.eqb (Risk.severity r)) sevs.

(** The body of the loop over [portfolio_data.items()]. *)
Definition accumulate_project (metrics : Metrics.t) (entry : string * Project)
  : Metrics.t :=
  match data (snd entry) with
  | None => metrics
  | Some d =>
      let contract_n := safe_get_value (revenues d) "Contract Price" "n_ptd" in
      let contract_n1 := safe_get_value (revenues d) "Contract Price" "n1_ptd" in
      let revenue_n := safe_get_value (revenues d) "Revenues" "n_ptd" in
      let revenue_n1 := safe_get_value (revenues d) "Revenues" "n1_ptd" in
      let cash_in_n := safe_get_value (revenues d) "Cash IN" "n_ptd" in
      let cash_in_n1 := safe_get_value (revenues d) "Cash IN" "n1_ptd" in
      let cash_out_n := safe_get_value (revenues d) "Cash OUT" "n_ptd" in
      let cash_out_n1 := safe_get_value (revenues d) "Cash OUT" "n1_ptd" in
      let poc_n := safe_get_value (revenues d) "POC%" "n_ptd" in
      let poc_n1 := safe_get_value (revenues d) "POC%" "n1_ptd" in
      let ca := cost_analysis d in
      let ev := earned_value d in
      let rfs := risk_factors d in
      let wps := work_packages d in
      if contract_n >? 0 then
        let risk_score :=
          (length (List.filter (severity_in ["Critical"; "High"]) rfs) * 2
           + length (List.filter (severity_in ["Medium"]) rfs))%nat in
        let cm := calculate_contingency_metrics wps poc_n in
        let hc := has_contingency cm in
        {| Metrics.total_contract_value_n :=
             Metrics.total_contract_value_n metrics + contract_n;
           Metrics.total_contract_value_n1 :=
             Metrics.total_contract_value_n1 metrics + contract_n1;
           Metrics.total_revenue_n := Metrics.total_revenue_n metrics + revenue_n;
           Metrics.total_revenue_n1 :=
             Metrics.total_revenue_n1 metrics + revenue_n1;
           Metrics.total_cash_in_n := Metrics.total_cash_in_n metrics + cash_in_n;
           Metrics.total_cash_in_n1 :=
             Metrics.total_cash_in_n1 metrics + cash_in_n1;
           Metrics.total_cash_out_n :=
             Metrics.total_cash_out_n metrics + cash_out_n;
           Metrics.total_cash_out_n1 :=
             Metrics.total_cash_out_n1 metrics + cash_out_n1;
           Metrics.total_cm1_value :=
             Metrics.total_cm1_value metrics
             + default 0 (ca !! "cm1_value_fct_n");
           Metrics.total_cm2_value :=
             Metrics.total_cm2_value metrics
             + default 0 (ca !! "cm2_value_fct_n");
           Metrics.total_ec :=
             Metrics.total_ec metrics + default 0 (ca !! "ec_total_fct_n");
           Metrics.total_ic :=
             Metrics.total_ic metrics + default 0 (ca !! "ic_total_fct_n");
           Metrics.total_committed :=
             Metrics.total_committed metrics
             + default 0 (ca !! "total_committed");
           Metrics.total_as_sold :=
             Metrics.total_as_sold metrics + default 0 (ca !! "total_as_sold");
           Metrics.valid_projects := (Metrics.valid_projects metrics + 1)%nat;
           Metrics.weighted_poc_n :=
             Metrics.weighted_poc_n metrics + poc_n * contract_n;
           Metrics.weighted_poc_n1 :=
             Metrics.weighted_poc_n1 metrics + poc_n1 * contract_n1;
           Metrics.total_cpi :=
             Metrics.total_cpi metrics
             + default 1.0 (ev !! "cost_performance_index");
           Metrics.total_spi :=
             Metrics.total_spi metrics
             + default 1.0 (ev !! "schedule_performance_index");
           Metrics.total_risk_score :=
             (Metrics.total_risk_score metrics + risk_score)%nat;
           Metrics.total_contingency_as_sold :=
             if hc then Metrics.total_contingency_as_sold metrics
                        + contingency_as_sold cm
             else Metrics.total_contingency_as_sold metrics;
           Metrics.total_contingency_fct_n :=
             if hc then Metrics.total_contingency_fct_n metrics
                        + contingency_fct_n cm
             else Metrics.total_contingency_fct_n metrics;
           Metrics.weighted_poc_for_contingency :=
             if hc then Metrics.weighted_poc_for_contingency metrics
                        + poc_n * contract_n
             else Metrics.weighted_poc_for_contingency metrics;
           Metrics.projects_with_contingency :=
             if hc then (Metrics.projects_with_contingency metrics + 1)%nat
             else Metrics.projects_with_contingency metrics |}
      else metrics
  end.

(** The portfolio contingency efficiency computed after the loop. *)
Definition portfolio_efficiency (m : Metrics.t) : option Q :=
  if (0 <? Metrics.projects_with_contingency m)%nat
     && (Metrics.total_contingency_as_sold m >? 0) then
    let consumed :=
      Metrics.total_contingency_as_sold m - Metrics.total_contingency_fct_n m in
    let consumed_pct := consumed / Metrics.total_contingency_as_sold m * 100 in
    let avg_poc :=
      if Metrics.total_contract_value_n m >? 0
      then Metrics.weighted_poc_for_contingency m
           / Metrics.total_contract_value_n m
      else 0 in
    if avg_poc >? 0 then
      Some (py_max 0 (py_min 200 ((2 - consumed_pct / avg_poc) * 100)))
    else None
  else None.

(** The summary dict built from the accumulated [metrics]. *)
Definition summarise (m : Metrics.t) : Summary.t :=
  let tcv := Metrics.total_contract_value_n m in
  let per_contract (x : Q) := if tcv >? 0 then x / tcv * 100 else 0 in
  let w_n := if tcv >? 0 then Metrics.weighted_poc_n m / tcv else 0 in
  let w_n1 :=
    if Metrics.total_contract_value_n1 m >? 0
    then Metrics.weighted_poc_n1 m / Metrics.total_contract_value_n1 m
    else 0 in
  {| Summary.total_contract_value := tcv;
     Summary.total_revenue := Metrics.total_revenue_n m;
     Summary.total_cm1 := Metrics.total_cm1_value m;
     Summary.total_cm2 := Metrics.total_cm2_value m;
     Summary.net_cash_flow :=
       Metrics.total_cash_in_n m - Metrics.total_cash_out_n m;
     Summary.project_count := Metrics.valid_projects m;
     Summary.total_contract_value_n1 := Metrics.total_contract_value_n1 m;
     Summary.total_revenue_n1 := Metrics.total_revenue_n1 m;
     Summary.net_cash_flow_n1 :=
       Metrics.total_cash_in_n1 m - Metrics.total_cash_out_n1 m;
     Summary.contract_variance :=
       calculate_period_variance tcv (Metrics.total_contract_value_n1 m);
     Summary.revenue_variance :=
       calculate_period_variance (Metrics.total_revenue_n m)
         (Metrics.total_revenue_n1 m);
     Summary.net_cash_variance :=
       calculate_period_variance
         (Metrics.total_cash_in_n m - Metrics.total_cash_out_n m)
         (Metrics.total_cash_in_n1 m - Metrics.total_cash_out_n1 m);
     Summary.avg_cm1_pct := per_contract (Metrics.total_cm1_value m);
     Summary.avg_cm2_pct := per_contract (Metrics.total_cm2_value m);
     Summary.portfolio_ec_pct := per_contract (Metrics.total_ec m);
     Summary.portfolio_ic_pct := per_contract (Metrics.total_ic m);
     Summary.portfolio_committed_ratio :=
       if Metrics.total_as_sold m >? 0
       then Metrics.total_committed m / Metrics.total_as_sold m else 0;
     Summary.avg_cost_performance_index :=
       Metrics.total_cpi m / of_nat (Metrics.valid_projects m);
     Summary.avg_schedule_performance_index :=
       Metrics.total_spi m / of_nat (Metrics.valid_projects m);
     Summary.weighted_poc_n := w_n;
     Summary.weighted_poc_n1 := w_n1;
     Summary.average_risk_score :=
       of_nat (Metrics.total_risk_score m) / of_nat (Metrics.valid_projects m);
     Summary.total_portfolio_value_at_risk := 0;
     Summary.cash_flow_efficiency :=
       if Metrics.total_cash_out_n m >? 0
       then Metrics.total_cash_in_n m / Metrics.total_cash_out_n m else 1.0;
     Summary.portfolio_contingency_efficiency := portfolio_efficiency m;
     Summary.total_contingency_as_sold := Metrics.total_contingency_as_sold m;
     Summary.total_contingency_fct_n := Metrics.total_contingency_fct_n m;
     Summary.projects_with_contingency := Metrics.projects_with_contingency m;
     Summary.weighted_poc_velocity := calculate_poc_velocity w_n w_n1 |}.

(** [None] is the source's [return None]. *)
Definition create_enhanced_portfolio_summary
  (portfolio_data : list (string * Project)) : option Summary.t :=
  match portfolio_data with
  | [] => None
  | _ :: _ =>
      let metrics := fold_left accumulate_project portfolio_data Metrics.zero in
      if (Metrics.valid_projects metrics =? 0)%nat then None
      else Some (summarise metrics)
  end.

(** [portfolio_data[project_id] = project] for an identifier the dict
    may or may not hold: an existing key keeps its place. *)
Fixpoint portfolio_set (project_id : string) (p : Project)
  (d : list (string * Project)) : list (string * Project) :=
  match d with
  | [] => [(project_id, p)]
  | (k, v) :: t =>
      if String.eqb k project_id then (k, p) :: t
      else (k, v) :: portfolio_set project_id p t
  end.

(* ================================================================== *)
(** * Earned value engine *)

(** The dict returned by [calculate_earned_value_metrics], the value the
    parser stores under ['earned_value'].  Every division is guarded and
    every key is read with a default, so the [except] branch, which
    returns the neutral bundle, is not taken on a record of the shape
    above. *)
Definition calculate_earned_value_metrics (project_data : ProjectData)
  : gmap string Q :=
  let contract_value :=
    safe_get_value (revenues project_data) "Contract Price" "n_ptd" in
  let poc_current := safe_get_value (revenues project_data) "POC%" "n_ptd" in
  let revenue_current :=
    safe_get_value (revenues project_data) "Revenues" "n_ptd" in
  let actual_costs :=
    default 0 (cost_analysis project_data !! "total_actuals") in
  let planned_value := contract_value in
  let earned :=
    if poc_current >? 0 then poc_current / 100 * contract_value
    else revenue_current in
  let actual_cost :=
    if actual_costs >? 0 then actual_costs else revenue_current in
  let cpi := if actual_cost >? 0 then earned / actual_cost else 1.0 in
  let spi :=
    if revenue_current >? 0
    then earned / (if revenue_current >? 0 then revenue_current else earned)
    else 1.0 in
  let cost_var := earned - actual_cost in
  let schedule_var := earned - revenue_current in
  let eac :=
    if cpi >? 0 then actual_cost + (contract_value - earned) / cpi
    else contract_value in
  let vac := contract_value - eac in
  list_to_map
    [ ("planned_value", planned_value);
      ("earned_value", earned);
      ("actual_cost", actual_cost);
      ("cost_performance_index", cpi);
      ("schedule_performance_index", spi);
      ("cost_variance", cost_var);
      ("schedule_variance", schedule_var);
      ("estimate_at_completion", eac);
      ("variance_at_completion", vac);
      ("cost_efficiency", (cpi - 1) * 100);
      ("schedule_efficiency", (spi - 1) * 100) ].

(** A cell of the earned-value dict. *)
Definition ev_get (project_data : ProjectData) (k : string) : option Q :=
  calculate_earned_value_metrics project_data !! k.

(* ================================================================== *)
(** * POC velocity and maturity model, overall status, health score *)

Definition calculate_expected_poc_velocity (poc_current : Q) : Q :=
  if poc_current >=? 95 then 1.0
  else if poc_current >=? 90 then 2.0
  else if poc_current >=? 80 then 3.0
  else if poc_current >=? 60 then 5.0
  else if poc_current >=? 40 then 7.0
  else 10.0.

Definition get_poc_velocity_status_with_maturity (poc_vel poc_current : Q)
  : Icon * string * string :=
  let expected_velocity := calculate_expected_poc_velocity poc_current in
  let velocity_ratio :=
    if expected_velocity >? 0 then poc_vel / expected_velocity else 0 in
  if velocity_ratio >=? 1.2 then (GreenCircle, "Excellent", "excellent")
  else if velocity_ratio >=? 0.8 then (GreenCircle, "Good", "good")
  else if velocity_ratio >=? 0.5 then (YellowCircle, "Warning", "warning")
  else (RedCircle, "Critical", "critical").

(** [status_scores.get(cls, dflt)]. *)
Definition status_score (cls : string) (dflt : nat) : nat :=
  if String.eqb cls "excellent" then 4
  else if String.eqb cls "good" then 3
  else if String.eqb cls "warning" then 2
  else if String.eqb cls "critical" then 1
  else dflt.

(** The optional arguments are [None] when not given; the label is
    returned without its pictograph. *)
Definition get_overall_project_status
  (cm2_class committed_class poc_class : string)
  (poc_current poc_vel : option Q) : string :=
  let cm2_score := status_score cm2_class 1 in
  let committed_score := status_score committed_class 1 in
  let poc_score := status_score poc_class 1 in
  let poc_score :=
    match poc_current, poc_vel with
    | Some pc, Some pv =>
        status_score
          (snd (get_poc_velocity_status_with_maturity pv pc)) poc_score
    | _, _ => poc_score
    end in
  let avg_score := of_nat (cm2_score + committed_score + poc_score) / 3 in
  if avg_score >=? 3.5 then "Excellent"
  else if avg_score >=? 2.5 then "Good"
  else if avg_score >=? 1.5 then "Warning"
  else "Critical".

Definition calculate_project_health_score
  (cpi spi cm2_pct : Q) (poc_vel : option Q) : Q :=
  let cpi_score := py_min (cpi * 100) 120 in
  let spi_score := py_min (spi * 100) 120 in
  let cm2_score :=
    if cm2_pct <=? 0 then 0
    else if cm2_pct <=? 15 then cm2_pct / 15 * 100
    else py_min (100 + (cm2_pct - 15) / 5 * 20) 120 in
  let velocity_score :=
    match poc_vel with
    | Some v =>
        if v <=? 0 then 0
        else if v <=? 5 then v / 5 * 100
        else py_min (100 + (v - 5) / 2 * 20) 120
    | None => 100
    end in
  let health_score :=
    match poc_vel with
    | Some _ =>
        cpi_score * 0.30 + spi_score * 0.30 + cm2_score * 0.25
        + velocity_score * 0.15
    | None => cpi_score * 0.35 + spi_score * 0.35 + cm2_score * 0.30
    end in
  py_min (py_max health_score 0) 100.

(** The score of the progress class that enters the average. *)
Definition progress_score (poc_class : string) (poc_current poc_vel : option Q)
  : nat :=
  match poc_current, poc_vel with
  | Some pc, Some pv =>
      status_score (snd (get_poc_velocity_status_with_maturity pv pc)) 1
  | _, _ => status_score poc_class 1
  end.

(** The types of the nine rules of [assess_project_risks], in the order
    the rules are evaluated. *)
Definition risk_types : list string :=
  [ "Margin Risk"; "Cost Commitment"; "Cost Variance"; "Schedule Risk";
    "Cash Flow"; "Revenue Risk"; "Contingency Risk"; "WP Performance Risk";
    "Financial Buffer Risk" ].

(** The rank of a status label or class, worst first. *)
Definition status_rank (label : string) : nat :=
  if String.eqb label "Excellent" || String.eqb label "excellent" then 3
  else if String.eqb label "Good" || String.eqb label "good" then 2
  else if String.eqb label "Warning" || String.eqb label "warning" then 1
  else 0.

(** The rank of a margin risk level, lowest risk first. *)
Definition risk_rank (level : string) : nat :=
  if String.eqb level "Low" then 0
  else if String.eqb level "Medium" then 1
  else if String.eqb level "High" then 2
  else 3.

(** A project counts in the portfolio when it has data and a positive
    current contract value. *)
Definition is_valid_project (entry : string * Project) : bool :=
  match data (snd entry) with
  | Some d => safe_get_value (revenues d) "Contract Price" "n_ptd" >? 0
  | None => false
  end.

(** The item codes the parser keeps out of the work packages: the
    summary rows. *)
Definition is_summary_code (item_str : string) : bool :=
  existsb (fun keyword => contains keyword (upper item_str))
    ["TOTAL"; "CM1"; "CM2"; "SELLING"].

(** What the parser derives for a package beside its variance. *)
Definition derived_fields (wp : WorkPackage) : Prop :=
  is_risk_contingency wp = mentions_risk_contingency (description wp)
  /\ commitment_ratio wp
     = (if as_sold wp >? 0 then committed wp / as_sold wp else 0).

(** The work packages form a dict keyed by code that holds no summary
    row. *)
Definition keyed_by_code (wps : list WorkPackage) : Prop :=
  NoDup (List.map code wps)
  /\ Forall (fun wp => is_summary_code (code wp) = false) wps.

(** The current POC of a portfolio entry (0 without data). *)
Definition current_poc (entry : string * Project) : Q :=
  match data (snd entry) with
  | Some d => safe_get_value (revenues d) "POC%" "n_ptd"
  | None => 0
  end.

(** The earned value of a project: the POC share of the contract value,
    or the revenue when no POC is reported. *)
Definition earned_value_of (pd : ProjectData) : Q :=
  let contract_value :=
    safe_get_value (revenues pd) "Contract Price" "n_ptd" in
  let poc_current := safe_get_value (revenues pd) "POC%" "n_ptd" in
  let revenue_current := safe_get_value (revenues pd) "Revenues" "n_ptd" in
  if poc_current >? 0 then poc_current / 100 * contract_value
  else revenue_current.

(** The selling price of a period as the margin block finds it: the
    cell the row loop wrote when a selling-price row was found, the
    contract value otherwise. *)
Definition period_selling_price
  (contract_value : Q) (rows_read : ProjectData) (period : string)
  : option Q :=
  if default false (selling_price_found rows_read)
  then cost_analysis rows_read !! ("selling_price_" +:+ period)
  else Some contract_value.

(** The two cost totals of a period. *)
Definition cost_total_keys (period : string) : list string :=
  [ "ec_total_" +:+ period; "ic_total_" +:+ period ].

(** The test of the parser for a selling-price row, on a row that is
    read at all. *)
Definition is_selling_price_row (row : CostRow) : bool :=
  match item_code row with
  | None => false
  | Some "" => false
  | Some ic =>
      contains "SELLING PRICE" (upper (strip ic))
      || contains "SELLING PRICE" (upper (description_cell row))
  end.

(* ================================================================== *)
(** * Definitions that follow the specification's words

    Each is compared below with the definition taken from the source. *)

(** "clamped to [lo, hi]". *)
Definition clamp (lo hi x : Q) : Q :=
  if Qlt_le_dec x lo then lo else if Qlt_le_dec hi x then hi else x.

(** "consumed_pct = consumed_amount / as_sold x 100 (0 if as_sold = 0)",
    with consumed_amount = as_sold - fct_n. *)
Definition consumed_pct_spec (total_as_sold total_fct_n : Q) : Q :=
  if total_as_sold =? 0 then 0
  else (total_as_sold - total_fct_n) / total_as_sold * 100.

(** The third component returned by the classifier. *)
Definition tier_of (r : Icon * string * string) : string := snd r.

(** The classifier of the specification: "excellent if value >=
    thresholds.excellent; else good if >= thresholds.good; else, if a
    stable tier exists and value >= thresholds.stable, stable; else
    warning if >= thresholds.warning; else critical", in reverse mode
    "excellent if value <= excellent; good if <= good; warning if <=
    warning; else critical", and not-a-number as the worst tier. *)
Definition classify_spec (value : num) (th : ThresholdBand) (reverse : bool)
  : string :=
  match value with
  | NaN => "critical"
  | Real v =>
      if reverse then
        if Qlt_le_dec (excellent th) v then
          if Qlt_le_dec (good th) v then
            if Qlt_le_dec (warning th) v then "critical" else "warning"
          else "good"
        else "excellent"
      else
        if Qlt_le_dec v (excellent th) then
          if Qlt_le_dec v (good th) then
            match stable th with
            | Some s =>
                if Qlt_le_dec v s then
                  if Qlt_le_dec v (warning th) then "critical" else "warning"
                else "stable"
            | None =>
                if Qlt_le_dec v (warning th) then "critical" else "warning"
            end
          else "good"
        else "excellent"
  end.

(** How good a tier is: the order of the cascade. *)
Definition tier_rank (t : string) : nat :=
  if String.eqb t "excellent" then 4
  else if String.eqb t "good" then 3
  else if String.eqb t "stable" then 2
  else if String.eqb t "warning" then 1
  else 0.

(** "At least two of the three period values differ". *)
Definition two_differ (a b c : Q) : Prop := ~ (a == b /\ b == c).

(** What [has_historical_data] tests on one margin: a baseline or
    previous forecast that is there (non-zero) and differs from the
    current forecast. *)
Definition moved (v_as_sold v_fct_n1 v_fct_n : Q) : Prop :=
  (~ v_as_sold == 0 /\ ~ v_as_sold == v_fct_n)
  \/ (~ v_fct_n1 == 0 /\ ~ v_fct_n1 == v_fct_n).

(** The work packages that are not risk-contingency lines. *)
Definition non_contingency (wps : list WorkPackage) : list WorkPackage :=
  List.filter (fun wp => negb (mentions_risk_contingency (description wp)))
    wps.

Definition has_type (ty : string) (r : Risk.RiskFactor) : bool :=
  String.eqb (Risk.type r) ty.

(** The finding of the work-package concentration rule. *)
Definition wp_performance_finding (n_high n_all : nat) : Risk.RiskFactor :=
  risk "WP Performance Risk" "High"
    ("{len(high_variance_wps)} of {len(work_packages)} work packages exceeding budget by >15%",
     [of_nat n_high; of_nat n_all])
    "High" "Systemic issue - review estimation or execution processes".

(** The finding raised when a project has no risk-contingency line. *)
Definition no_contingency_finding : Risk.RiskFactor :=
  risk "Contingency Risk" "High"
    ("No risk contingency identified in project structure", [])
    "High" "Establish risk contingency budget for unforeseen events".

(** The remaining contingency as a percentage of the contract value,
    and the consumed share of the original contingency, as the
    contingency rule computes them. *)
Definition remaining_contingency_pct (pd : ProjectData) : Q :=
  let contract_value :=
    safe_get_value (revenues pd) "Contract Price" "n_ptd" in
  if contract_value >? 0
  then py_sum (List.map fct_n (risk_contingencies (work_packages pd)))
       / contract_value * 100
  else 0.

Definition consumed_contingency_pct (pd : ProjectData) : Q :=
  let rcs := risk_contingencies (work_packages pd) in
  if py_sum (List.map as_sold rcs) >? 0
  then (py_sum (List.map as_sold rcs) - py_sum (List.map fct_n rcs))
       / py_sum (List.map as_sold rcs) * 100
  else 0.

(** The two findings of the contingency rule for a project that has
    contingency lines. *)
Definition insufficient_contingency_finding (pct : Q) : Risk.RiskFactor :=
  risk "Contingency Risk" "Medium"
    ("Insufficient risk contingency: {contingency_percentage:.1f}% of contract value",
     [pct])
    "Medium" "Review risk register and consider contingency replenishment".

Definition low_contingency_finding (pct consumed : Q) : Risk.RiskFactor :=
  risk "Contingency Risk" "High"
    ("Low contingency: {contingency_percentage:.1f}% remaining, {contingency_consumption:.0f}% consumed",
     [pct; consumed])
    "High" "Monitor emerging risks closely, prepare contingency plan".

(** A cell of the [cost_analysis] dict read with default 0. *)
Definition ca_get (pd : ProjectData) (k : string) : Q :=
  default 0 (cost_analysis pd !! k).

(** ** Cells of the cost analysis *)

(** Every key of the initial dict is present. *)
Definition keys_present (ca : gmap string Q) : Prop :=
  forall k, In k cost_analysis_keys -> is_Some (ca !! k).

(** The four margin keys of a period, and all seven keys of a period. *)
Definition margin_keys (period : string) : list string :=
  [ "cm1_value_" +:+ period; "cm1_pct_" +:+ period;
    "cm2_value_" +:+ period; "cm2_pct_" +:+ period ].

Definition period_keys (period : string) : list string :=
  [ "selling_price_" +:+ period; "ec_total_" +:+ period;
    "ic_total_" +:+ period ] ++ margin_keys period.

(** The margins of a period are untouched: all four cells hold 0. *)
Definition margins_zero (period : string) (ca : gmap string Q) : Prop :=
  forall k, In k (margin_keys period) -> ca !! k = Some 0.

(** The state of a period's cells after the margin derivation. *)
Definition margins_derived (period : string) (ca : gmap string Q) : Prop :=
  exists sp ec ic,
    ca !! ("selling_price_" +:+ period) = Some sp
    /\ ca !! ("ec_total_" +:+ period) = Some ec
    /\ ca !! ("ic_total_" +:+ period) = Some ic
    /\ (0 < sp ->
        exists cm1 cm2,
          ca !! ("cm1_value_" +:+ period) = Some cm1
          /\ ca !! ("cm2_value_" +:+ period) = Some cm2
          /\ cm2 = cm1 - ic
          /\ cm1 = sp - ec
          /\ cm2 = sp - ec - ic
          /\ ca !! ("cm1_pct_" +:+ period) = Some (cm1 / sp * 100)
          /\ ca !! ("cm2_pct_" +:+ period) = Some (cm2 / sp * 100))
    /\ (sp <= 0 -> margins_zero period ca).

(** The keys the row loop writes. *)
Definition row_keys : list string :=
  [ "selling_price_as_sold"; "selling_price_fct_n1"; "selling_price_fct_n";
    "total_as_sold"; "total_committed"; "total_fct_n"; "total_fct_n1";
    "total_actuals"; "cost_variance_pct";
    "ec_total_as_sold"; "ec_total_fct_n1"; "ec_total_fct_n";
    "ic_total_as_sold"; "ic_total_fct_n1"; "ic_total_fct_n" ].

(** What the parser stores as a package's variance. *)
Definition stored_variance (wp : WorkPackage) : Prop :=
  variance_pct wp
  = (if as_sold wp >? 0
     then calculate_period_variance (fct_n wp) (as_sold wp) else 0).

(* ================================================================== *)
(** * Sample inputs *)

Definition sample_wp (c d : string) (a_s f_n1 f_n var : Q) : WorkPackage :=
  {| code := c; description := d; as_sold := a_s; committed := 0; ctc := 0;
     fct_n := f_n; fct_n1 := f_n1; actuals := 0; variance_pct := var;
     commitment_ratio := 0;
     is_risk_contingency := mentions_risk_contingency d |}.

(** A project with the given work packages and cost-analysis cells. *)
Definition sample_project (wps : list WorkPackage) (ca : gmap string Q)
  : ProjectData :=
  {| revenues := ∅; work_packages := wps; cash_flow_quarterly := [];
     cost_analysis := ca; selling_price_found := Some true;
     earned_value := ∅; risk_factors := [] |}.

(** One overrunning package beside three risk-contingency lines. *)
Definition one_overrun_three_contingencies : list WorkPackage :=
  [ sample_wp "1.1" "Civil works" 100 120 120 20;
    sample_wp "9.1" "Risk contingency - design" 10 10 10 0;
    sample_wp "9.2" "Risk contingency - site" 10 10 10 0;
    sample_wp "9.3" "Risk Contingencies (other)" 10 10 10 0 ].

(** Contingency lines summing to 1000 / 900 / 850. *)
Definition scenario_contingencies : list WorkPackage :=
  [ sample_wp "1.1" "Civil works" 5000 5100 5200 4;
    sample_wp "9.1" "Risk contingency - design" 600 500 450 (-25);
    sample_wp "9.2" "RISK CONTINGENCY site" 400 400 400 0 ].

(** Margins known for the current forecast only. *)
Definition current_margins_only : gmap string Q :=
  <["cm2_pct_fct_n" := 12]> (<["cm1_pct_fct_n" := 20]> initial_cost_analysis).

(** A cost sheet with a selling price, the two cost totals, and a work
    package without as-sold budget. *)
Definition cost_row (c d : string) (a_s f_n f_n1 : Q) : CostRow :=
  {| item_code := Some c; description_cell := d;
     cell_as_sold := Number a_s; cell_committed := Blank; cell_ctc := Blank;
     cell_fct_n := Number f_n; cell_fct_n1 := Number f_n1;
     cell_actuals := Blank |}.

Definition sample_sheet : CostSheet :=
  {| max_column := 9;
     cost_rows :=
       [ cost_row "Selling Price" "" 1000 1100 0;
         cost_row "1.1" "Civil works" 500 600 550;
         cost_row "1.2" "Late addition" 0 50 0;
         cost_row "Total EC" "" 600 700 650;
         cost_row "Total IL" "" 200 250 220;
         cost_row "TOTAL" "" 800 950 870 ] |}.

(** A project without data worth counting: contract value 0. *)
Definition zero_contract_project : Project :=
  {| name := "Empty";
     data := Some (sample_project one_overrun_three_contingencies
                     current_margins_only) |}.

(** A project with a contract value of 500. *)
Definition live_project : Project :=
  {| name := "Live";
     data :=
       Some {| revenues :=
                 <["Contract Price" := <["n_ptd" := 500]> ∅]>
                   (<["POC%" := <["n_ptd" := 40]> ∅]> ∅);
               work_packages := scenario_contingencies;
               cash_flow_quarterly := [];
               cost_analysis := current_margins_only;
               selling_price_found := Some true;
               earned_value := ∅;
               risk_factors := [] |} |}.

(** A project 40% complete: contract 1000, revenue 380, actual costs
    350. *)
Definition earned_value_project : ProjectData :=
  {| revenues :=
       <["Contract Price" := <["n_ptd" := 1000]> ∅]>
         (<["POC%" := <["n_ptd" := 40]> (<["n1_ptd" := 33]> ∅)]>
            (<["Revenues" := <["n_ptd" := 380]> ∅]> ∅));
     work_packages := scenario_contingencies;
     cash_flow_quarterly := [];
     cost_analysis := <["total_actuals" := 350]> initial_cost_analysis;
     selling_price_found := Some true;
     earned_value := ∅;
     risk_factors := [] |}.

(** A project with costs booked but neither progress nor revenue. *)
Definition stalled_project : ProjectData :=
  {| revenues := <["Contract Price" := <["n_ptd" := 1000]> ∅]> ∅;
     work_packages := [];
     cash_flow_quarterly := [];
     cost_analysis := <["total_actuals" := 120]> initial_cost_analysis;
     selling_price_found := Some true;
     earned_value := ∅;
     risk_factors := [] |}.

(** A cost sheet without a selling-price row, and revenues that give
    the contract value only. *)
Definition sheet_without_selling_price : CostSheet :=
  {| max_column := 9;
     cost_rows :=
       [ cost_row "1.1" "Civil works" 500 600 550;
         cost_row "Total EC" "" 600 700 650;
         cost_row "TOTAL" "" 800 950 870 ] |}.

Definition contract_only_revenues : gmap string (gmap string Q) :=
  <["Contract Price" := <["n_ptd" := 900]> ∅]> ∅.

(* ================================================================== *)
(** * Comparison lemmas *)

Lemma ltb_lt (x y : Q) : (x <? y) = true <-> x < y.
Proof.
  unfold ltb. rewrite Qlt_alt. destruct (x ?= y); split; congruence.
Qed.

Lemma ltb_ge (x y : Q) : (x <? y) = false <-> y <= x.
Proof.
  rewrite <- not_true_iff_false, ltb_lt. split.
  - apply Qnot_lt_le.
  - apply Qle_not_lt.
Qed.

Lemma leb_le (x y : Q) : (x <=? y) = true <-> x <= y.
Proof. apply Qle_bool_iff. Qed.

Lemma leb_gt (x y : Q) : (x <=? y) = false <-> y < x.
Proof.
  rewrite <- not_true_iff_false, leb_le. split.
  - apply Qnot_le_lt.
  - apply Qlt_not_le.
Qed.

Lemma eqb_eq (x y : Q) : (x =? y) = true <-> x == y.
Proof. apply Qeq_bool_iff. Qed.

Lemma eqb_neq (x y : Q) : (x =? y) = false <-> ~ x == y.
Proof. rewrite <- not_true_iff_false, eqb_eq. tauto. Qed.

Lemma neqb_true (x y : Q) : neqb x y = true <-> ~ x == y.
Proof. unfold neqb. rewrite negb_true_iff. apply eqb_neq. Qed.

Lemma neqb_false (x y : Q) : neqb x y = false <-> x == y.
Proof. unfold neqb. rewrite negb_false_iff. apply eqb_eq. Qed.

(** Turn every boolean comparison among the hypotheses into the order
    fact it stands for. *)
Ltac bool_to_order :=
  unfold gtb, geb in *;
  repeat match goal with
    | H : (_ <? _) = true |- _ => apply ltb_lt in H
    | H : (_ <? _) = false |- _ => apply ltb_ge in H
    | H : (_ <=? _) = true |- _ => apply leb_le in H
    | H : (_ <=? _) = false |- _ => apply leb_gt in H
    | H : (_ =? _) = true |- _ => apply eqb_eq in H
    | H : (_ =? _) = false |- _ => apply eqb_neq in H
    | H : neqb _ _ = true |- _ => apply neqb_true in H
    | H : neqb _ _ = false |- _ => apply neqb_false in H
    end.

(** Split on the first comparison the goal branches on. *)
Ltac case_cmp :=
  match goal with
  | |- context [if ?b then _ else _] =>
      let E := fresh "E" in destruct b eqn:E
  end.

#[global] Instance ltb_proper : Proper (Qeq ==> Qeq ==> eq) ltb.
Proof.
  intros x x' Hx y y' Hy. unfold ltb. now rewrite Hx, Hy.
Qed.

(** The source's [max(0, min(200, e))] is the clamp of the
    specification. *)
Lemma cap_is_clamp (e : Q) : py_max 0 (py_min 200 e) == clamp 0 200 e.
Proof.
  unfold py_max, py_min, clamp, gtb.
  destruct (e <? 200) eqn:E1;
    [destruct (0 <? e) eqn:E2 | destruct (0 <? 200) eqn:E2];
    destruct (Qlt_le_dec e 0), (Qlt_le_dec 200 e);
    bool_to_order; lra.
Qed.

Lemma cap_bounds (e : Q) : 0 <= py_max 0 (py_min 200 e) <= 200.
Proof.
  unfold py_max, py_min, gtb.
  destruct (e <? 200) eqn:E1;
    [destruct (0 <? e) eqn:E2 | destruct (0 <? 200) eqn:E2];
    bool_to_order; lra.
Qed.

#[global] Instance cap_proper :
  Proper (Qeq ==> Qeq) (fun e => py_max 0 (py_min 200 e)).
Proof.
  intros e e' He. rewrite !cap_is_clamp. unfold clamp.
  destruct (Qlt_le_dec e 0), (Qlt_le_dec e' 0),
    (Qlt_le_dec 200 e), (Qlt_le_dec 200 e'); lra.
Qed.

(* ================================================================== *)
(** * Contingency efficiency engine: properties *)

Section Contingency.

Variable work_packages : list WorkPackage.
Variable poc_current : Q.

Let m := calculate_contingency_metrics work_packages poc_current.
Let rcs := risk_contingencies work_packages.

(** What the full bundle holds, read off the source once. *)
Lemma full_bundle :
  rcs <> [] ->
  has_contingency m = true
  /\ contingency_as_sold m = py_sum (List.map as_sold rcs)
  /\ contingency_fct_n1 m = py_sum (List.map fct_n1 rcs)
  /\ contingency_fct_n m = py_sum (List.map fct_n rcs)
  /\ consumed_amount m = contingency_as_sold m - contingency_fct_n m
  /\ consumed_percentage m =
       (if contingency_as_sold m >? 0
        then consumed_amount m / contingency_as_sold m * 100 else 0)
  /\ efficiency m =
       Some (py_max 0 (py_min 200
               (if poc_current >? 0
                then (2 - consumed_percentage m / poc_current) * 100
                else 200)))
  /\ trend m =
       fst (contingency_trend
              (if contingency_as_sold m >? 0
               then contingency_as_sold m - contingency_fct_n1 m else 0)
              (if contingency_fct_n1 m >? 0
               then contingency_fct_n1 m - contingency_fct_n m else 0)).
Proof.
  subst m rcs. unfold calculate_contingency_metrics.
  destruct (risk_contingencies work_packages) as [|w rest]; [congruence|].
  intros _.
  destruct (contingency_trend _ _) as [tr ic] eqn:Etr.
  destruct (contingency_status _) as [[st sic] scol].
  cbn [has_contingency contingency_as_sold contingency_fct_n1
       contingency_fct_n consumed_amount consumed_percentage efficiency
       trend].
  rewrite Etr. repeat split.
Qed.

End Contingency.

Lemma py_sum_nil_or_value (l : list Q) (v : Q) :
  py_sum l == v -> ~ v == 0 -> l <> [].
Proof.
  intros Hs Hv ->. apply Hv. rewrite <- Hs. reflexivity.
Qed.

(** The 'Improving' branch is the one taken as soon as the recent
    consumption is below 0.8 times the early one. *)
Lemma trend_improving (early recent : Q) :
  recent < early * 0.8 -> fst (contingency_trend early recent) = "Improving".
Proof.
  intros H. unfold contingency_trend.
  destruct ((early >? 0) && (recent >? early * 1.2)) eqn:E3.
  - apply andb_true_iff in E3 as [E3 E4]. bool_to_order. lra.
  - destruct (recent <? early * 0.8) eqn:E4; [reflexivity|].
    bool_to_order. lra.
Qed.

(** C10.  With no risk-contingency package among the work packages,
    [calculate_contingency_metrics] returns the sentinel bundle:
    [has_contingency] false, [efficiency] absent ([None], not a number),
    trend 'No Contingency', status 'N/A', and every amount and
    percentage equal to 0. *)
Theorem no_contingency_sentinel
  (work_packages : list WorkPackage) (poc_current : Q) :
  risk_contingencies work_packages = [] ->
  let m := calculate_contingency_metrics work_packages poc_current in
  has_contingency m = false
  /\ efficiency m = None
  /\ trend m = "No Contingency"
  /\ status m = "N/A"
  /\ contingency_as_sold m = 0
  /\ contingency_fct_n1 m = 0
  /\ contingency_fct_n m = 0
  /\ consumed_amount m = 0
  /\ consumed_percentage m = 0.
Proof.
  intros H m. subst m. unfold calculate_contingency_metrics. rewrite H.
  cbn. repeat split.
Qed.

Lemma no_contingency_sentinel_witness :
  let m := calculate_contingency_metrics
             [sample_wp "1.1" "Civil works" 100 120 120 20] 40 in
  has_contingency m = false
  /\ efficiency m = None
  /\ trend m = "No Contingency"
  /\ status m = "N/A"
  /\ contingency_as_sold m = 0
  /\ contingency_fct_n1 m = 0
  /\ contingency_fct_n m = 0
  /\ consumed_amount m = 0
  /\ consumed_percentage m = 0.
Proof.
  apply (no_contingency_sentinel
           [sample_wp "1.1" "Civil works" 100 120 120 20] 40).
  reflexivity.
Defined.

(** The consumed percentage of the code is the specification's one as
    soon as the as-sold contingency is not negative, and it lies between
    0 and 100 when the forecast lies between 0 and the as-sold amount. *)
Lemma consumed_pct_spec_range (a f : Q) :
  0 <= a -> 0 <= f <= a ->
  (if a >? 0 then (a - f) / a * 100 else 0) = consumed_pct_spec a f
  /\ 0 <= consumed_pct_spec a f <= 100.
Proof.
  intros Ha [Hf Hfa]. unfold consumed_pct_spec.
  destruct (a >? 0) eqn:E1; destruct (a =? 0) eqn:E2; bool_to_order;
    try lra; (split; [reflexivity|]); try lra.
  assert (H0 : 0 <= (a - f) / a) by (apply Qle_shift_div_l; lra).
  assert (H1 : (a - f) / a <= 1) by (apply Qle_shift_div_r; lra).
  lra.
Qed.

(** C5.  With at least one risk-contingency package, whose as-sold
    amounts sum to [total_as_sold >= 0] and whose current forecasts sum
    to [0 <= total_fct_n <= total_as_sold], and a POC between 0 and 100:
    the consumed percentage of the bundle is
    (total_as_sold - total_fct_n) / total_as_sold x 100 (0 if
    total_as_sold = 0) and lies in [0, 100]; the efficiency is a number
    in [0, 200]; it is 200 when the POC is 0, and otherwise
    (2 - consumed_pct / POC) x 100 clamped to [0, 200]. *)
Theorem contingency_efficiency_range
  (work_packages : list WorkPackage) (poc_current : Q) :
  let rcs := risk_contingencies work_packages in
  let total_as_sold := py_sum (List.map as_sold rcs) in
  let total_fct_n := py_sum (List.map fct_n rcs) in
  let consumed_pct := consumed_pct_spec total_as_sold total_fct_n in
  rcs <> [] ->
  0 <= total_as_sold ->
  0 <= total_fct_n <= total_as_sold ->
  0 <= poc_current <= 100 ->
  let m := calculate_contingency_metrics work_packages poc_current in
  consumed_percentage m = consumed_pct
  /\ 0 <= consumed_pct <= 100
  /\ exists e,
       efficiency m = Some e
       /\ 0 <= e <= 200
       /\ (poc_current == 0 -> e == 200)
       /\ (~ poc_current == 0 ->
           e == clamp 0 200 ((2 - consumed_pct / poc_current) * 100)).
Proof.
  intros rcs a f pct Hne Ha Hf [Hpoc _] m.
  destruct (full_bundle work_packages poc_current Hne)
    as (_ & Eas & _ & En & Econs & Epct & Eeff & _).
  fold m in Eas, En, Econs, Epct, Eeff. fold rcs in Eas, En.
  fold a in Eas. fold f in En.
  destruct (consumed_pct_spec_range a f Ha Hf) as [Hspec Hrange].
  fold pct in Hspec, Hrange.
  assert (Hpct : consumed_percentage m = pct).
  { rewrite Epct, Econs, Eas, En. exact Hspec. }
  rewrite Hpct in Eeff.
  split; [exact Hpct|]. split; [exact Hrange|].
  eexists. split; [exact Eeff|]. split; [apply cap_bounds|].
  rewrite cap_is_clamp. split; intros Hz.
  - destruct (poc_current >? 0) eqn:E; bool_to_order; [lra|].
    unfold clamp. destruct (Qlt_le_dec 200 0), (Qlt_le_dec 0 200);
      repeat (destruct (Qlt_le_dec _ _)); lra.
  - destruct (poc_current >? 0) eqn:E; bool_to_order; [reflexivity|].
    exfalso. apply Hz. lra.
Qed.

Lemma contingency_efficiency_range_witness :
  let m := calculate_contingency_metrics scenario_contingencies 40 in
  consumed_percentage m = consumed_pct_spec 1000 850
  /\ 0 <= consumed_pct_spec 1000 850 <= 100
  /\ exists e,
       efficiency m = Some e
       /\ 0 <= e <= 200
       /\ (40 == 0 -> e == 200)
       /\ (~ 40 == 0 ->
           e == clamp 0 200
                  ((2 - consumed_pct_spec 1000 850 / 40)
                   * 100)).
Proof.
  apply (contingency_efficiency_range scenario_contingencies 40).
  - vm_compute. discriminate.
  - vm_compute. discriminate.
  - split; vm_compute; discriminate.
  - split; vm_compute; discriminate.
Defined.

(** C6.  When the risk-contingency packages of a project sum to
    as_sold = 1000, fct_n1 = 900 and fct_n = 850 and the POC is 40, the
    engine returns consumed_percentage = 15, efficiency = 162.5 and the
    trend 'Improving' (recent consumption 50 against early consumption
    100 takes the [recent < 0.8 x early] branch). *)
Theorem contingency_scenario (work_packages : list WorkPackage) :
  let rcs := risk_contingencies work_packages in
  py_sum (List.map as_sold rcs) == 1000 ->
  py_sum (List.map fct_n1 rcs) == 900 ->
  py_sum (List.map fct_n rcs) == 850 ->
  let m := calculate_contingency_metrics work_packages 40 in
  consumed_percentage m == 15
  /\ (exists e, efficiency m = Some e /\ e == 162.5)
  /\ trend m = "Improving".
Proof.
  intros rcs Ha Hb Hc m.
  assert (Hne : rcs <> []).
  { apply (py_sum_nil_or_value (List.map as_sold rcs) 1000) in Ha;
      [|discriminate].
    intros E. apply Ha. now rewrite E. }
  destruct (full_bundle work_packages 40 Hne)
    as (_ & Eas & En1 & En & Econs & Epct & Eeff & Etr).
  fold rcs in Eas, En1, En. fold m in Eas, En1, En, Econs, Epct, Eeff, Etr.
  rewrite <- Eas in Ha. rewrite <- En1 in Hb. rewrite <- En in Hc.
  assert (Hpct : consumed_percentage m == 15).
  { rewrite Epct, Econs.
    destruct (contingency_as_sold m >? 0) eqn:E; bool_to_order; [|lra].
    rewrite Ha, Hc. reflexivity. }
  split; [exact Hpct|]. split.
  - eexists. split; [exact Eeff|].
    change (40 >? 0) with true. cbv iota.
    rewrite (cap_proper _ ((2 - 15 / 40) * 100)).
    + reflexivity.
    + now rewrite Hpct.
  - rewrite Etr. apply trend_improving.
    destruct (contingency_as_sold m >? 0) eqn:E1;
      destruct (contingency_fct_n1 m >? 0) eqn:E2;
      bool_to_order; lra.
Qed.

Lemma contingency_scenario_witness :
  let m := calculate_contingency_metrics scenario_contingencies 40 in
  consumed_percentage m == 15
  /\ (exists e, efficiency m = Some e /\ e == 162.5)
  /\ trend m = "Improving".
Proof.
  apply (contingency_scenario scenario_contingencies); reflexivity.
Defined.

(* ================================================================== *)
(** * Traffic-light classifier: properties *)

Section Classifier.

Variable th : ThresholdBand.

Lemma classifier_refines_spec (value : num) (reverse : bool) :
  tier_of (get_traffic_light_status value th reverse)
  = classify_spec value th reverse.
Proof.
  unfold get_traffic_light_status, classify_spec, tier_of.
  destruct value as [v|], reverse, (stable th) as [s|];
    cbn [num_geb num_leb]; try reflexivity;
    repeat (destruct (Qlt_le_dec _ _));
    repeat (case_cmp; bool_to_order; try lra);
    reflexivity.
Qed.

Lemma classifier_nan (reverse : bool) :
  get_traffic_light_status NaN th reverse
  = (RedCircle, "Critical", "critical").
Proof.
  unfold get_traffic_light_status. cbn [num_geb num_leb].
  destruct reverse, (stable th); reflexivity.
Qed.

(** Higher is better: lowering the value never improves the tier. *)
Lemma classifier_monotone (v1 v2 : Q) :
  v1 <= v2 ->
  (tier_rank (tier_of (get_traffic_light_status (Real v1) th false))
   <= tier_rank (tier_of (get_traffic_light_status (Real v2) th false)))%nat.
Proof.
  intros H. rewrite !classifier_refines_spec. unfold classify_spec.
  destruct (stable th) as [s|];
    repeat (destruct (Qlt_le_dec _ _)); try lra; vm_compute; lia.
Qed.

(** Lower is better: raising the value never improves the tier. *)
Lemma classifier_monotone_reverse (v1 v2 : Q) :
  v1 <= v2 ->
  (tier_rank (tier_of (get_traffic_light_status (Real v2) th true))
   <= tier_rank (tier_of (get_traffic_light_status (Real v1) th true)))%nat.
Proof.
  intros H. rewrite !classifier_refines_spec. unfold classify_spec.
  repeat (destruct (Qlt_le_dec _ _)); try lra; vm_compute; lia.
Qed.

End Classifier.

(** C4, as stated, fails in reverse mode.  With the committed-ratio
    cutoffs 0.9 < 1.0 < 1.1 < 1.2, which the source classifies with
    [reverse=True], the smaller value 0.8 gets the tier 'excellent' and
    the larger value 1.3 the tier 'critical': the smaller value yields
    the better tier. *)
Lemma classifier_reverse_smaller_is_better :
  let band := committed_vs_budget EXECUTIVE_THRESHOLDS in
  excellent band < good band < warning band
  /\ warning band < critical band
  /\ 0.8 < 1.3
  /\ tier_of (get_traffic_light_status (Real 0.8) band true) = "excellent"
  /\ tier_of (get_traffic_light_status (Real 1.3) band true) = "critical"
  /\ (tier_rank "critical" < tier_rank "excellent")%nat.
Proof.
  cbn zeta. repeat split; try reflexivity. vm_compute. lia.
Qed.

(** C4, amended.  For every value, band and mode the classifier returns
    the tier of the specification's cascade (non-reverse: excellent,
    good, stable when the band has that cutoff, warning, critical by the
    first cutoff the value reaches; reverse: the <= cascade without a
    stable tier); it is a total function; not-a-number yields
    'critical' in both modes; in non-reverse mode a smaller value never
    yields a better tier, and in reverse mode a larger value never
    yields a better tier.  Both orderings hold for any cutoffs, in
    particular for monotonic ones. *)
Theorem classifier_cascade (th : ThresholdBand) :
  (forall value reverse,
      tier_of (get_traffic_light_status value th reverse)
      = classify_spec value th reverse)
  /\ (forall reverse,
         get_traffic_light_status NaN th reverse
         = (RedCircle, "Critical", "critical"))
  /\ (forall v1 v2,
         v1 <= v2 ->
         (tier_rank (tier_of (get_traffic_light_status (Real v1) th false))
          <= tier_rank (tier_of (get_traffic_light_status (Real v2) th false)))%nat)
  /\ (forall v1 v2,
         v1 <= v2 ->
         (tier_rank (tier_of (get_traffic_light_status (Real v2) th true))
          <= tier_rank (tier_of (get_traffic_light_status (Real v1) th true)))%nat).
Proof.
  split; [|split; [|split]].
  - apply classifier_refines_spec.
  - apply classifier_nan.
  - apply classifier_monotone.
  - apply classifier_monotone_reverse.
Qed.

Lemma classifier_cascade_witness :
  (tier_rank (tier_of (get_traffic_light_status (Real 3)
                         (cm2_margin EXECUTIVE_THRESHOLDS) false))
   <= tier_rank (tier_of (get_traffic_light_status (Real 12)
                            (cm2_margin EXECUTIVE_THRESHOLDS) false)))%nat
  /\ (tier_rank (tier_of (get_traffic_light_status (Real 1.3)
                            (committed_vs_budget EXECUTIVE_THRESHOLDS) true))
      <= tier_rank (tier_of (get_traffic_light_status (Real 0.8)
                               (committed_vs_budget EXECUTIVE_THRESHOLDS)
                               true)))%nat.
Proof.
  split.
  - apply (classifier_cascade (cm2_margin EXECUTIVE_THRESHOLDS)).
    vm_compute. discriminate.
  - apply (classifier_cascade (committed_vs_budget EXECUTIVE_THRESHOLDS)).
    vm_compute. discriminate.
Defined.

(* ================================================================== *)
(** * Cost and margin deriver: properties *)

Lemma insert_keeps_is_Some (m : gmap string Q) k k' v :
  is_Some (m !! k) -> is_Some (<[k' := v]> m !! k).
Proof.
  intros H. rewrite lookup_insert_is_Some. destruct (decide (k' = k)); auto.
Qed.

Lemma keys_present_insert ca k v :
  keys_present ca -> keys_present (<[k := v]> ca).
Proof. intros H k' Hk'. apply insert_keeps_is_Some, H, Hk'. Qed.

Ltac in_periods H :=
  destruct H as [<-|[<-|[<-|[]]]].

Ltac key_in_list := cbn; tauto.

Lemma derive_margins_ok period ca :
  In period periods -> keys_present ca -> margins_zero period ca ->
  exists ca',
    derive_margins period ca = Some ca'
    /\ margins_derived period ca'
    /\ keys_present ca'
    /\ (forall k, ~ In k (margin_keys period) -> ca' !! k = ca !! k).
Proof.
  intros Hp Hk Hz. unfold derive_margins.
  destruct (Hk ("selling_price_" +:+ period)) as [sp Esp];
    [in_periods Hp; key_in_list|].
  destruct (Hk ("ec_total_" +:+ period)) as [ec Eec];
    [in_periods Hp; key_in_list|].
  destruct (Hk ("ic_total_" +:+ period)) as [ic Eic];
    [in_periods Hp; key_in_list|].
  rewrite Esp. cbn [mbind option_bind].
  destruct (sp >? 0) eqn:E; bool_to_order.
  - rewrite Eec, Eic. cbn [mbind option_bind].
    eexists. split; [reflexivity|]. split; [|split].
    + exists sp, ec, ic.
      in_periods Hp; cbn in *; simplify_map_eq.
      all: repeat split; try done.
      all: first [ intros Hle; exfalso; lra
                 | intros _; eexists _, _; repeat split; reflexivity ].
    + repeat apply keys_present_insert. exact Hk.
    + intros k Hn.
      repeat (rewrite lookup_insert_ne; [|intros <-; apply Hn; key_in_list]).
      reflexivity.
  - eexists. split; [reflexivity|]. split; [|split; [exact Hk|reflexivity]].
    exists sp, ec, ic. repeat split; try assumption.
    + intros Hlt. exfalso. lra.
    + intros _. exact Hz.
Qed.

Lemma margins_derived_frame period ca ca' :
  (forall k, In k (period_keys period) -> ca' !! k = ca !! k) ->
  margins_derived period ca -> margins_derived period ca'.
Proof.
  intros Hf (sp & ec & ic & Hsp & Hec & Hic & Hpos & Hzero).
  assert (Hm : forall k, In k (margin_keys period) -> ca' !! k = ca !! k).
  { intros k Hk. apply Hf. unfold period_keys. apply in_or_app. now right. }
  exists sp, ec, ic.
  rewrite !Hf by key_in_list.
  split; [exact Hsp|]. split; [exact Hec|]. split; [exact Hic|]. split.
  - intros Hlt. destruct (Hpos Hlt) as (cm1 & cm2 & H1 & H2 & H3 & H4 & H5 & H6 & H7).
    exists cm1, cm2. repeat split; assumption.
  - intros Hle k Hk. rewrite Hm by exact Hk. apply (Hzero Hle k Hk).
Qed.

Lemma margins_zero_frame period ca ca' :
  (forall k, In k (margin_keys period) -> ca' !! k = ca !! k) ->
  margins_zero period ca -> margins_zero period ca'.
Proof. intros Hf Hz k Hk. rewrite Hf by exact Hk. apply Hz, Hk. Qed.

(** Keys of one period are not margin keys of another. *)
Lemma period_keys_apart p p' k :
  In p periods -> In p' periods -> p <> p' ->
  In k (period_keys p) -> ~ In k (margin_keys p').
Proof.
  intros Hp Hp' Hne Hk Hk'.
  in_periods Hp; in_periods Hp'; try congruence;
    cbn in Hk, Hk'; intuition (subst; discriminate).
Qed.

Lemma dict_set_Forall (P : WorkPackage -> Prop) k wp d :
  P wp -> Forall P d -> Forall P (dict_set k wp d).
Proof.
  intros Hwp Hd. induction Hd as [|x t Hx Ht IH]; cbn.
  - constructor; [exact Hwp | constructor].
  - destruct (String.eqb (code x) k); constructor; assumption.
Qed.

Ltac row_cases st row :=
  unfold parse_cost_row; destruct st as [pd found];
  destruct (item_code row) as [[|c ic]|]; [| |]; cbn [fst snd];
  repeat case_cmp; cbn [fst snd cost_analysis work_packages with_cost_analysis with_work_packages].

Lemma parse_cost_row_wps (P : WorkPackage -> Prop) mc st row :
  (forall item_str descr a_s cmt c_t_c f_n f_n1 act,
      P (make_work_package item_str descr a_s cmt c_t_c f_n f_n1 act)) ->
  Forall P (work_packages (fst st)) ->
  Forall P (work_packages (fst (parse_cost_row mc st row))).
Proof.
  intros HP H. row_cases st row; try assumption; apply dict_set_Forall; auto.
Qed.

Lemma parse_cost_row_is_Some mc st row k :
  is_Some (cost_analysis (fst st) !! k) ->
  is_Some (cost_analysis (fst (parse_cost_row mc st row)) !! k).
Proof.
  intros H. row_cases st row; repeat apply insert_keeps_is_Some; assumption.
Qed.

Lemma parse_cost_row_other_keys mc st row k :
  ~ In k row_keys ->
  cost_analysis (fst (parse_cost_row mc st row)) !! k
  = cost_analysis (fst st) !! k.
Proof.
  intros H. 
  row_cases st row; try reflexivity;
  repeat (rewrite lookup_insert_ne; [|intros <-; apply H; cbn; tauto]); reflexivity.
Qed.

Lemma margin_keys_in_period_keys p k :
  In k (margin_keys p) -> In k (period_keys p).
Proof. intros H. unfold period_keys. apply in_or_app. now right. Qed.

Lemma derive_step p ca :
  In p periods -> keys_present ca -> margins_zero p ca ->
  exists ca',
    derive_margins p ca = Some ca'
    /\ margins_derived p ca'
    /\ keys_present ca'
    /\ (forall q, In q periods -> q <> p ->
          (margins_zero q ca -> margins_zero q ca')
          /\ (margins_derived q ca -> margins_derived q ca')).
Proof.
  intros Hp Hk Hz.
  destruct (derive_margins_ok p ca Hp Hk Hz) as (ca' & E & Hd & Hk' & Hf).
  exists ca'. repeat split; try assumption.
  - apply margins_zero_frame. intros k Hin. apply Hf.
    apply (period_keys_apart q p); auto using margin_keys_in_period_keys.
  - apply margins_derived_frame. intros k Hin. apply Hf.
    apply (period_keys_apart q p); auto.
Qed.

Lemma committed_ratio_apart p k :
  In p periods -> In k (period_keys p) -> k <> "committed_ratio".
Proof.
  intros Hp Hk ->. in_periods Hp; cbn in Hk; intuition discriminate.
Qed.

Lemma selling_price_apart p k :
  In p periods -> In k (margin_keys p) ->
  ~ In k ["selling_price_as_sold"; "selling_price_fct_n1";
          "selling_price_fct_n"].
Proof.
  intros Hp Hk Hk'. in_periods Hp; cbn in Hk, Hk'; intuition (subst; discriminate).
Qed.

Lemma fallback_keeps contract_value ca :
  keys_present ca -> (forall p, In p periods -> margins_zero p ca) ->
  keys_present (selling_price_fallback contract_value ca)
  /\ (forall p, In p periods ->
        margins_zero p (selling_price_fallback contract_value ca)).
Proof.
  intros Hk Hz. unfold selling_price_fallback. split.
  - repeat apply keys_present_insert. exact Hk.
  - intros p Hp. apply (margins_zero_frame p ca); [|auto].
    intros k Hin. pose proof (selling_price_apart p k Hp Hin) as Hn.
    repeat (rewrite lookup_insert_ne; [|intros <-; apply Hn; key_in_list]).
    reflexivity.
Qed.

Lemma enhanced_cost_analysis_ok pd :
  keys_present (cost_analysis pd) ->
  (forall p, In p periods -> margins_zero p (cost_analysis pd)) ->
  exists pd',
    enhanced_cost_analysis pd = Some pd'
    /\ work_packages pd' = work_packages pd
    /\ (forall p, In p periods -> margins_derived p (cost_analysis pd')).
Proof.
  intros Hk Hz. unfold enhanced_cost_analysis.
  destruct (Hk "total_as_sold") as [tot Etot]; [key_in_list|].
  set (cv := safe_get_value (revenues pd) "Contract Price" "n_ptd").
  destruct (fallback_keeps cv _ Hk Hz) as [Hkf Hzf].
  assert (H1 : exists ca1,
             (if negb (default false (selling_price_found pd)) then
                cost_analysis pd !! "total_as_sold" ≫= fun total =>
                if total >? 0
                then Some (selling_price_fallback cv (cost_analysis pd))
                else Some (selling_price_fallback cv (cost_analysis pd))
              else Some (cost_analysis pd)) = Some ca1
             /\ keys_present ca1
             /\ (forall p, In p periods -> margins_zero p ca1)).
  { destruct (negb _).
    - rewrite Etot. cbn [mbind option_bind]. destruct (tot >? 0); eauto.
    - eauto. }
  destruct H1 as (ca1 & -> & Hk1 & Hz1). cbn [mbind option_bind].
  destruct (derive_step "as_sold" ca1) as (ca2 & -> & Hd2 & Hk2 & Hf2);
    [key_in_list | exact Hk1 | apply Hz1; key_in_list |].
  cbn [mbind option_bind].
  destruct (derive_step "fct_n1" ca2) as (ca3 & -> & Hd3 & Hk3 & Hf3);
    [key_in_list | exact Hk2
    | apply Hf2; [key_in_list | discriminate | apply Hz1; key_in_list] |].
  cbn [mbind option_bind].
  destruct (derive_step "fct_n" ca3) as (ca4 & -> & Hd4 & Hk4 & Hf4);
    [key_in_list | exact Hk3
    | apply Hf3; [key_in_list | discriminate |];
      apply Hf2; [key_in_list | discriminate | apply Hz1; key_in_list] |].
  cbn [mbind option_bind].
  assert (Hall : forall p, In p periods -> margins_derived p ca4).
  { intros p Hp. in_periods Hp.
    - apply Hf4; [key_in_list | discriminate |].
      apply Hf3; [key_in_list | discriminate | exact Hd2].
    - apply Hf4; [key_in_list | discriminate | exact Hd3].
    - exact Hd4. }
  destruct (Hk4 "total_as_sold") as [tot4 Etot4]; [key_in_list|].
  destruct (Hk4 "total_committed") as [cmt4 Ecmt4]; [key_in_list|].
  rewrite Etot4. cbn [mbind option_bind].
  destruct (tot4 >? 0).
  - rewrite Ecmt4. cbn [mbind option_bind].
    eexists. split; [reflexivity|]. split; [reflexivity|].
    intros p Hp. cbn [cost_analysis with_cost_analysis].
    apply (margins_derived_frame p ca4); [|auto].
    intros k Hin. rewrite lookup_insert_ne; [reflexivity|].
    intros E. symmetry in E. revert E. apply (committed_ratio_apart p); auto.
  - eexists. split; [reflexivity|]. split; [reflexivity|].
    intros p Hp. cbn [cost_analysis with_cost_analysis]. auto.
Qed.

Lemma fold_rows_invariant (I : ProjectData -> Prop) mc rows :
  (forall st row, I (fst st) -> I (fst (parse_cost_row mc st row))) ->
  forall st, I (fst st) -> I (fst (fold_left (parse_cost_row mc) rows st)).
Proof.
  intros Hstep. induction rows as [|row rows IH]; cbn; auto.
Qed.

Lemma parse_cost_sheet_invariant (I : ProjectData -> Prop) sheet pd :
  (forall st row,
      I (fst st) -> I (fst (parse_cost_row (max_column sheet) st row))) ->
  (forall pd' b, I pd' -> I (with_selling_price_found pd' b)) ->
  I (with_cost_analysis pd initial_cost_analysis) ->
  I (parse_cost_sheet sheet pd).
Proof.
  intros Hstep Hflag Hinit. unfold parse_cost_sheet.
  pose proof (fold_rows_invariant I (max_column sheet)
                (firstn 49 (cost_rows sheet)) Hstep
                (with_cost_analysis pd initial_cost_analysis, false) Hinit)
    as H.
  destruct (fold_left _ _ _) as [pd1 found]. apply Hflag, H.
Qed.

Lemma initial_keys_present : keys_present initial_cost_analysis.
Proof.
  intros k Hk. cbn in Hk.
  repeat (destruct Hk as [<-|Hk]; [vm_compute; eauto|]). destruct Hk.
Qed.

Lemma initial_margins_zero p :
  In p periods -> margins_zero p initial_cost_analysis.
Proof.
  intros Hp k Hk. in_periods Hp; cbn in Hk;
    repeat (destruct Hk as [<-|Hk]; [vm_compute; reflexivity|]);
    destruct Hk.
Qed.

Lemma margin_keys_not_row_keys p k :
  In p periods -> In k (margin_keys p) -> ~ In k row_keys.
Proof.
  intros Hp Hk Hr. in_periods Hp; cbn in Hk, Hr;
    intuition (subst; discriminate).
Qed.

Lemma parse_cost_sheet_ok (P : WorkPackage -> Prop) sheet pd :
  (forall item_str descr a_s cmt c_t_c f_n f_n1 act,
      P (make_work_package item_str descr a_s cmt c_t_c f_n f_n1 act)) ->
  Forall P (work_packages pd) ->
  let pd' := parse_cost_sheet sheet pd in
  Forall P (work_packages pd')
  /\ keys_present (cost_analysis pd')
  /\ (forall p, In p periods -> margins_zero p (cost_analysis pd')).
Proof.
  intros HP Hwps pd'. subst pd'. split; [|split].
  - apply (parse_cost_sheet_invariant
             (fun d => Forall P (work_packages d))); auto.
    intros st row. apply parse_cost_row_wps, HP.
  - apply (parse_cost_sheet_invariant
             (fun d => keys_present (cost_analysis d))).
    + intros st row H k Hk. apply parse_cost_row_is_Some, H, Hk.
    + auto.
    + apply initial_keys_present.
  - intros p Hp k Hk.
    apply (parse_cost_sheet_invariant
             (fun d => cost_analysis d !! k = Some 0)).
    + intros st row H. rewrite parse_cost_row_other_keys; [exact H|].
      apply (margin_keys_not_row_keys p); assumption.
    + auto.
    + apply initial_margins_zero with p; assumption.
Qed.

Lemma parse_costs_ok (P : WorkPackage -> Prop) revs sheet :
  (forall item_str descr a_s cmt c_t_c f_n f_n1 act,
      P (make_work_package item_str descr a_s cmt c_t_c f_n f_n1 act)) ->
  exists pd,
    parse_excel_template_v24_costs revs (Some sheet) = Some pd
    /\ Forall P (work_packages pd)
    /\ (forall p, In p periods -> margins_derived p (cost_analysis pd)).
Proof.
  intros HP. unfold parse_excel_template_v24_costs.
  destruct (parse_cost_sheet_ok P sheet (initial_project_data revs) HP)
    as (Hw & Hk & Hz); [constructor|].
  destruct (enhanced_cost_analysis_ok _ Hk Hz) as (pd & E & Ew & Hd).
  exists pd. rewrite Ew. auto.
Qed.

Lemma parse_costs_without_sheet revs :
  parse_excel_template_v24_costs revs None = None.
Proof. reflexivity. Qed.

(** [calculate_period_variance] against the specification's wording:
    0 if previous = 0 and current = 0, 100 if previous = 0 and
    current > 0, and (current - previous) / |previous| x 100 when
    previous is not 0. *)
Lemma period_variance_cases (current previous : Q) :
  (previous == 0 -> current == 0 ->
   calculate_period_variance current previous == 0)
  /\ (previous == 0 -> 0 < current ->
      calculate_period_variance current previous == 100)
  /\ (~ previous == 0 ->
      calculate_period_variance current previous
      == (current - previous) / Qabs previous * 100).
Proof.
  unfold calculate_period_variance.
  destruct (previous =? 0) eqn:E1; destruct (current >? 0) eqn:E2;
    bool_to_order; repeat split; intros; try reflexivity; try lra; tauto.
Qed.

(** C3, amended.  The cost sheet is always parsed to a record, and for
    every work package of that record the stored [variance_pct] is
    period_variance(fct_n, as_sold), that is
    (fct_n - as_sold) / as_sold x 100, when as_sold > 0, and is 0 when
    as_sold is not positive (the parser's guard [if as_sold > 0 else 0]);
    [period_variance] itself is as the specification words it
    ([period_variance_cases]). *)
Theorem parsed_variance_pct
  (revs : gmap string (gmap string Q)) (sheet : CostSheet) :
  (exists pd, parse_excel_template_v24_costs revs (Some sheet) = Some pd)
  /\ (forall pd wp,
         parse_excel_template_v24_costs revs (Some sheet) = Some pd ->
         In wp (work_packages pd) ->
         (0 < as_sold wp ->
          variance_pct wp
          = calculate_period_variance (fct_n wp) (as_sold wp)
          /\ variance_pct wp
             == (fct_n wp - as_sold wp) / as_sold wp * 100)
         /\ (as_sold wp <= 0 -> variance_pct wp = 0))
  /\ (forall current previous,
         (previous == 0 -> current == 0 ->
          calculate_period_variance current previous == 0)
         /\ (previous == 0 -> 0 < current ->
             calculate_period_variance current previous == 100)
         /\ (~ previous == 0 ->
             calculate_period_variance current previous
             == (current - previous) / Qabs previous * 100)).
Proof.
  destruct (parse_costs_ok stored_variance revs sheet)
    as (pd0 & E & Hw & _); [reflexivity|].
  split; [eauto|]. split; [|apply period_variance_cases].
  intros pd wp E' Hin.
  rewrite E in E'. injection E' as <-.
  rewrite Forall_forall in Hw. specialize (Hw wp).
  rewrite <- list_elem_of_In in Hin. specialize (Hw Hin).
  unfold stored_variance in Hw. rewrite Hw.
  destruct (as_sold wp >? 0) eqn:Ea; bool_to_order; split; intros H;
    try lra; try reflexivity.
  split; [reflexivity|].
  destruct (period_variance_cases (fct_n wp) (as_sold wp)) as (_ & _ & Hc).
  rewrite Hc by lra. rewrite Qabs_pos by lra. reflexivity.
Qed.

Lemma parsed_variance_pct_witness :
  let wp := make_work_package "1.2" "Late addition" 0 0 0 50 0 0 in
  (0 < as_sold wp ->
   variance_pct wp = calculate_period_variance (fct_n wp) (as_sold wp)
   /\ variance_pct wp == (fct_n wp - as_sold wp) / as_sold wp * 100)
  /\ (as_sold wp <= 0 -> variance_pct wp = 0).
Proof.
  intros wp.
  apply (proj1 (proj2 (parsed_variance_pct ∅ sample_sheet))
           (default (initial_project_data ∅)
              (parse_excel_template_v24_costs ∅ (Some sample_sheet)))).
  - vm_compute. reflexivity.
  - vm_compute. right. left. reflexivity.
Defined.

(** C3, as stated, fails on a package without as-sold budget: the sheet
    row "1.2" has as_sold = 0 and fct_n = 50, period_variance(50, 0) is
    100, and the parsed package carries variance_pct = 0. *)
Lemma zero_baseline_variance_is_zero :
  let wp := make_work_package "1.2" "Late addition" 0 0 0 50 0 0 in
  option_map work_packages
    (parse_excel_template_v24_costs ∅ (Some sample_sheet))
  = Some [make_work_package "1.1" "Civil works" 500 0 0 600 550 0; wp]
  /\ as_sold wp == 0
  /\ 0 < fct_n wp
  /\ variance_pct wp == 0
  /\ calculate_period_variance (fct_n wp) (as_sold wp) == 100
  /\ ~ variance_pct wp
       == calculate_period_variance (fct_n wp) (as_sold wp).
Proof.
  cbn zeta. split; [vm_compute; reflexivity|].
  repeat split; try reflexivity. vm_compute. discriminate.
Qed.

(* ================================================================== *)
(** * Margin variability engine: properties *)

Lemma historical_data_check_moved (a2 b2 c2 a1 b1 c1 : Q) :
  historical_data_check a2 b2 c2 a1 b1 c1 = true
  <-> moved a2 b2 c2 \/ moved a1 b1 c1.
Proof.
  unfold historical_data_check, moved.
  rewrite <- !neqb_true.
  destruct (neqb a2 0), (neqb a2 c2), (neqb b2 0), (neqb b2 c2),
    (neqb a1 0), (neqb a1 c1), (neqb b1 0), (neqb b1 c1);
    cbn; intuition congruence.
Qed.

Lemma moved_two_differ (a b c : Q) : moved a b c -> two_differ a b c.
Proof.
  unfold moved, two_differ. intros [[_ H]|[_ H]] [E1 E2]; apply H.
  - now rewrite E1.
  - exact E2.
Qed.

(** C2, as stated, fails when the differing value is a zero.  With CM2
    at 0 / 0 / 12 and CM1 at 0 / 0 / 20 (margins known for the current
    forecast only) two of the three period values differ, for both
    margins, and [has_historical_data] is false. *)
Lemma no_history_though_values_differ :
  let pd := sample_project [] current_margins_only in
  ca_get pd "cm2_pct_as_sold" == 0
  /\ ca_get pd "cm2_pct_fct_n1" == 0
  /\ ca_get pd "cm2_pct_fct_n" == 12
  /\ two_differ (ca_get pd "cm2_pct_as_sold") (ca_get pd "cm2_pct_fct_n1")
       (ca_get pd "cm2_pct_fct_n")
  /\ two_differ (ca_get pd "cm1_pct_as_sold") (ca_get pd "cm1_pct_fct_n1")
       (ca_get pd "cm1_pct_fct_n")
  /\ MV.flag (calculate_margin_variability_metrics EXECUTIVE_THRESHOLDS pd)
     = false.
Proof.
  cbn zeta. repeat split; try (vm_compute; reflexivity);
    intros [_ H]; vm_compute in H; discriminate.
Qed.

(** C2, amended.  [has_historical_data] is true if and only if, for CM1
    or for CM2, the as-sold value or the previous-forecast value is
    non-zero and differs from the current-forecast value; so it is true
    only if two of the three period values differ, and a difference that
    involves a zero baseline or a zero previous forecast does not count.
    When it is false the analysis is skipped and the neutral result is
    returned: the two current margins and the 'no data' message. *)
Theorem historical_data_flag (th : ThresholdTable) (pd : ProjectData) :
  let r := calculate_margin_variability_metrics th pd in
  let cm2_as_sold := ca_get pd "cm2_pct_as_sold" in
  let cm2_fct_n1 := ca_get pd "cm2_pct_fct_n1" in
  let cm2_fct_n := ca_get pd "cm2_pct_fct_n" in
  let cm1_as_sold := ca_get pd "cm1_pct_as_sold" in
  let cm1_fct_n1 := ca_get pd "cm1_pct_fct_n1" in
  let cm1_fct_n := ca_get pd "cm1_pct_fct_n" in
  (MV.flag r = true
   <-> moved cm2_as_sold cm2_fct_n1 cm2_fct_n
       \/ moved cm1_as_sold cm1_fct_n1 cm1_fct_n)
  /\ (MV.flag r = true ->
      two_differ cm2_as_sold cm2_fct_n1 cm2_fct_n
      \/ two_differ cm1_as_sold cm1_fct_n1 cm1_fct_n)
  /\ (MV.flag r = false ->
      r = MV.NoData cm2_fct_n cm1_fct_n
            "No historical margin data found for variability analysis")
  /\ (MV.flag r = true -> exists m, r = MV.Analysed m).
Proof.
  intros r cm2_as_sold cm2_fct_n1 cm2_fct_n cm1_as_sold cm1_fct_n1 cm1_fct_n.
  assert (Hflag : MV.flag r
                  = historical_data_check cm2_as_sold cm2_fct_n1 cm2_fct_n
                      cm1_as_sold cm1_fct_n1 cm1_fct_n).
  { subst r. unfold calculate_margin_variability_metrics.
    fold (ca_get pd "cm2_pct_as_sold") (ca_get pd "cm2_pct_fct_n1")
      (ca_get pd "cm2_pct_fct_n") (ca_get pd "cm1_pct_as_sold")
      (ca_get pd "cm1_pct_fct_n1") (ca_get pd "cm1_pct_fct_n").
    fold cm2_as_sold cm2_fct_n1 cm2_fct_n cm1_as_sold cm1_fct_n1 cm1_fct_n.
    destruct (historical_data_check _ _ _ _ _ _) eqn:E; cbn; congruence. }
  split; [|split; [|split]].
  - rewrite Hflag. apply historical_data_check_moved.
  - rewrite Hflag, historical_data_check_moved.
    intros [H|H]; [left|right]; apply moved_two_differ, H.
  - rewrite Hflag. intros E. subst r.
    unfold calculate_margin_variability_metrics.
    fold (ca_get pd "cm2_pct_as_sold") (ca_get pd "cm2_pct_fct_n1")
      (ca_get pd "cm2_pct_fct_n") (ca_get pd "cm1_pct_as_sold")
      (ca_get pd "cm1_pct_fct_n1") (ca_get pd "cm1_pct_fct_n").
    fold cm2_as_sold cm2_fct_n1 cm2_fct_n cm1_as_sold cm1_fct_n1 cm1_fct_n.
    rewrite E. reflexivity.
  - rewrite Hflag. intros E. subst r.
    unfold calculate_margin_variability_metrics.
    fold (ca_get pd "cm2_pct_as_sold") (ca_get pd "cm2_pct_fct_n1")
      (ca_get pd "cm2_pct_fct_n") (ca_get pd "cm1_pct_as_sold")
      (ca_get pd "cm1_pct_fct_n1") (ca_get pd "cm1_pct_fct_n").
    fold cm2_as_sold cm2_fct_n1 cm2_fct_n cm1_as_sold cm1_fct_n1 cm1_fct_n.
    rewrite E. cbn. eauto.
Qed.

Lemma historical_data_flag_witness :
  calculate_margin_variability_metrics EXECUTIVE_THRESHOLDS
    (sample_project [] current_margins_only)
  = MV.NoData (ca_get (sample_project [] current_margins_only) "cm2_pct_fct_n")
      (ca_get (sample_project [] current_margins_only) "cm1_pct_fct_n")
      "No historical margin data found for variability analysis".
Proof.
  apply (proj1 (proj2 (proj2 (historical_data_flag EXECUTIVE_THRESHOLDS
                                (sample_project [] current_margins_only))))).
  vm_compute. reflexivity.
Defined.

(* ================================================================== *)
(** * Risk assessment engine: properties *)

Lemma filter_if {A} (f : A -> bool) (b : bool) (l1 l2 : list A) :
  List.filter f (if b then l1 else l2)
  = if b then List.filter f l1 else List.filter f l2.
Proof. now destruct b. Qed.

Lemma filter_has_type_risk ty ty' sev descr imp rec :
  List.filter (has_type ty) [risk ty' sev descr imp rec]
  = if String.eqb ty' ty then [risk ty' sev descr imp rec] else [].
Proof. reflexivity. Qed.

Lemma if_same {A} (b : bool) (x : A) : (if b then x else x) = x.
Proof. now destruct b. Qed.

(** Evaluate the comparisons of closed strings in the goal. *)
Ltac eval_string_eqb :=
  repeat match goal with
    | |- context [String.eqb ?a ?b] =>
        let v := eval vm_compute in (String.eqb a b) in
        change (String.eqb a b) with v
    end.

Lemma filter_match {A B} (f : A -> bool) (l : list B) (a b : list A) :
  List.filter f (match l with [] => a | _ :: _ => b end)
  = match l with [] => List.filter f a | _ :: _ => List.filter f b end.
Proof. now destruct l. Qed.

Lemma match_same {A B} (l : list B) (x : A) :
  match l with [] => x | _ :: _ => x end = x.
Proof. now destruct l. Qed.

(** Push a filter by type through the nine rules. *)
Ltac filter_rules :=
  unfold assess_project_risks; cbv zeta;
  rewrite !List.filter_app;
  rewrite ?filter_match, ?filter_if, ?filter_has_type_risk;
  eval_string_eqb; cbv iota; cbn [List.filter];
  rewrite ?if_same, ?match_same; cbn [app]; rewrite ?app_nil_r.

Lemma length_filter_le {A} (f : A -> bool) (l : list A) :
  (length (List.filter f l) <= length l)%nat.
Proof.
  induction l as [|x l IH]; cbn; [lia|]. destruct (f x); cbn; lia.
Qed.

(** The source's test [len(wps) > 0 and len(high) / len(wps) > 0.3] in
    whole numbers. *)
Lemma concentration_test (h n : nat) :
  (h <= n)%nat ->
  ((0 <? n)%nat && (of_nat h / of_nat n >? 0.3))
  = (3 * n <? 10 * h)%nat.
Proof.
  intros Hle. destruct n as [|n].
  - cbn [Nat.ltb Nat.leb andb]. symmetry. apply Nat.ltb_ge. lia.
  - change (0 <? S n)%nat with true. cbn [andb].
    assert (Hn : 0 < of_nat (S n)).
    { unfold of_nat. change 0 with (inject_Z 0). rewrite <- Zlt_Qlt. lia. }
    destruct (3 * S n <? 10 * h)%nat eqn:E.
    + apply Nat.ltb_lt in E. unfold gtb. apply ltb_lt.
      apply Qlt_shift_div_l; [exact Hn|].
      unfold of_nat. 
      assert (H : inject_Z 3 * inject_Z (Z.of_nat (S n))
                  < inject_Z 10 * inject_Z (Z.of_nat h)).
      { rewrite <- !inject_Z_mult, <- Zlt_Qlt. lia. }
      change (inject_Z 3) with 3 in H. change (inject_Z 10) with 10 in H.
      lra.
    + apply Nat.ltb_ge in E. unfold gtb. apply ltb_ge.
      apply Qle_shift_div_r; [exact Hn|].
      unfold of_nat.
      assert (H : inject_Z 10 * inject_Z (Z.of_nat h)
                  <= inject_Z 3 * inject_Z (Z.of_nat (S n))).
      { rewrite <- !inject_Z_mult, <- Zle_Qle. lia. }
      change (inject_Z 3) with 3 in H. change (inject_Z 10) with 10 in H.
      lra.
Qed.

Lemma wp_performance_filter th pd :
  List.filter (has_type "WP Performance Risk") (assess_project_risks th pd)
  = if (3 * length (work_packages pd)
        <? 10 * length (high_variance_wps (work_packages pd)))%nat
    then [wp_performance_finding
            (length (high_variance_wps (work_packages pd)))
            (length (work_packages pd))]
    else [].
Proof.
  rewrite <- concentration_test by apply length_filter_le.
  filter_rules. reflexivity.
Qed.

Lemma contingency_filter th pd :
  List.filter (has_type "Contingency Risk") (assess_project_risks th pd)
  = match risk_contingencies (work_packages pd) with
    | [] => [no_contingency_finding]
    | _ :: _ =>
        if remaining_contingency_pct pd <? 1 then
          [insufficient_contingency_finding (remaining_contingency_pct pd)]
        else if (remaining_contingency_pct pd <? 5)
                && (consumed_contingency_pct pd >? 80) then
          [low_contingency_finding (remaining_contingency_pct pd)
             (consumed_contingency_pct pd)]
        else []
    end.
Proof.
  filter_rules. reflexivity.
Qed.

(** C1, as stated, fails when contingency lines dilute the fraction.
    Of the four work packages one is not a risk-contingency line, and it
    overruns by 20%: all (100%) of the non-contingency packages exceed
    +15%, yet no 'WP Performance Risk' finding is raised, because the
    source divides by the number of all four packages (1/4 <= 0.3). *)
Lemma concentration_counts_contingency_lines :
  let wps := one_overrun_three_contingencies in
  let pd := sample_project wps current_margins_only in
  length (non_contingency wps) = 1%nat
  /\ length (high_variance_wps wps) = 1%nat
  /\ 0.3 < of_nat (length (high_variance_wps wps))
           / of_nat (length (non_contingency wps))
  /\ List.filter (has_type "WP Performance Risk")
       (assess_project_risks EXECUTIVE_THRESHOLDS pd) = [].
Proof.
  cbn zeta. repeat split; vm_compute; reflexivity.
Qed.

(** C1, amended.  For every project the risk assessment appends the
    'WP Performance Risk' finding, of severity High, exactly when the
    non-contingency work packages whose variance_pct exceeds 15 number
    more than 30% of all the project's work packages, the
    risk-contingency lines included in the denominator
    (10 x high > 3 x all); it appends it at most once. *)
Theorem wp_performance_rule (th : ThresholdTable) (pd : ProjectData) :
  let wps := work_packages pd in
  let high := high_variance_wps wps in
  let found :=
    List.filter (has_type "WP Performance Risk") (assess_project_risks th pd)
  in
  ((3 * length wps < 10 * length high)%nat ->
   found = [wp_performance_finding (length high) (length wps)])
  /\ (~ (3 * length wps < 10 * length high)%nat -> found = [])
  /\ Risk.severity (wp_performance_finding (length high) (length wps))
     = "High"
  /\ (In (wp_performance_finding (length high) (length wps))
        (assess_project_risks th pd)
      <-> (3 * length wps < 10 * length high)%nat).
Proof.
  intros wps high found. subst found wps high.
  pose proof (wp_performance_filter th pd) as Hf.
  destruct (3 * length (work_packages pd)
            <? 10 * length (high_variance_wps (work_packages pd)))%nat eqn:E.
  - apply Nat.ltb_lt in E. split; [auto|]. split; [tauto|].
    split; [reflexivity|]. split; [auto|]. intros _.
    apply (List.filter_In (has_type "WP Performance Risk")).
    rewrite Hf. now left.
  - apply Nat.ltb_ge in E. split; [intros; lia|]. split; [auto|].
    split; [reflexivity|]. split; [|intros; lia].
    intros Hin. exfalso.
    assert (H : In (wp_performance_finding
                      (length (high_variance_wps (work_packages pd)))
                      (length (work_packages pd)))
                  (List.filter (has_type "WP Performance Risk")
                     (assess_project_risks th pd))).
    { apply List.filter_In. split; [exact Hin|reflexivity]. }
    rewrite Hf in H. destruct H.
Qed.

Lemma wp_performance_rule_witness :
  List.filter (has_type "WP Performance Risk")
    (assess_project_risks EXECUTIVE_THRESHOLDS
       (sample_project one_overrun_three_contingencies current_margins_only))
  = [].
Proof.
  apply (proj1 (proj2 (wp_performance_rule EXECUTIVE_THRESHOLDS
                         (sample_project one_overrun_three_contingencies
                            current_margins_only)))).
  vm_compute. lia.
Defined.

(** C8.  For every project without a risk-contingency work package, and
    whatever its other metrics and the threshold table, the findings of
    type 'Contingency Risk' are exactly one: severity High, with the
    recommendation to establish a risk contingency budget.  The Medium
    finding (remaining contingency below 1% of the contract value) and
    the other High finding (below 5% remaining with more than 80%
    consumed) are raised only for a project that has contingency
    entries, by that cascade. *)
Theorem contingency_adequacy_rule (th : ThresholdTable) (pd : ProjectData) :
  let found :=
    List.filter (has_type "Contingency Risk") (assess_project_risks th pd) in
  (risk_contingencies (work_packages pd) = [] ->
   found = [no_contingency_finding])
  /\ Risk.severity no_contingency_finding = "High"
  /\ Risk.recommendation no_contingency_finding
     = "Establish risk contingency budget for unforeseen events"
  /\ (risk_contingencies (work_packages pd) <> [] ->
      found
      = if remaining_contingency_pct pd <? 1 then
          [insufficient_contingency_finding (remaining_contingency_pct pd)]
        else if (remaining_contingency_pct pd <? 5)
                && (consumed_contingency_pct pd >? 80) then
          [low_contingency_finding (remaining_contingency_pct pd)
             (consumed_contingency_pct pd)]
        else [])
  /\ (forall r,
         In r (assess_project_risks th pd) ->
         Risk.type r = "Contingency Risk" ->
         r <> no_contingency_finding ->
         risk_contingencies (work_packages pd) <> []).
Proof.
  intros found. subst found. rewrite contingency_filter.
  split; [|split; [|split; [|split]]]; try reflexivity.
  - intros ->. reflexivity.
  - destruct (risk_contingencies (work_packages pd)); [congruence|auto].
  - intros r Hin Hty Hne Hnil.
    assert (H : In r (List.filter (has_type "Contingency Risk")
                        (assess_project_risks th pd))).
    { apply List.filter_In. split; [exact Hin|].
      unfold has_type. rewrite Hty. reflexivity. }
    rewrite contingency_filter, Hnil in H.
    destruct H as [H|[]]. congruence.
Qed.

Lemma contingency_adequacy_rule_witness :
  List.filter (has_type "Contingency Risk")
    (assess_project_risks EXECUTIVE_THRESHOLDS
       (sample_project [sample_wp "1.1" "Civil works" 100 120 120 20]
          current_margins_only))
  = [no_contingency_finding].
Proof.
  apply (proj1 (contingency_adequacy_rule EXECUTIVE_THRESHOLDS
                  (sample_project
                     [sample_wp "1.1" "Civil works" 100 120 120 20]
                     current_margins_only))).
  reflexivity.
Defined.

(* ================================================================== *)
(** * Portfolio aggregator: properties *)

(** A project whose current contract value is not positive leaves the
    accumulator as it is. *)
Lemma accumulate_skip (metrics : Metrics.t) (entry : string * Project) d :
  data (snd entry) = Some d ->
  safe_get_value (revenues d) "Contract Price" "n_ptd" <= 0 ->
  accumulate_project metrics entry = metrics.
Proof.
  intros Hd Hc. unfold accumulate_project. rewrite Hd.
  destruct (safe_get_value (revenues d) "Contract Price" "n_ptd" >? 0) eqn:E;
    [|reflexivity].
  bool_to_order. lra.
Qed.

Lemma fold_skip (l1 l2 : list (string * Project)) entry d m0 :
  data (snd entry) = Some d ->
  safe_get_value (revenues d) "Contract Price" "n_ptd" <= 0 ->
  fold_left accumulate_project (l1 ++ entry :: l2)%list m0
  = fold_left accumulate_project (l1 ++ l2)%list m0.
Proof.
  intros Hd Hc. rewrite !fold_left_app. cbn [fold_left].
  now rewrite (accumulate_skip _ entry d Hd Hc).
Qed.

Lemma portfolio_set_fresh project_id p (d : list (string * Project)) :
  ~ In project_id (List.map fst d) ->
  portfolio_set project_id p d = (d ++ [(project_id, p)])%list.
Proof.
  induction d as [|[k v] t IH]; cbn; [reflexivity|]. intros Hn.
  destruct (String.eqb k project_id) eqn:E.
  - apply String.eqb_eq in E. tauto.
  - rewrite IH by tauto. reflexivity.
Qed.

(** The early [return None] on an empty portfolio agrees with the later
    one on a portfolio without valid projects. *)
Lemma summary_of_metrics (portfolio_data : list (string * Project)) :
  create_enhanced_portfolio_summary portfolio_data
  = let metrics := fold_left accumulate_project portfolio_data Metrics.zero in
    if (Metrics.valid_projects metrics =? 0)%nat then None
    else Some (summarise metrics).
Proof. destruct portfolio_data; reflexivity. Qed.

(** C9.  Adding to the portfolio, under a new identifier, a project
    whose current contract value is 0 changes nothing: the accumulated
    metrics (every sum, the weighted-POC numerators and denominators,
    the CPI and SPI totals, the count of valid projects) are the same
    record, and so is the portfolio summary; the call returns as it
    does without the project. *)
Theorem zero_contract_project_is_ignored
  (portfolio_data : list (string * Project))
  (project_id : string) (p : Project) (d : ProjectData) :
  ~ In project_id (List.map fst portfolio_data) ->
  data p = Some d ->
  safe_get_value (revenues d) "Contract Price" "n_ptd" == 0 ->
  fold_left accumulate_project (portfolio_set project_id p portfolio_data)
    Metrics.zero
  = fold_left accumulate_project portfolio_data Metrics.zero
  /\ create_enhanced_portfolio_summary
       (portfolio_set project_id p portfolio_data)
     = create_enhanced_portfolio_summary portfolio_data.
Proof.
  intros Hfresh Hd Hc.
  assert (Hfold :
            fold_left accumulate_project
              (portfolio_set project_id p portfolio_data) Metrics.zero
            = fold_left accumulate_project portfolio_data Metrics.zero).
  { rewrite portfolio_set_fresh by exact Hfresh.
    rewrite (fold_skip portfolio_data [] (project_id, p) d);
      [now rewrite app_nil_r | exact Hd | lra]. }
  split; [exact Hfold|].
  rewrite !summary_of_metrics. cbv zeta. now rewrite Hfold.
Qed.

Lemma zero_contract_project_is_ignored_witness :
  fold_left accumulate_project
    (portfolio_set "P2" zero_contract_project [("P1", live_project)])
    Metrics.zero
  = fold_left accumulate_project [("P1", live_project)] Metrics.zero
  /\ create_enhanced_portfolio_summary
       (portfolio_set "P2" zero_contract_project [("P1", live_project)])
     = create_enhanced_portfolio_summary [("P1", live_project)].
Proof.
  apply (zero_contract_project_is_ignored [("P1", live_project)] "P2"
           zero_contract_project
           (sample_project one_overrun_three_contingencies
              current_margins_only)).
  - cbn. intros [H|[]]. discriminate.
  - reflexivity.
  - vm_compute. reflexivity.
Defined.

(** The project of the witness that does count: it is the one valid
    project of the summary. *)
Example live_project_is_counted :
  option_map Summary.project_count
    (create_enhanced_portfolio_summary
       (portfolio_set "P2" zero_contract_project [("P1", live_project)]))
  = Some 1%nat.
Proof. vm_compute. reflexivity. Qed.

(* ================================================================== *)
(** * Earned value engine: properties *)

Section EarnedValue.

Variable pd : ProjectData.

Let contract_value := safe_get_value (revenues pd) "Contract Price" "n_ptd".
Let poc_current := safe_get_value (revenues pd) "POC%" "n_ptd".
Let revenue_current := safe_get_value (revenues pd) "Revenues" "n_ptd".
Let actual_costs := default 0 (cost_analysis pd !! "total_actuals").

(** The eleven cells of the bundle, read off the source once. *)
Lemma earned_value_cells :
  exists earned actual_cost cpi spi eac,
    earned = (if poc_current >? 0 then poc_current / 100 * contract_value
              else revenue_current)
    /\ actual_cost = (if actual_costs >? 0 then actual_costs
                      else revenue_current)
    /\ cpi = (if actual_cost >? 0 then earned / actual_cost else 1.0)
    /\ spi = (if revenue_current >? 0
              then earned / (if revenue_current >? 0 then revenue_current
                             else earned)
              else 1.0)
    /\ eac = (if cpi >? 0 then actual_cost + (contract_value - earned) / cpi
              else contract_value)
    /\ ev_get pd "planned_value" = Some contract_value
    /\ ev_get pd "earned_value" = Some earned
    /\ ev_get pd "actual_cost" = Some actual_cost
    /\ ev_get pd "cost_performance_index" = Some cpi
    /\ ev_get pd "schedule_performance_index" = Some spi
    /\ ev_get pd "cost_variance" = Some (earned - actual_cost)
    /\ ev_get pd "schedule_variance" = Some (earned - revenue_current)
    /\ ev_get pd "estimate_at_completion" = Some eac
    /\ ev_get pd "variance_at_completion" = Some (contract_value - eac)
    /\ ev_get pd "cost_efficiency" = Some ((cpi - 1) * 100)
    /\ ev_get pd "schedule_efficiency" = Some ((spi - 1) * 100).
Proof.
  eexists _, _, _, _, _.
  repeat (split; [reflexivity|]). reflexivity.
Qed.

End EarnedValue.

Lemma Qdiv_nonneg (a b : Q) : 0 <= a -> 0 < b -> 0 <= a / b.
Proof. intros Ha Hb. apply Qle_shift_div_l; [exact Hb|]. lra. Qed.

Lemma index_at_least_one (x y : Q) :
  0 < y -> (1 <= x / y <-> y <= x) /\ (0 <= (x / y - 1) * 100 <-> y <= x).
Proof.
  intros Hy.
  assert (H : 1 <= x / y <-> y <= x).
  { split; intros H.
    - assert (X : x == x / y * y) by (field; lra).
      rewrite X. rewrite <- (Qmult_1_l y) at 1.
      apply Qmult_le_compat_r; lra.
    - apply Qle_shift_div_l; lra. }
  split; [exact H|]. rewrite <- H. split; intros; lra.
Qed.

(** X1.  For a project with actual costs booked the cost indicators
    never contradict each other: the cost index is at least 1, the cost
    variance is not negative and the cost efficiency is not negative
    exactly when the actual costs do not exceed the earned value; with
    revenue booked, the schedule index is at least 1 and the schedule
    variance is not negative exactly when the revenue does not exceed
    the earned value. *)
Theorem performance_indicators_agree (pd : ProjectData) :
  let actual_costs := default 0 (cost_analysis pd !! "total_actuals") in
  let revenue_current := safe_get_value (revenues pd) "Revenues" "n_ptd" in
  let earned := earned_value_of pd in
  0 < actual_costs ->
  exists cpi cv ce spi sv,
    ev_get pd "earned_value" = Some earned
    /\ ev_get pd "actual_cost" = Some actual_costs
    /\ ev_get pd "cost_performance_index" = Some cpi
    /\ ev_get pd "cost_variance" = Some cv
    /\ ev_get pd "cost_efficiency" = Some ce
    /\ ev_get pd "schedule_performance_index" = Some spi
    /\ ev_get pd "schedule_variance" = Some sv
    /\ (1 <= cpi <-> actual_costs <= earned)
    /\ (0 <= cv <-> actual_costs <= earned)
    /\ (0 <= ce <-> actual_costs <= earned)
    /\ (0 < revenue_current ->
        (1 <= spi <-> revenue_current <= earned)
        /\ (0 <= sv <-> revenue_current <= earned)).
Proof.
  intros actual_costs revenue_current earned Hact.
  destruct (earned_value_cells pd)
    as (e & a & cpi & spi & eac & Ee & Eac & Ecpi & Espi & _
        & _ & Cev & Cac & Ccpi & Cspi & Ccv & Csv & _ & _ & Cce & _).
  fold actual_costs in Eac. fold revenue_current in Eac, Espi, Csv, Ee.
  assert (He : e = earned) by exact Ee.
  assert (Ha : a = actual_costs).
  { rewrite Eac. destruct (actual_costs >? 0) eqn:E; bool_to_order;
      [reflexivity | lra]. }
  rewrite He in *. rewrite Ha in *. clear Ee Eac He Ha.
  assert (Hcpi : cpi = earned / actual_costs).
  { rewrite Ecpi. destruct (actual_costs >? 0) eqn:E; bool_to_order;
      [reflexivity | lra]. }
  exists cpi, (earned - actual_costs), ((cpi - 1) * 100), spi,
    (earned - revenue_current).
  repeat (split; [assumption|]).
  destruct (index_at_least_one earned actual_costs Hact) as [H1 H2].
  rewrite Hcpi. split; [exact H1|]. split; [split; intros; lra|].
  split; [exact H2|].
  intros Hrev.
  assert (Hspi : spi = earned / revenue_current).
  { rewrite Espi. destruct (revenue_current >? 0) eqn:E; bool_to_order;
      [reflexivity | lra]. }
  rewrite Hspi.
  split; [apply index_at_least_one; exact Hrev | split; intros; lra].
Qed.

Lemma performance_indicators_agree_witness :
  exists cpi cv ce spi sv,
    ev_get earned_value_project "earned_value"
    = Some (earned_value_of earned_value_project)
    /\ ev_get earned_value_project "actual_cost" = Some 350
    /\ ev_get earned_value_project "cost_performance_index" = Some cpi
    /\ ev_get earned_value_project "cost_variance" = Some cv
    /\ ev_get earned_value_project "cost_efficiency" = Some ce
    /\ ev_get earned_value_project "schedule_performance_index" = Some spi
    /\ ev_get earned_value_project "schedule_variance" = Some sv
    /\ (1 <= cpi <-> 350 <= earned_value_of earned_value_project)
    /\ (0 <= cv <-> 350 <= earned_value_of earned_value_project)
    /\ (0 <= ce <-> 350 <= earned_value_of earned_value_project)
    /\ (0 < 380 ->
        (1 <= spi <-> 380 <= earned_value_of earned_value_project)
        /\ (0 <= sv <-> 380 <= earned_value_of earned_value_project)).
Proof.
  apply (performance_indicators_agree earned_value_project).
  reflexivity.
Defined.

(** X2.  The fallback of the estimate at completion is reachable: a
    project without progress and without revenue but with actual costs
    has a cost index of 0, and its estimate at completion is the
    contract value itself, with a variance at completion of 0. *)
Theorem estimate_falls_back_to_contract_value (pd : ProjectData) :
  safe_get_value (revenues pd) "POC%" "n_ptd" <= 0 ->
  safe_get_value (revenues pd) "Revenues" "n_ptd" == 0 ->
  0 < default 0 (cost_analysis pd !! "total_actuals") ->
  exists cpi vac,
    ev_get pd "cost_performance_index" = Some cpi
    /\ cpi == 0
    /\ ev_get pd "estimate_at_completion"
       = Some (safe_get_value (revenues pd) "Contract Price" "n_ptd")
    /\ ev_get pd "variance_at_completion" = Some vac
    /\ vac == 0.
Proof.
  intros Hpoc Hrev Hact.
  destruct (earned_value_cells pd)
    as (e & a & cpi & spi & eac & Ee & Eac & Ecpi & _ & Eeac
        & _ & _ & _ & Ccpi & _ & _ & _ & Ceac & Cvac & _).
  unfold gtb in *.
  destruct (0 <? safe_get_value (revenues pd) "POC%" "n_ptd") eqn:E1;
    bool_to_order; [lra|].
  destruct (0 <? default 0 (cost_analysis pd !! "total_actuals")) eqn:E2;
    bool_to_order; [|lra].
  subst a e.
  assert (Hcpi : cpi == 0).
  { rewrite Ecpi.
    destruct (0 <? default 0 (cost_analysis pd !! "total_actuals")) eqn:E3;
      bool_to_order; [|lra].
    rewrite Hrev. field. lra. }
  assert (Heac : eac = safe_get_value (revenues pd) "Contract Price" "n_ptd").
  { rewrite Eeac. destruct (0 <? cpi) eqn:E3; bool_to_order;
      [lra | reflexivity]. }
  exists cpi, (safe_get_value (revenues pd) "Contract Price" "n_ptd" - eac).
  split; [exact Ccpi|]. split; [exact Hcpi|].
  split; [rewrite <- Heac; exact Ceac|]. split; [exact Cvac|].
  rewrite Heac. ring.
Qed.

Lemma estimate_falls_back_to_contract_value_witness :
  exists cpi vac,
    ev_get stalled_project "cost_performance_index" = Some cpi
    /\ cpi == 0
    /\ ev_get stalled_project "estimate_at_completion"
       = Some (safe_get_value (revenues stalled_project) "Contract Price"
                 "n_ptd")
    /\ ev_get stalled_project "variance_at_completion" = Some vac
    /\ vac == 0.
Proof.
  apply (estimate_falls_back_to_contract_value stalled_project).
  - vm_compute. discriminate.
  - vm_compute. reflexivity.
  - vm_compute. reflexivity.
Defined.

(** X3.  Without a positive POC the earned value is the revenue itself,
    so the schedule index is 1 and the schedule variance 0 whatever the
    revenue; when the actual costs are missing as well, the cost index
    is 1 and the cost variance 0 too. *)
Theorem indices_are_neutral_without_progress (pd : ProjectData) :
  safe_get_value (revenues pd) "POC%" "n_ptd" <= 0 ->
  exists spi sv cpi cv,
    ev_get pd "schedule_performance_index" = Some spi
    /\ ev_get pd "schedule_variance" = Some sv
    /\ ev_get pd "cost_performance_index" = Some cpi
    /\ ev_get pd "cost_variance" = Some cv
    /\ spi == 1 /\ sv == 0
    /\ (default 0 (cost_analysis pd !! "total_actuals") <= 0 ->
        cpi == 1 /\ cv == 0).
Proof.
  intros Hpoc.
  destruct (earned_value_cells pd)
    as (e & a & cpi & spi & eac & Ee & Eac & Ecpi & Espi & _
        & _ & _ & _ & Ccpi & Cspi & Ccv & Csv & _).
  unfold gtb in *.
  destruct (0 <? safe_get_value (revenues pd) "POC%" "n_ptd") eqn:E1;
    bool_to_order; [lra|].
  eexists _, _, _, _.
  split; [exact Cspi|]. split; [exact Csv|]. split; [exact Ccpi|].
  split; [exact Ccv|]. split; [|split].
  - rewrite Espi.
    destruct (0 <? safe_get_value (revenues pd) "Revenues" "n_ptd") eqn:E2;
      bool_to_order; [|reflexivity].
    rewrite Ee. field. lra.
  - rewrite Ee. ring.
  - intros Hact.
    destruct (0 <? default 0 (cost_analysis pd !! "total_actuals")) eqn:E2;
      bool_to_order; [lra|].
    split.
    + rewrite Ecpi. destruct (0 <? a) eqn:E3; bool_to_order; [|reflexivity].
      rewrite Ee, Eac. field. rewrite <- Eac. lra.
    + rewrite Ee, Eac. ring.
Qed.

Lemma indices_are_neutral_without_progress_witness :
  exists spi sv cpi cv,
    ev_get stalled_project "schedule_performance_index" = Some spi
    /\ ev_get stalled_project "schedule_variance" = Some sv
    /\ ev_get stalled_project "cost_performance_index" = Some cpi
    /\ ev_get stalled_project "cost_variance" = Some cv
    /\ spi == 1 /\ sv == 0
    /\ (default 0 (cost_analysis stalled_project !! "total_actuals") <= 0 ->
        cpi == 1 /\ cv == 0).
Proof.
  apply (indices_are_neutral_without_progress stalled_project).
  vm_compute. discriminate.
Defined.

(** X4.  For a non-negative contract value and revenue, the earned
    value, the actual cost and both performance indices are
    non-negative. *)
Theorem earned_value_is_non_negative (pd : ProjectData) :
  0 <= safe_get_value (revenues pd) "Contract Price" "n_ptd" ->
  0 <= safe_get_value (revenues pd) "Revenues" "n_ptd" ->
  exists earned actual_cost cpi spi,
    ev_get pd "earned_value" = Some earned
    /\ ev_get pd "actual_cost" = Some actual_cost
    /\ ev_get pd "cost_performance_index" = Some cpi
    /\ ev_get pd "schedule_performance_index" = Some spi
    /\ 0 <= earned /\ 0 <= actual_cost /\ 0 <= cpi /\ 0 <= spi.
Proof.
  intros Hc Hr.
  destruct (earned_value_cells pd)
    as (e & a & cpi & spi & eac & Ee & Eac & Ecpi & Espi & _
        & _ & Cev & Cac & Ccpi & Cspi & _).
  assert (He : 0 <= e).
  { rewrite Ee.
    destruct (safe_get_value (revenues pd) "POC%" "n_ptd" >? 0) eqn:E;
      bool_to_order; [|exact Hr].
    apply Qmult_le_0_compat; [|exact Hc]. apply Qdiv_nonneg; lra. }
  assert (Ha : 0 <= a).
  { rewrite Eac.
    destruct (default 0 (cost_analysis pd !! "total_actuals") >? 0) eqn:E;
      bool_to_order; [lra|exact Hr]. }
  exists e, a, cpi, spi.
  split; [exact Cev|]. split; [exact Cac|]. split; [exact Ccpi|].
  split; [exact Cspi|]. split; [exact He|]. split; [exact Ha|]. split.
  - rewrite Ecpi. destruct (a >? 0) eqn:E; bool_to_order; [|lra].
    apply Qdiv_nonneg; assumption.
  - rewrite Espi.
    destruct (safe_get_value (revenues pd) "Revenues" "n_ptd" >? 0) eqn:E;
      bool_to_order; [|lra].
    apply Qdiv_nonneg; assumption.
Qed.

Lemma earned_value_is_non_negative_witness :
  exists earned actual_cost cpi spi,
    ev_get earned_value_project "earned_value" = Some earned
    /\ ev_get earned_value_project "actual_cost" = Some actual_cost
    /\ ev_get earned_value_project "cost_performance_index" = Some cpi
    /\ ev_get earned_value_project "schedule_performance_index" = Some spi
    /\ 0 <= earned /\ 0 <= actual_cost /\ 0 <= cpi /\ 0 <= spi.
Proof.
  apply (earned_value_is_non_negative earned_value_project).
  - vm_compute. discriminate.
  - vm_compute. discriminate.
Defined.

(* ================================================================== *)
(** * POC velocity and maturity model: properties *)

Lemma expected_velocity_range (poc_current : Q) :
  1 <= calculate_expected_poc_velocity poc_current <= 10.
Proof.
  unfold calculate_expected_poc_velocity.
  repeat case_cmp; split; vm_compute; discriminate.
Qed.

Lemma expected_velocity_antitone (p q : Q) :
  p <= q ->
  calculate_expected_poc_velocity q <= calculate_expected_poc_velocity p.
Proof.
  intros H. unfold calculate_expected_poc_velocity.
  repeat case_cmp; bool_to_order; try lra; vm_compute; discriminate.
Qed.

(** The status is the cascade on velocity / expected velocity: the
    guard against a zero expectation is never taken. *)
Lemma maturity_status_by_ratio (poc_vel poc_current : Q) :
  let ratio := poc_vel / calculate_expected_poc_velocity poc_current in
  get_poc_velocity_status_with_maturity poc_vel poc_current
  = if ratio >=? 1.2 then (GreenCircle, "Excellent", "excellent")
    else if ratio >=? 0.8 then (GreenCircle, "Good", "good")
    else if ratio >=? 0.5 then (YellowCircle, "Warning", "warning")
    else (RedCircle, "Critical", "critical").
Proof.
  cbv zeta. unfold get_poc_velocity_status_with_maturity.
  pose proof (expected_velocity_range poc_current) as [H _].
  destruct (calculate_expected_poc_velocity poc_current >? 0) eqn:E;
    [reflexivity|]. bool_to_order. lra.
Qed.

Lemma ratio_cascade_monotone (r1 r2 : Q) :
  r1 <= r2 ->
  (status_rank
     (snd (if r1 >=? 1.2 then (GreenCircle, "Excellent", "excellent")
           else if r1 >=? 0.8 then (GreenCircle, "Good", "good")
           else if r1 >=? 0.5 then (YellowCircle, "Warning", "warning")
           else (RedCircle, "Critical", "critical")))
   <= status_rank
        (snd (if r2 >=? 1.2 then (GreenCircle, "Excellent", "excellent")
              else if r2 >=? 0.8 then (GreenCircle, "Good", "good")
              else if r2 >=? 0.5 then (YellowCircle, "Warning", "warning")
              else (RedCircle, "Critical", "critical"))))%nat.
Proof.
  intros H.
  destruct (r1 >=? 1.2) eqn:A1, (r1 >=? 0.8) eqn:A2, (r1 >=? 0.5) eqn:A3,
    (r2 >=? 1.2) eqn:B1, (r2 >=? 0.8) eqn:B2, (r2 >=? 0.5) eqn:B3;
    bool_to_order; try lra; vm_compute; lia.
Qed.

(** X5.  The expected velocity is always between 1 and 10 points per
    period and never rises with maturity; so the status is decided by
    velocity / expected velocity, the guard against a zero expectation
    being dead. *)
Theorem expected_velocity_falls_with_maturity (p q poc_vel : Q) :
  p <= q ->
  1 <= calculate_expected_poc_velocity q
  /\ calculate_expected_poc_velocity q <= calculate_expected_poc_velocity p
  /\ calculate_expected_poc_velocity p <= 10
  /\ get_poc_velocity_status_with_maturity poc_vel p
     = (let ratio := poc_vel / calculate_expected_poc_velocity p in
        if ratio >=? 1.2 then (GreenCircle, "Excellent", "excellent")
        else if ratio >=? 0.8 then (GreenCircle, "Good", "good")
        else if ratio >=? 0.5 then (YellowCircle, "Warning", "warning")
        else (RedCircle, "Critical", "critical")).
Proof.
  intros H. split; [apply expected_velocity_range|].
  split; [apply expected_velocity_antitone, H|].
  split; [apply expected_velocity_range|].
  apply maturity_status_by_ratio.
Qed.

Lemma expected_velocity_falls_with_maturity_witness :
  1 <= calculate_expected_poc_velocity 92
  /\ calculate_expected_poc_velocity 92 <= calculate_expected_poc_velocity 30
  /\ calculate_expected_poc_velocity 30 <= 10
  /\ get_poc_velocity_status_with_maturity 4 30
     = (let ratio := 4 / calculate_expected_poc_velocity 30 in
        if ratio >=? 1.2 then (GreenCircle, "Excellent", "excellent")
        else if ratio >=? 0.8 then (GreenCircle, "Good", "good")
        else if ratio >=? 0.5 then (YellowCircle, "Warning", "warning")
        else (RedCircle, "Critical", "critical")).
Proof.
  apply (expected_velocity_falls_with_maturity 30 92 4).
  vm_compute. discriminate.
Defined.

(** X6.  At a given maturity, a lower velocity never gets a better
    status. *)
Theorem maturity_status_monotone_in_velocity (v1 v2 poc_current : Q) :
  v1 <= v2 ->
  (status_rank (snd (get_poc_velocity_status_with_maturity v1 poc_current))
   <= status_rank
        (snd (get_poc_velocity_status_with_maturity v2 poc_current)))%nat.
Proof.
  intros H. rewrite !maturity_status_by_ratio. cbv zeta.
  apply ratio_cascade_monotone.
  pose proof (expected_velocity_range poc_current) as [He _].
  apply Qmult_le_compat_r; [exact H|].
  apply Qinv_le_0_compat. lra.
Qed.

Lemma maturity_status_monotone_in_velocity_witness :
  (status_rank (snd (get_poc_velocity_status_with_maturity 2 50))
   <= status_rank (snd (get_poc_velocity_status_with_maturity 6 50)))%nat.
Proof.
  apply (maturity_status_monotone_in_velocity 2 6 50).
  vm_compute. discriminate.
Defined.

(** X7.  For a velocity that is not negative, a more mature project
    never gets a worse status than a less mature one: the expectation
    only falls with maturity. *)
Theorem maturity_status_monotone_in_maturity (poc_vel p q : Q) :
  0 <= poc_vel -> p <= q ->
  (status_rank (snd (get_poc_velocity_status_with_maturity poc_vel p))
   <= status_rank (snd (get_poc_velocity_status_with_maturity poc_vel q)))%nat.
Proof.
  intros Hv H. rewrite !maturity_status_by_ratio. cbv zeta.
  apply ratio_cascade_monotone.
  pose proof (expected_velocity_range p) as [Hp _].
  pose proof (expected_velocity_range q) as [Hq _].
  pose proof (expected_velocity_antitone p q H) as Ha.
  set (a := calculate_expected_poc_velocity p) in *.
  set (b := calculate_expected_poc_velocity q) in *.
  apply Qle_shift_div_r; [lra|].
  assert (E : poc_vel / b * a == poc_vel + poc_vel * (a - b) / b)
    by (field; lra).
  rewrite E.
  assert (H0 : 0 <= poc_vel * (a - b) / b).
  { apply Qle_shift_div_l; [lra|].
    rewrite Qmult_0_l. apply Qmult_le_0_compat; lra. }
  lra.
Qed.

Lemma maturity_status_monotone_in_maturity_witness :
  (status_rank (snd (get_poc_velocity_status_with_maturity 2 30))
   <= status_rank (snd (get_poc_velocity_status_with_maturity 2 92)))%nat.
Proof.
  apply (maturity_status_monotone_in_maturity 2 30 92);
    vm_compute; discriminate.
Defined.

(** X8.  Whatever the maturity, a velocity below half a point per period
    is Critical (so is a finished project that no longer moves) and a
    velocity of at least 12 points is Excellent. *)
Theorem maturity_status_extremes (poc_vel poc_current : Q) :
  (poc_vel < 0.5 ->
   get_poc_velocity_status_with_maturity poc_vel poc_current
   = (RedCircle, "Critical", "critical"))
  /\ (12 <= poc_vel ->
      get_poc_velocity_status_with_maturity poc_vel poc_current
      = (GreenCircle, "Excellent", "excellent")).
Proof.
  pose proof (expected_velocity_range poc_current) as [He1 He2].
  rewrite maturity_status_by_ratio. cbv zeta.
  set (e := calculate_expected_poc_velocity poc_current) in *.
  split; intros H.
  - assert (Hr : poc_vel / e < 0.5).
    { apply Qlt_shift_div_r; [lra|]. nra. }
    destruct (poc_vel / e >=? 1.2) eqn:A1, (poc_vel / e >=? 0.8) eqn:A2,
      (poc_vel / e >=? 0.5) eqn:A3; bool_to_order; try lra; reflexivity.
  - assert (Hr : 1.2 <= poc_vel / e).
    { apply Qle_shift_div_l; [lra|]. nra. }
    destruct (poc_vel / e >=? 1.2) eqn:A1; bool_to_order; [reflexivity|lra].
Qed.

Lemma maturity_status_extremes_witness :
  get_poc_velocity_status_with_maturity 0 100
  = (RedCircle, "Critical", "critical")
  /\ get_poc_velocity_status_with_maturity 12 10
     = (GreenCircle, "Excellent", "excellent").
Proof.
  split.
  - apply (proj1 (maturity_status_extremes 0 100)). reflexivity.
  - apply (proj2 (maturity_status_extremes 12 10)). vm_compute. discriminate.
Defined.

(* ================================================================== *)
(** * Overall status and health score: properties *)

Lemma of_nat_le (a b : nat) : (a <= b)%nat -> of_nat a <= of_nat b.
Proof. intros H. unfold of_nat. rewrite <- Zle_Qle. lia. Qed.

Lemma of_nat_lt (a b : nat) : (a < b)%nat -> of_nat a < of_nat b.
Proof. intros H. unfold of_nat. rewrite <- Zlt_Qlt. lia. Qed.

(** The cascade on the average of three scores, by their sum. *)
Lemma average_cascade (s : nat) :
  (if of_nat s / 3 >=? 3.5 then "Excellent"
   else if of_nat s / 3 >=? 2.5 then "Good"
   else if of_nat s / 3 >=? 1.5 then "Warning"
   else "Critical")
  = (if (11 <=? s)%nat then "Excellent"
     else if (8 <=? s)%nat then "Good"
     else if (5 <=? s)%nat then "Warning"
     else "Critical").
Proof.
  assert (Hge : forall k : nat, (k <= s)%nat -> of_nat k / 3 <= of_nat s / 3).
  { intros k Hk. apply Qmult_le_compat_r; [apply of_nat_le, Hk|].
    vm_compute. discriminate. }
  assert (Hlt : forall k : nat, (s <= k)%nat -> of_nat s / 3 <= of_nat k / 3).
  { intros k Hk. apply Qmult_le_compat_r; [apply of_nat_le, Hk|].
    vm_compute. discriminate. }
  destruct (11 <=? s)%nat eqn:E1.
  { apply Nat.leb_le in E1. specialize (Hge 11%nat E1).
    destruct (of_nat s / 3 >=? 3.5) eqn:A; [reflexivity|].
    bool_to_order. exfalso.
    assert (3.5 <= of_nat 11 / 3) by (vm_compute; discriminate). lra. }
  apply Nat.leb_gt in E1.
  assert (A1 : (of_nat s / 3 >=? 3.5) = false).
  { unfold geb. apply leb_gt. specialize (Hlt 10%nat ltac:(lia)).
    assert (of_nat 10 / 3 < 3.5) by reflexivity. lra. }
  rewrite A1.
  destruct (8 <=? s)%nat eqn:E2.
  { apply Nat.leb_le in E2. specialize (Hge 8%nat E2).
    destruct (of_nat s / 3 >=? 2.5) eqn:A; [reflexivity|].
    bool_to_order. exfalso.
    assert (2.5 <= of_nat 8 / 3) by (vm_compute; discriminate). lra. }
  apply Nat.leb_gt in E2.
  assert (A2 : (of_nat s / 3 >=? 2.5) = false).
  { unfold geb. apply leb_gt. specialize (Hlt 7%nat ltac:(lia)).
    assert (of_nat 7 / 3 < 2.5) by reflexivity. lra. }
  rewrite A2.
  destruct (5 <=? s)%nat eqn:E3.
  { apply Nat.leb_le in E3. specialize (Hge 5%nat E3).
    destruct (of_nat s / 3 >=? 1.5) eqn:A; [reflexivity|].
    bool_to_order. exfalso.
    assert (1.5 <= of_nat 5 / 3) by (vm_compute; discriminate). lra. }
  apply Nat.leb_gt in E3.
  assert (A3 : (of_nat s / 3 >=? 1.5) = false).
  { unfold geb. apply leb_gt. specialize (Hlt 4%nat ltac:(lia)).
    assert (of_nat 4 / 3 < 1.5) by reflexivity. lra. }
  rewrite A3. reflexivity.
Qed.

Lemma status_score_range (cls : string) (dflt : nat) :
  (1 <= dflt <= 4)%nat -> (1 <= status_score cls dflt <= 4)%nat.
Proof.
  intros H. unfold status_score.
  repeat (destruct (String.eqb _ _)); lia.
Qed.

(** The class of the maturity model is one of the four scored names, so
    its score does not depend on the default. *)
Lemma maturity_class_score (poc_vel poc_current : Q) (d1 d2 : nat) :
  status_score (snd (get_poc_velocity_status_with_maturity poc_vel
                       poc_current)) d1
  = status_score (snd (get_poc_velocity_status_with_maturity poc_vel
                         poc_current)) d2.
Proof.
  unfold get_poc_velocity_status_with_maturity.
  repeat (destruct (_ >=? _)); reflexivity.
Qed.

(** X9.  The overall status depends on the three class scores only
    through their sum (each class scores 4, 3, 2 or 1; the progress
    class is the maturity-adjusted one when POC and velocity are given):
    Excellent from 11, Good from 8, Warning from 5, Critical below. *)
Theorem overall_status_by_sum
  (cm2_class committed_class poc_class : string)
  (poc_current poc_vel : option Q) :
  get_overall_project_status cm2_class committed_class poc_class
    poc_current poc_vel
  = let s := (status_score cm2_class 1 + status_score committed_class 1
              + progress_score poc_class poc_current poc_vel)%nat in
    if (11 <=? s)%nat then "Excellent"
    else if (8 <=? s)%nat then "Good"
    else if (5 <=? s)%nat then "Warning"
    else "Critical".
Proof.
  cbv zeta. rewrite <- average_cascade.
  unfold get_overall_project_status, progress_score.
  destruct poc_current as [pc|], poc_vel as [pv|]; try reflexivity.
  now rewrite (maturity_class_score pv pc (status_score poc_class 1) 1).
Qed.

(** X10.  When the current POC and the velocity are given, the raw
    progress class passed by the caller has no influence on the overall
    status: the maturity-adjusted class replaces it. *)
Theorem raw_progress_class_is_overridden
  (cm2_class committed_class poc_class poc_class' : string) (pc pv : Q) :
  get_overall_project_status cm2_class committed_class poc_class
    (Some pc) (Some pv)
  = get_overall_project_status cm2_class committed_class poc_class'
      (Some pc) (Some pv).
Proof. rewrite !overall_status_by_sum. reflexivity. Qed.

(** X11.  A class that is none of 'excellent', 'good', 'warning' and
    'critical' is scored like 'critical'; this holds for the tier
    'stable' the classifier can return. *)
Theorem unknown_class_scores_as_critical
  (cls committed_class poc_class : string) (poc_current poc_vel : option Q) :
  cls <> "excellent" -> cls <> "good" -> cls <> "warning" ->
  get_overall_project_status cls committed_class poc_class
    poc_current poc_vel
  = get_overall_project_status "critical" committed_class poc_class
      poc_current poc_vel
  /\ get_overall_project_status committed_class cls poc_class
       poc_current poc_vel
     = get_overall_project_status committed_class "critical" poc_class
         poc_current poc_vel.
Proof.
  intros H1 H2 H3.
  assert (Hs : status_score cls 1 = status_score "critical" 1).
  { unfold status_score.
    apply String.eqb_neq in H1, H2, H3. rewrite H1, H2, H3.
    destruct (String.eqb cls "critical"); reflexivity. }
  rewrite !overall_status_by_sum. cbv zeta. rewrite Hs. split; reflexivity.
Qed.

Lemma unknown_class_scores_as_critical_witness :
  get_overall_project_status "stable" "good" "good" None None
  = get_overall_project_status "critical" "good" "good" None None
  /\ get_overall_project_status "good" "stable" "good" None None
     = get_overall_project_status "good" "critical" "good" None None.
Proof.
  apply (unknown_class_scores_as_critical "stable" "good" "good" None None);
    discriminate.
Defined.

(** X12.  Improving the margin class or the commitment class never
    worsens the overall status. *)
Theorem overall_status_monotone
  (cm2_class cm2_class' committed_class committed_class' poc_class : string)
  (poc_current poc_vel : option Q) :
  (status_score cm2_class 1 <= status_score cm2_class' 1)%nat ->
  (status_score committed_class 1 <= status_score committed_class' 1)%nat ->
  (status_rank
     (get_overall_project_status cm2_class committed_class poc_class
        poc_current poc_vel)
   <= status_rank
        (get_overall_project_status cm2_class' committed_class' poc_class
           poc_current poc_vel))%nat.
Proof.
  intros H1 H2. rewrite !overall_status_by_sum. cbv zeta.
  set (p := progress_score poc_class poc_current poc_vel).
  set (a := status_score cm2_class 1) in *.
  set (a' := status_score cm2_class' 1) in *.
  set (b := status_score committed_class 1) in *.
  set (b' := status_score committed_class' 1) in *.
  destruct (11 <=? a + b + p)%nat eqn:E1, (8 <=? a + b + p)%nat eqn:E2,
    (5 <=? a + b + p)%nat eqn:E3,
    (11 <=? a' + b' + p)%nat eqn:F1, (8 <=? a' + b' + p)%nat eqn:F2,
    (5 <=? a' + b' + p)%nat eqn:F3;
    try (vm_compute; lia);
    repeat match goal with
      | H : (_ <=? _)%nat = true |- _ => apply Nat.leb_le in H
      | H : (_ <=? _)%nat = false |- _ => apply Nat.leb_gt in H
      end; lia.
Qed.

Lemma overall_status_monotone_witness :
  (status_rank
     (get_overall_project_status "warning" "good" "good" None None)
   <= status_rank
        (get_overall_project_status "excellent" "excellent" "good" None
           None))%nat.
Proof.
  apply (overall_status_monotone "warning" "excellent" "good" "excellent"
           "good" None None); vm_compute; lia.
Defined.

(** Division by the constants of the health score, as a product. *)
Ltac div_by_constant :=
  unfold Qdiv in *;
  change (/ 15) with (1 # 15) in *;
  change (/ 5) with (1 # 5) in *;
  change (/ 2) with (1 # 2) in *.

(** The capped index score and the two banded scores of the health
    score never fall when their argument rises. *)
Lemma index_score_monotone (x y : Q) :
  x <= y -> py_min (x * 100) 120 <= py_min (y * 100) 120.
Proof.
  intros H. unfold py_min. repeat case_cmp; bool_to_order; lra.
Qed.

Lemma margin_score_monotone (x y : Q) :
  x <= y ->
  (if x <=? 0 then 0
   else if x <=? 15 then x / 15 * 100
   else py_min (100 + (x - 15) / 5 * 20) 120)
  <= (if y <=? 0 then 0
      else if y <=? 15 then y / 15 * 100
      else py_min (100 + (y - 15) / 5 * 20) 120).
Proof.
  intros H. unfold py_min. div_by_constant.
  repeat case_cmp; bool_to_order; lra.
Qed.

Lemma velocity_score_monotone (x y : Q) :
  x <= y ->
  (if x <=? 0 then 0
   else if x <=? 5 then x / 5 * 100
   else py_min (100 + (x - 5) / 2 * 20) 120)
  <= (if y <=? 0 then 0
      else if y <=? 5 then y / 5 * 100
      else py_min (100 + (y - 5) / 2 * 20) 120).
Proof.
  intros H. unfold py_min. div_by_constant.
  repeat case_cmp; bool_to_order; lra.
Qed.

Lemma final_clamp_monotone (x y : Q) :
  x <= y -> py_min (py_max x 0) 100 <= py_min (py_max y 0) 100.
Proof.
  intros H. unfold py_min, py_max, gtb.
  destruct (x <? 0) eqn:A, (y <? 0) eqn:B; bool_to_order;
    repeat case_cmp; bool_to_order; lra.
Qed.

Lemma final_clamp_range (x : Q) : 0 <= py_min (py_max x 0) 100 <= 100.
Proof.
  unfold py_min, py_max, gtb.
  destruct (x <? 0) eqn:A; bool_to_order; repeat case_cmp; bool_to_order; lra.
Qed.

(** X13.  The health score never falls when the cost index, the
    schedule index, the margin or the velocity rises, with or without a
    velocity. *)
Theorem health_score_monotone (cpi cpi' spi spi' cm2_pct cm2_pct' : Q) :
  cpi <= cpi' -> spi <= spi' -> cm2_pct <= cm2_pct' ->
  calculate_project_health_score cpi spi cm2_pct None
  <= calculate_project_health_score cpi' spi' cm2_pct' None
  /\ (forall v v',
         v <= v' ->
         calculate_project_health_score cpi spi cm2_pct (Some v)
         <= calculate_project_health_score cpi' spi' cm2_pct' (Some v')).
Proof.
  intros Hc Hs Hm.
  pose proof (index_score_monotone cpi cpi' Hc) as H1.
  pose proof (index_score_monotone spi spi' Hs) as H2.
  pose proof (margin_score_monotone cm2_pct cm2_pct' Hm) as H3.
  split.
  - unfold calculate_project_health_score. apply final_clamp_monotone. lra.
  - intros v v' Hv.
    pose proof (velocity_score_monotone v v' Hv) as H4.
    unfold calculate_project_health_score. apply final_clamp_monotone. lra.
Qed.

Lemma health_score_monotone_witness :
  calculate_project_health_score 0.9 1 8 None
  <= calculate_project_health_score 1 1.1 12 None
  /\ (forall v v',
         v <= v' ->
         calculate_project_health_score 0.9 1 8 (Some v)
         <= calculate_project_health_score 1 1.1 12 (Some v')).
Proof.
  apply (health_score_monotone 0.9 1 1 1.1 8 12); vm_compute; discriminate.
Defined.

(** X14.  The health score lies between 0 and 100, and it is 100 as
    soon as every component meets its target: both indices at least 1,
    the margin at least 15 and, when a velocity is given, the velocity
    at least 5. *)
Theorem health_score_range_and_target
  (cpi spi cm2_pct : Q) (poc_vel : option Q) :
  0 <= calculate_project_health_score cpi spi cm2_pct poc_vel <= 100
  /\ (1 <= cpi -> 1 <= spi -> 15 <= cm2_pct ->
      match poc_vel with Some v => 5 <= v | None => True end ->
      calculate_project_health_score cpi spi cm2_pct poc_vel == 100).
Proof.
  split; [apply final_clamp_range|]. intros Hc Hs Hm Hv.
  assert (H1 : 100 <= py_min (cpi * 100) 120)
    by (unfold py_min; case_cmp; bool_to_order; lra).
  assert (H2 : 100 <= py_min (spi * 100) 120)
    by (unfold py_min; case_cmp; bool_to_order; lra).
  assert (H3 : 100 <= (if cm2_pct <=? 0 then 0
                       else if cm2_pct <=? 15 then cm2_pct / 15 * 100
                       else py_min (100 + (cm2_pct - 15) / 5 * 20) 120))
    by (unfold py_min; div_by_constant; repeat case_cmp; bool_to_order;
        lra).
  assert (Hclamp : forall x, 100 <= x -> py_min (py_max x 0) 100 == 100).
  { intros x Hx. unfold py_min, py_max, gtb.
    destruct (x <? 0) eqn:A; bool_to_order; repeat case_cmp; bool_to_order;
      lra. }
  unfold calculate_project_health_score. apply Hclamp.
  destruct poc_vel as [v|]; [|lra].
  assert (H4 : 100 <= (if v <=? 0 then 0
                       else if v <=? 5 then v / 5 * 100
                       else py_min (100 + (v - 5) / 2 * 20) 120))
    by (unfold py_min; div_by_constant; repeat case_cmp; bool_to_order;
        lra).
  lra.
Qed.

Lemma health_score_range_and_target_witness :
  calculate_project_health_score 1.05 1 16 (Some 6) == 100.
Proof.
  apply (proj2 (health_score_range_and_target 1.05 1 16 (Some 6)));
    vm_compute; discriminate.
Defined.

(* ================================================================== *)
(** * Period variance: properties *)

(** X15.  For a previous value that is not 0, the sign of the variance
    is the direction of the move, whatever the sign of the previous
    value: the variance is positive exactly when the value rose and 0
    exactly when it did not move; and a lower current value never gets
    a higher variance. *)
Theorem period_variance_sign (current previous : Q) :
  ~ previous == 0 ->
  let v := calculate_period_variance current previous in
  (0 < v <-> previous < current)
  /\ (v == 0 <-> current == previous)
  /\ (forall lower,
         lower <= current -> calculate_period_variance lower previous <= v).
Proof.
  intros Hp v. subst v.
  assert (Hv : forall c, calculate_period_variance c previous
                         == (c - previous) / Qabs previous * 100).
  { intros c. apply (period_variance_cases c previous), Hp. }
  assert (Ha : 0 < Qabs previous).
  { destruct (Qlt_le_dec previous 0) as [Hn|Hn].
    - rewrite Qabs_neg by lra. lra.
    - rewrite Qabs_pos by lra.
      destruct (Qle_lt_or_eq _ _ Hn) as [H|H]; [exact H|].
      exfalso. apply Hp. now symmetry. }
  set (a := Qabs previous) in *.
  assert (Hd : forall c, (c - previous) / a * a == c - previous)
    by (intros c; field; lra).
  split; [|split].
  - rewrite Hv. specialize (Hd current).
    set (d := (current - previous) / a) in *. split; intros H.
    + assert (0 < d) by lra.
      assert (0 < d * a) by (apply Qmult_lt_0_compat; assumption). lra.
    + assert (0 < d) by (apply Qlt_shift_div_l; [exact Ha|]; lra).
      lra.
  - rewrite Hv. specialize (Hd current).
    set (d := (current - previous) / a) in *. split; intros H.
    + assert (Hd0 : d == 0) by lra. rewrite Hd0 in Hd. lra.
    + assert (Hd0 : d == 0).
      { unfold d. rewrite H. field. lra. }
      rewrite Hd0. ring.
  - intros lower Hl. rewrite !Hv.
    assert (H : (lower - previous) / a <= (current - previous) / a).
    { unfold Qdiv. apply Qmult_le_compat_r; [lra|].
      apply Qlt_le_weak, Qinv_lt_0_compat, Ha. }
    lra.
Qed.

Lemma period_variance_sign_witness :
  (0 < calculate_period_variance (-150) (-200) <-> -200 < -150)
  /\ (calculate_period_variance (-150) (-200) == 0 <-> -150 == -200)
  /\ (forall lower,
         lower <= -150 ->
         calculate_period_variance lower (-200)
         <= calculate_period_variance (-150) (-200)).
Proof.
  apply (period_variance_sign (-150) (-200)). vm_compute. discriminate.
Defined.

(* ================================================================== *)
(** * Contingency efficiency engine: further properties *)

Lemma contingency_status_label (eff : Q) :
  In (fst (fst (contingency_status eff)))
    ["Excellent"; "Good"; "On Track"; "Warning"; "Critical"].
Proof.
  unfold contingency_status. repeat case_cmp; cbn; tauto.
Qed.

(** The remaining cells of the full bundle. *)
Lemma full_bundle_remaining (work_packages : list WorkPackage) (poc : Q) :
  risk_contingencies work_packages <> [] ->
  let m := calculate_contingency_metrics work_packages poc in
  remaining_amount m = Some (contingency_fct_n m)
  /\ remaining_percentage m
     = Some (if contingency_as_sold m >? 0
             then contingency_fct_n m / contingency_as_sold m * 100 else 0)
  /\ (exists e, efficiency m = Some e
                /\ status m = fst (fst (contingency_status e))).
Proof.
  intros Hne m. subst m. unfold calculate_contingency_metrics.
  destruct (risk_contingencies work_packages) as [|w rest]; [congruence|].
  destruct (contingency_trend _ _) as [tr ic].
  destruct (contingency_status _) as [[st sic] scol] eqn:Est.
  cbn [remaining_amount remaining_percentage contingency_fct_n
       contingency_as_sold efficiency status].
  split; [reflexivity|]. split; [reflexivity|].
  eexists. split; [reflexivity|]. rewrite Est. reflexivity.
Qed.

(** X16.  The bundle tells whether a project has contingency in three
    equivalent ways: [efficiency] is absent, [has_contingency] is false
    and the status is 'N/A' exactly when no work package is a
    risk-contingency line. *)
Theorem contingency_absence_is_consistent
  (work_packages : list WorkPackage) (poc_current : Q) :
  let m := calculate_contingency_metrics work_packages poc_current in
  (efficiency m = None <-> risk_contingencies work_packages = [])
  /\ (has_contingency m = false <-> risk_contingencies work_packages = [])
  /\ (status m = "N/A" <-> risk_contingencies work_packages = []).
Proof.
  intros m. subst m.
  destruct (risk_contingencies work_packages) as [|w rest] eqn:E.
  - unfold calculate_contingency_metrics. rewrite E. cbn. tauto.
  - assert (Hne : risk_contingencies work_packages <> []) by congruence.
    destruct (full_bundle work_packages poc_current Hne)
      as (Hh & _ & _ & _ & _ & _ & He & _).
    destruct (full_bundle_remaining work_packages poc_current Hne)
      as (_ & _ & e & _ & Hs).
    rewrite Hh, He, Hs.
    pose proof (contingency_status_label e) as Hl.
    repeat split; try discriminate.
    intros Hna. rewrite Hna in Hl. cbn in Hl.
    intuition discriminate.
Qed.

(** X17.  For a project whose contingency lines have a positive
    as-sold total, the consumed amount is that total less the current
    forecast total and the remaining amount is the current forecast
    total; while the forecast lies between 0 and the as-sold total the
    consumed amount is not negative and both percentages lie in
    [0, 100]; once the forecast exceeds the as-sold total (contingency
    was added) the consumed amount and percentage are negative and the
    remaining percentage exceeds 100. *)
Theorem contingency_shares
  (work_packages : list WorkPackage) (poc_current : Q) :
  let rcs := risk_contingencies work_packages in
  let total_as_sold := py_sum (List.map as_sold rcs) in
  let total_fct_n := py_sum (List.map fct_n rcs) in
  rcs <> [] ->
  0 < total_as_sold ->
  let m := calculate_contingency_metrics work_packages poc_current in
  exists remaining_pct,
    consumed_amount m = total_as_sold - total_fct_n
    /\ remaining_amount m = Some total_fct_n
    /\ remaining_percentage m = Some remaining_pct
    /\ (0 <= total_fct_n <= total_as_sold ->
        0 <= consumed_amount m
        /\ 0 <= consumed_percentage m <= 100
        /\ 0 <= remaining_pct <= 100)
    /\ (total_as_sold < total_fct_n ->
        consumed_amount m < 0
        /\ consumed_percentage m < 0
        /\ 100 < remaining_pct).
Proof.
  intros rcs a f Hne Ha m.
  destruct (full_bundle work_packages poc_current Hne)
    as (_ & Eas & _ & En & Hc & Hp & _).
  destruct (full_bundle_remaining work_packages poc_current Hne)
    as (Hr & Hrp & _).
  fold m in Eas, En, Hc, Hp, Hr, Hrp. fold rcs in Eas, En.
  fold a in Eas. fold f in En.
  rewrite Eas, En in *. rewrite Hc in Hp.
  eexists. split; [exact Hc|]. split; [exact Hr|]. split; [exact Hrp|].
  rewrite Hp, Hc.
  destruct (a >? 0) eqn:E; bool_to_order; [|lra].
  split.
  - intros [Hf Hfa].
    assert (0 <= (a - f) / a) by (apply Qle_shift_div_l; lra).
    assert ((a - f) / a <= 1) by (apply Qle_shift_div_r; lra).
    assert (0 <= f / a) by (apply Qle_shift_div_l; lra).
    assert (f / a <= 1) by (apply Qle_shift_div_r; lra).
    repeat split; lra.
  - intros Hf.
    assert ((a - f) / a < 0) by (apply Qlt_shift_div_r; lra).
    assert (1 < f / a) by (apply Qlt_shift_div_l; lra).
    repeat split; lra.
Qed.

Lemma contingency_shares_witness :
  let m := calculate_contingency_metrics scenario_contingencies 40 in
  exists remaining_pct,
    consumed_amount m = 1000 - 850
    /\ remaining_amount m = Some 850
    /\ remaining_percentage m = Some remaining_pct
    /\ (0 <= 850 <= 1000 ->
        0 <= consumed_amount m
        /\ 0 <= consumed_percentage m <= 100
        /\ 0 <= remaining_pct <= 100)
    /\ (1000 < 850 ->
        consumed_amount m < 0
        /\ consumed_percentage m < 0
        /\ 100 < remaining_pct).
Proof.
  apply (contingency_shares scenario_contingencies 40).
  - vm_compute. discriminate.
  - vm_compute. reflexivity.
Defined.

(** X18.  For a positive POC the efficiency is at least 100 exactly when
    the consumed percentage does not exceed the POC, it is 200 exactly
    when nothing is consumed (or contingency was added), and it is 0
    exactly when the consumed percentage is at least twice the POC. *)
Theorem contingency_efficiency_meaning
  (work_packages : list WorkPackage) (poc_current : Q) :
  risk_contingencies work_packages <> [] ->
  0 < poc_current ->
  let m := calculate_contingency_metrics work_packages poc_current in
  exists e,
    efficiency m = Some e
    /\ (100 <= e <-> consumed_percentage m <= poc_current)
    /\ (e == 200 <-> consumed_percentage m <= 0)
    /\ (e == 0 <-> 2 * poc_current <= consumed_percentage m).
Proof.
  intros Hne Hpoc m.
  destruct (full_bundle work_packages poc_current Hne)
    as (_ & _ & _ & _ & _ & _ & He & _).
  fold m in He. eexists. split; [exact He|].
  rewrite cap_is_clamp.
  destruct (poc_current >? 0) eqn:E; bool_to_order; [|lra].
  set (c := consumed_percentage m).
  assert (Hr : c / poc_current * poc_current == c) by (field; lra).
  set (r := c / poc_current) in *.
  assert (Hle1 : r <= 1 <-> c <= poc_current).
  { split; intros H.
    - rewrite <- Hr.
      assert (X : r * poc_current <= 1 * poc_current)
        by (apply Qmult_le_compat_r; lra).
      lra.
    - apply Qle_shift_div_r; lra. }
  assert (Hle0 : r <= 0 <-> c <= 0).
  { split; intros H.
    - rewrite <- Hr.
      assert (X : r * poc_current <= 0 * poc_current)
        by (apply Qmult_le_compat_r; lra).
      lra.
    - apply Qle_shift_div_r; lra. }
  assert (Hge2 : 2 <= r <-> 2 * poc_current <= c).
  { split; intros H.
    - rewrite <- Hr.
      assert (X : 2 * poc_current <= r * poc_current)
        by (apply Qmult_le_compat_r; lra).
      lra.
    - apply Qle_shift_div_l; lra. }
  unfold clamp.
  destruct (Qlt_le_dec ((2 - r) * 100) 0), (Qlt_le_dec 200 ((2 - r) * 100));
    (split; [|split]); split; intros H; try lra;
    try (apply Hle1; lra); try (apply Hle0; lra); try (apply Hge2; lra);
    try (apply Hle1 in H; lra); try (apply Hle0 in H; lra);
    try (apply Hge2 in H; lra).
Qed.

Lemma contingency_efficiency_meaning_witness :
  let m := calculate_contingency_metrics scenario_contingencies 40 in
  exists e,
    efficiency m = Some e
    /\ (100 <= e <-> consumed_percentage m <= 40)
    /\ (e == 200 <-> consumed_percentage m <= 0)
    /\ (e == 0 <-> 2 * 40 <= consumed_percentage m).
Proof.
  apply (contingency_efficiency_meaning scenario_contingencies 40).
  - vm_compute. discriminate.
  - reflexivity.
Defined.

(** X19.  Before any progress (POC not positive) a project with
    contingency lines gets the efficiency 200 and the status
    'Excellent', whatever has been consumed. *)
Theorem contingency_without_progress
  (work_packages : list WorkPackage) (poc_current : Q) :
  risk_contingencies work_packages <> [] ->
  poc_current <= 0 ->
  let m := calculate_contingency_metrics work_packages poc_current in
  efficiency m = Some 200 /\ status m = "Excellent".
Proof.
  intros Hne Hpoc m.
  destruct (full_bundle work_packages poc_current Hne)
    as (_ & _ & _ & _ & _ & _ & He & _).
  destruct (full_bundle_remaining work_packages poc_current Hne)
    as (_ & _ & e & He' & Hs).
  fold m in He, He', Hs.
  assert (E : (poc_current >? 0) = false) by (unfold gtb; apply ltb_ge; lra).
  rewrite E in He. change (py_max 0 (py_min 200 200)) with 200 in He.
  split; [exact He|].
  rewrite He in He'. injection He' as <-. rewrite Hs. reflexivity.
Qed.

Lemma contingency_without_progress_witness :
  let m := calculate_contingency_metrics scenario_contingencies 0 in
  efficiency m = Some 200 /\ status m = "Excellent".
Proof.
  apply (contingency_without_progress scenario_contingencies 0).
  - vm_compute. discriminate.
  - vm_compute. discriminate.
Defined.

(** X20.  When the contingency lines carry no previous forecast (their
    fct_n1 total is not positive) but an as-sold amount, the recent
    consumption is taken as 0 and the trend is reported as
    'Improving'. *)
Theorem trend_without_previous_forecast
  (work_packages : list WorkPackage) (poc_current : Q) :
  risk_contingencies work_packages <> [] ->
  let m := calculate_contingency_metrics work_packages poc_current in
  0 < contingency_as_sold m ->
  contingency_fct_n1 m <= 0 ->
  trend m = "Improving".
Proof.
  intros Hne m Has Hn1.
  destruct (full_bundle work_packages poc_current Hne)
    as (_ & _ & _ & _ & _ & _ & _ & Ht).
  fold m in Ht. rewrite Ht. apply trend_improving.
  destruct (contingency_as_sold m >? 0) eqn:E1,
    (contingency_fct_n1 m >? 0) eqn:E2; bool_to_order; lra.
Qed.

Lemma trend_without_previous_forecast_witness :
  trend (calculate_contingency_metrics
           [sample_wp "9.1" "Risk contingency" 600 0 450 0] 40)
  = "Improving".
Proof.
  apply (trend_without_previous_forecast
           [sample_wp "9.1" "Risk contingency" 600 0 450 0] 40).
  - vm_compute. discriminate.
  - reflexivity.
  - vm_compute. discriminate.
Defined.

(* ================================================================== *)
(** * Traffic-light classifier and margin assessments: further
      properties *)

(** X21.  The classifier returns one of five fixed triples, so icon and
    label are determined by the tier; the tier 'stable' is returned only
    in non-reverse mode and only for a band that has a stable cutoff. *)
Theorem classifier_outputs (value : num) (th : ThresholdBand) (reverse : bool) :
  In (get_traffic_light_status value th reverse)
    [ (GreenCircle, "Excellent", "excellent");
      (GreenCircle, "Good", "good");
      (BlueSquare, "Stable", "stable");
      (YellowCircle, "Warning", "warning");
      (RedCircle, "Critical", "critical") ]
  /\ (tier_of (get_traffic_light_status value th reverse) = "stable" ->
      reverse = false /\ is_Some (stable th)).
Proof.
  unfold get_traffic_light_status, tier_of.
  destruct reverse, (stable th) as [s|];
    repeat case_cmp; cbn; (split; [tauto|]);
    intros H; try discriminate H; split; eauto.
Qed.

Lemma classifier_outputs_witness :
  false = false /\ is_Some (stable (revenue_growth EXECUTIVE_THRESHOLDS)).
Proof.
  apply (proj2 (classifier_outputs (Real (-1))
                  (revenue_growth EXECUTIVE_THRESHOLDS) false)).
  reflexivity.
Defined.

(** X22.  An erosion of 10 points or more is rated 'Critical' whatever
    the current margin; and with ordered cutoffs a margin below the
    warning cutoff is rated 'High' while it improves by more than 2
    points and 'Critical' otherwise. *)
Theorem margin_risk_forced_levels
  (th : ThresholdTable) (current_cm2 erosion : Q) :
  (erosion <= -10 -> assess_margin_risk th current_cm2 erosion = "Critical")
  /\ (warning (cm2_margin th) <= good (cm2_margin th) ->
      good (cm2_margin th) <= excellent (cm2_margin th) ->
      current_cm2 < warning (cm2_margin th) ->
      assess_margin_risk th current_cm2 erosion
      = if erosion >? 2 then "High" else "Critical").
Proof.
  unfold assess_margin_risk, gtb, geb. split.
  - intros H.
    destruct (2 <? erosion) eqn:E1; bool_to_order; [lra|].
    destruct (-2 <=? erosion) eqn:E2; bool_to_order; [lra|].
    destruct (-5 <? erosion) eqn:E3; bool_to_order; [lra|].
    destruct (-10 <? erosion) eqn:E4; bool_to_order; [lra|].
    rewrite !andb_false_r. reflexivity.
  - intros H1 H2 H3.
    destruct (excellent (cm2_margin th) <=? current_cm2) eqn:A1;
      bool_to_order; [lra|].
    destruct (good (cm2_margin th) <=? current_cm2) eqn:A2;
      bool_to_order; [lra|].
    destruct (warning (cm2_margin th) <=? current_cm2) eqn:A3;
      bool_to_order; [lra|].
    cbn [andb]. destruct (2 <? erosion), (-2 <=? erosion); reflexivity.
Qed.

Lemma margin_risk_forced_levels_witness :
  assess_margin_risk EXECUTIVE_THRESHOLDS 18 (-12) = "Critical"
  /\ assess_margin_risk EXECUTIVE_THRESHOLDS 3 4
     = (if 4 >? 2 then "High" else "Critical").
Proof.
  split.
  - apply (proj1 (margin_risk_forced_levels EXECUTIVE_THRESHOLDS 18 (-12))).
    vm_compute. discriminate.
  - apply (proj2 (margin_risk_forced_levels EXECUTIVE_THRESHOLDS 3 4));
      vm_compute; discriminate || reflexivity.
Defined.

(** X23.  The margin risk level never falls when the erosion gets
    worse, and with ordered cutoffs it never rises when the current
    margin gets better. *)
Theorem margin_risk_monotone (th : ThresholdTable) (c c' e e' : Q) :
  (e <= e' ->
   (risk_rank (assess_margin_risk th c e')
    <= risk_rank (assess_margin_risk th c e))%nat)
  /\ (warning (cm2_margin th) <= good (cm2_margin th) ->
      good (cm2_margin th) <= excellent (cm2_margin th) ->
      c <= c' ->
      (risk_rank (assess_margin_risk th c' e)
       <= risk_rank (assess_margin_risk th c e))%nat).
Proof.
  unfold assess_margin_risk. split.
  - intros H.
    destruct (c >=? excellent (cm2_margin th)),
      (c >=? good (cm2_margin th)), (c >=? warning (cm2_margin th));
      destruct (e >? 2) eqn:E1, (e >=? -2) eqn:E2, (e >? -5) eqn:E3,
        (e >? -10) eqn:E4, (e' >? 2) eqn:F1, (e' >=? -2) eqn:F2,
        (e' >? -5) eqn:F3, (e' >? -10) eqn:F4;
      bool_to_order; try lra; vm_compute; lia.
  - intros H1 H2 H.
    destruct (e >? 2), (e >=? -2), (e >? -5), (e >? -10);
      destruct (c >=? excellent (cm2_margin th)) eqn:A1,
        (c >=? good (cm2_margin th)) eqn:A2,
        (c >=? warning (cm2_margin th)) eqn:A3,
        (c' >=? excellent (cm2_margin th)) eqn:B1,
        (c' >=? good (cm2_margin th)) eqn:B2,
        (c' >=? warning (cm2_margin th)) eqn:B3;
      bool_to_order; try lra; vm_compute; lia.
Qed.

Lemma margin_risk_monotone_witness :
  (risk_rank (assess_margin_risk EXECUTIVE_THRESHOLDS 12 (-1))
   <= risk_rank (assess_margin_risk EXECUTIVE_THRESHOLDS 12 (-6)))%nat
  /\ (risk_rank (assess_margin_risk EXECUTIVE_THRESHOLDS 16 (-6))
      <= risk_rank (assess_margin_risk EXECUTIVE_THRESHOLDS 12 (-6)))%nat.
Proof.
  split.
  - apply (proj1 (margin_risk_monotone EXECUTIVE_THRESHOLDS 12 12 (-6) (-1))).
    vm_compute. discriminate.
  - apply (proj2 (margin_risk_monotone EXECUTIVE_THRESHOLDS 12 16 (-6) (-6)));
      vm_compute; discriminate.
Defined.

(** Without a previous forecast (both previous margins 0) the
    forecast is reported as 'Highly Reliable', whatever the current
    margins. *)
Theorem reliability_without_previous_forecast (cm2_n1 cm2_n cm1_n1 cm1_n : Q) :
  cm2_n1 == 0 -> cm1_n1 == 0 ->
  assess_forecast_reliability cm2_n1 cm2_n cm1_n1 cm1_n = "Highly Reliable".
Proof.
  intros H2 H1. unfold assess_forecast_reliability.
  apply neqb_false in H2, H1. rewrite H2, H1. reflexivity.
Qed.

Lemma reliability_without_previous_forecast_witness :
  assess_forecast_reliability 0 12 0 20 = "Highly Reliable".
Proof.
  apply (reliability_without_previous_forecast 0 12 0 20); reflexivity.
Defined.

Lemma filter_idempotent {A} (f : A -> bool) (l : list A) :
  List.filter f (List.filter f l) = List.filter f l.
Proof.
  induction l as [|x l IH]; cbn; [reflexivity|].
  destruct (f x) eqn:E; cbn; [rewrite E, IH|]; auto.
Qed.

Lemma fold_plus_shift (l : list Q) (a : Q) :
  fold_left Qplus l a == a + fold_left Qplus l 0.
Proof.
  revert a. induction l as [|x l IH]; intros a; cbn [fold_left].
  - ring.
  - rewrite IH, (IH (0 + x)). ring.
Qed.

Lemma square_nonneg (x : Q) : 0 <= x * x.
Proof.
  destruct (Qlt_le_dec x 0) as [H|H].
  - assert (E : x * x == (- x) * (- x)) by ring. rewrite E.
    apply Qmult_le_0_compat; lra.
  - apply Qmult_le_0_compat; lra.
Qed.

Lemma py_sum_nonneg (l : list Q) :
  Forall (fun x => 0 <= x) l -> 0 <= py_sum l.
Proof.
  unfold py_sum. induction 1 as [|x l Hx Hl IH]; cbn [fold_left]; [lra|].
  rewrite fold_plus_shift. lra.
Qed.

(** X24.  Margins of 0 (periods without data) never influence the
    volatility index: it is the index of the non-zero values alone; and
    its radicand, the population variance, is never negative. *)
Theorem volatility_ignores_zeros (margin_values : list Q) :
  calculate_volatility_index margin_values
  = calculate_volatility_index
      (List.filter (fun v => neqb v 0) margin_values)
  /\ exists r, calculate_volatility_index margin_values = SqrtOf r /\ 0 <= r.
Proof.
  split.
  - unfold calculate_volatility_index. rewrite filter_idempotent.
    pose proof (length_filter_le (fun v => neqb v 0) margin_values) as Hl.
    destruct (length margin_values <? 2)%nat eqn:E1;
      destruct (length (List.filter (fun v => neqb v 0) margin_values) <? 2)%nat
        eqn:E2; try reflexivity.
    apply Nat.ltb_lt in E1. apply Nat.ltb_ge in E2. lia.
  - unfold calculate_volatility_index.
    destruct (length margin_values <? 2)%nat; [exists 0; split; [reflexivity|lra]|].
    destruct (length _ <? 2)%nat eqn:E; [exists 0; split; [reflexivity|lra]|].
    apply Nat.ltb_ge in E. unfold np_std. eexists. split; [reflexivity|].
    unfold mean at 1. rewrite length_map.
    apply Qle_shift_div_l.
    + refine (of_nat_lt 0 _ _). lia.
    + rewrite Qmult_0_l. apply py_sum_nonneg.
      apply Forall_forall. intros x Hx. apply list_elem_of_In in Hx.
      apply in_map_iff in Hx as (v & <- & _).
      apply square_nonneg.
Qed.

(* ================================================================== *)
(** * Risk assessment engine: further properties *)

Lemma sublist_if {A} (b : bool) (x y l : list A) :
  sublist x l -> sublist y l -> sublist (if b then x else y) l.
Proof. now destruct b. Qed.

Lemma Forall_if {A} (P : A -> Prop) (b : bool) (x y : list A) :
  Forall P x -> Forall P y -> Forall P (if b then x else y).
Proof. now destruct b. Qed.

(** The findings are a selection, in order, of the nine rule types. *)
Lemma risk_types_selected th pd :
  sublist (List.map Risk.type (assess_project_risks th pd)) risk_types.
Proof.
  unfold assess_project_risks, risk_types. cbv zeta.
  rewrite !map_app.
  change ["Margin Risk"; "Cost Commitment"; "Cost Variance"; "Schedule Risk";
          "Cash Flow"; "Revenue Risk"; "Contingency Risk";
          "WP Performance Risk"; "Financial Buffer Risk"]
    with (["Margin Risk"] ++ ["Cost Commitment"] ++ ["Cost Variance"]
          ++ ["Schedule Risk"] ++ ["Cash Flow"] ++ ["Revenue Risk"]
          ++ ["Contingency Risk"] ++ ["WP Performance Risk"]
          ++ ["Financial Buffer Risk"])%list.
  repeat apply sublist_app;
    repeat match goal with
      | |- sublist (List.map _ (if ?b then _ else _)) _ => destruct b
      | |- sublist (List.map _ (match ?l with [] => _ | _ :: _ => _ end)) _ =>
          destruct l
      end;
    cbn [List.map Risk.type risk];
    first [ reflexivity | apply sublist_nil_l ].
Qed.

Lemma risk_severities th pd :
  Forall (fun r => In (Risk.severity r) ["Critical"; "High"; "Medium"])
    (assess_project_risks th pd).
Proof.
  unfold assess_project_risks. cbv zeta.
  repeat apply Forall_app_2;
    repeat match goal with
      | |- Forall _ (if ?b then _ else _) => destruct b
      | |- Forall _ (match ?l with [] => _ | _ :: _ => _ end) => destruct l
      end;
    repeat (apply Forall_cons; split || apply Forall_nil);
    cbn [Risk.severity risk In];
    first [ left; reflexivity
          | right; left; reflexivity
          | right; right; left; reflexivity ].
Qed.

(** X25.  The risk register holds at most one finding of each type, in
    the fixed order of the nine rules, hence at most nine findings; and
    no finding has the severity 'Low': every severity is Critical, High
    or Medium. *)
Theorem risk_register_shape (th : ThresholdTable) (pd : ProjectData) :
  sublist (List.map Risk.type (assess_project_risks th pd)) risk_types
  /\ NoDup (List.map Risk.type (assess_project_risks th pd))
  /\ (length (assess_project_risks th pd) <= 9)%nat
  /\ Forall (fun r => In (Risk.severity r) ["Critical"; "High"; "Medium"])
       (assess_project_risks th pd).
Proof.
  pose proof (risk_types_selected th pd) as Hs.
  split; [exact Hs|]. split; [|split].
  - apply (sublist_NoDup _ risk_types); [|exact Hs].
    apply (bool_decide_unpack _). vm_compute. exact I.
  - apply sublist_length in Hs. rewrite length_map in Hs. exact Hs.
  - apply risk_severities.
Qed.

(* ================================================================== *)
(** * Portfolio aggregator: further properties *)

(** What one loop iteration does to the count of valid projects and to
    the contract total. *)
Lemma accumulate_valid (metrics : Metrics.t) (entry : string * Project) :
  (is_valid_project entry = false -> accumulate_project metrics entry = metrics)
  /\ (is_valid_project entry = true ->
      exists d,
        data (snd entry) = Some d
        /\ 0 < safe_get_value (revenues d) "Contract Price" "n_ptd"
        /\ Metrics.valid_projects (accumulate_project metrics entry)
           = S (Metrics.valid_projects metrics)
        /\ Metrics.total_contract_value_n (accumulate_project metrics entry)
           = Metrics.total_contract_value_n metrics
             + safe_get_value (revenues d) "Contract Price" "n_ptd"
        /\ Metrics.weighted_poc_n (accumulate_project metrics entry)
           = Metrics.weighted_poc_n metrics
             + safe_get_value (revenues d) "POC%" "n_ptd"
               * safe_get_value (revenues d) "Contract Price" "n_ptd").
Proof.
  unfold is_valid_project, accumulate_project.
  destruct (data (snd entry)) as [d|]; [|split; [reflexivity|discriminate]].
  destruct (safe_get_value (revenues d) "Contract Price" "n_ptd" >? 0) eqn:E;
    split; intros H; try discriminate H; try reflexivity.
  exists d. bool_to_order. cbn [Metrics.valid_projects
    Metrics.total_contract_value_n Metrics.weighted_poc_n].
  repeat split; try assumption. lia.
Qed.

Lemma valid_projects_count (l : list (string * Project)) (m0 : Metrics.t) :
  Metrics.valid_projects (fold_left accumulate_project l m0)
  = (Metrics.valid_projects m0 + length (List.filter is_valid_project l))%nat.
Proof.
  revert m0. induction l as [|e l IH]; intros m0; cbn [fold_left List.filter].
  - cbn. lia.
  - rewrite IH. destruct (accumulate_valid m0 e) as [Hf Ht].
    destruct (is_valid_project e) eqn:E.
    + destruct (Ht eq_refl) as (d & _ & _ & Hv & _). rewrite Hv. cbn. lia.
    + rewrite (Hf eq_refl). lia.
Qed.

(** The contract total stays non-negative, and is positive as soon as a
    valid project has been counted. *)
Lemma contract_total_positive (l : list (string * Project)) (m0 : Metrics.t) :
  0 <= Metrics.total_contract_value_n m0 ->
  ((0 < Metrics.valid_projects m0)%nat -> 0 < Metrics.total_contract_value_n m0) ->
  let m := fold_left accumulate_project l m0 in
  0 <= Metrics.total_contract_value_n m
  /\ ((0 < Metrics.valid_projects m)%nat -> 0 < Metrics.total_contract_value_n m).
Proof.
  revert m0. induction l as [|e l IH]; intros m0 H0 H1; cbn [fold_left].
  - auto.
  - apply IH; destruct (accumulate_valid m0 e) as [Hf Ht];
      destruct (is_valid_project e) eqn:E.
    + destruct (Ht eq_refl) as (d & _ & Hc & _ & Htot & _). rewrite Htot. lra.
    + rewrite (Hf eq_refl). exact H0.
    + destruct (Ht eq_refl) as (d & _ & Hc & _ & Htot & _). rewrite Htot.
      intros _. lra.
    + rewrite (Hf eq_refl). exact H1.
Qed.

(** X26.  The aggregator returns no summary exactly when no project of
    the portfolio is valid (has data and a positive current contract
    value); when it returns one, [project_count] is the number of valid
    projects and the total contract value is positive, so none of the
    percentages of the summary falls back to its zero default. *)
Theorem summary_counts_valid_projects
  (portfolio_data : list (string * Project)) :
  (create_enhanced_portfolio_summary portfolio_data = None
   <-> List.filter is_valid_project portfolio_data = [])
  /\ (forall s,
         create_enhanced_portfolio_summary portfolio_data = Some s ->
         Summary.project_count s
         = length (List.filter is_valid_project portfolio_data)
         /\ (1 <= Summary.project_count s)%nat
         /\ 0 < Summary.total_contract_value s).
Proof.
  rewrite summary_of_metrics. cbv zeta.
  pose proof (valid_projects_count portfolio_data Metrics.zero) as Hc.
  cbn [Metrics.valid_projects Metrics.zero] in Hc. rewrite Nat.add_0_l in Hc.
  destruct (contract_total_positive portfolio_data Metrics.zero)
    as [_ Hpos]; [cbn; lra | cbn; lia |].
  set (m := fold_left accumulate_project portfolio_data Metrics.zero) in *.
  destruct (Metrics.valid_projects m =? 0)%nat eqn:E.
  - apply Nat.eqb_eq in E. split.
    + split; [intros _|reflexivity].
      apply length_zero_iff_nil. lia.
    + intros s H. discriminate H.
  - apply Nat.eqb_neq in E. split.
    + split; [discriminate|]. intros H. rewrite H in Hc. cbn in Hc. lia.
    + intros s H. injection H as <-.
      cbn [Summary.project_count Summary.total_contract_value summarise].
      split; [exact Hc|]. split; [lia|]. apply Hpos. lia.
Qed.

Lemma summary_counts_valid_projects_witness :
  Summary.project_count
    (default (summarise Metrics.zero)
       (create_enhanced_portfolio_summary
          [("P1", live_project); ("P2", zero_contract_project)]))
  = length (List.filter is_valid_project
              [("P1", live_project); ("P2", zero_contract_project)])
  /\ (1 <= Summary.project_count
             (default (summarise Metrics.zero)
                (create_enhanced_portfolio_summary
                   [("P1", live_project); ("P2", zero_contract_project)])))%nat
  /\ 0 < Summary.total_contract_value
           (default (summarise Metrics.zero)
              (create_enhanced_portfolio_summary
                 [("P1", live_project); ("P2", zero_contract_project)])).
Proof.
  apply (proj2 (summary_counts_valid_projects
                  [("P1", live_project); ("P2", zero_contract_project)])).
  vm_compute. reflexivity.
Defined.

(** The weighted-POC numerator is never negative when no valid project
    reports a negative POC, and it is 0 exactly when every valid project
    reports a POC of 0. *)
Lemma weighted_poc_numerator (l : list (string * Project)) (m0 : Metrics.t) :
  Forall (fun e => 0 <= current_poc e) l ->
  0 <= Metrics.weighted_poc_n m0 ->
  let m := fold_left accumulate_project l m0 in
  0 <= Metrics.weighted_poc_n m
  /\ (Metrics.weighted_poc_n m == 0
      <-> Metrics.weighted_poc_n m0 == 0
          /\ Forall (fun e => is_valid_project e = true -> current_poc e == 0)
               l).
Proof.
  intros Hl. revert m0. induction Hl as [|e l He Hl IH]; intros m0 H0;
    cbn [fold_left].
  - split; [exact H0|]. split; [intros H; split; [exact H|constructor]|tauto].
  - destruct (accumulate_valid m0 e) as [Hf Ht].
    destruct (is_valid_project e) eqn:E.
    + destruct (Ht eq_refl) as (d & Hd & Hc & _ & _ & Hw).
      unfold current_poc in He. rewrite Hd in He.
      set (p := safe_get_value (revenues d) "POC%" "n_ptd") in *.
      set (c := safe_get_value (revenues d) "Contract Price" "n_ptd") in *.
      assert (Hpc : 0 <= p * c) by (apply Qmult_le_0_compat; lra).
      destruct (IH (accumulate_project m0 e)) as [Hn Hz];
        [rewrite Hw; lra|].
      split; [exact Hn|]. rewrite Hz, Hw.
      assert (Hp0 : p * c == 0 <-> p == 0).
      { split; intros H.
        - destruct (Qlt_le_dec 0 p) as [Hp|Hp]; [|lra].
          assert (0 < p * c) by (apply Qmult_lt_0_compat; assumption). lra.
        - rewrite H. ring. }
      split.
      * intros [Hs Hrest]. split; [lra|].
        apply List.Forall_cons; [|exact Hrest].
        intros _. unfold current_poc. rewrite Hd. apply Hp0. lra.
      * intros [Hm0 Hall]. apply Forall_cons in Hall as [Hhd Hrest].
        specialize (Hhd E). unfold current_poc in Hhd.
        rewrite Hd in Hhd. fold p in Hhd.
        split; [|exact Hrest]. rewrite Hm0, Hhd. ring.
    + rewrite (Hf eq_refl).
      destruct (IH m0 H0) as [Hn Hz]. split; [exact Hn|].
      rewrite Hz. split; intros [Hm0 Hall]; split; try exact Hm0.
      * apply List.Forall_cons; [intros H; congruence|exact Hall].
      * apply Forall_cons in Hall. tauto.
Qed.

(** X27.  When no project with data reports a negative current POC,
    the contract-weighted portfolio POC of the summary is not negative,
    and it is 0 exactly when every valid project reports a POC of 0. *)
Theorem weighted_poc_sign
  (portfolio_data : list (string * Project)) (s : Summary.t) :
  Forall (fun e => 0 <= current_poc e) portfolio_data ->
  create_enhanced_portfolio_summary portfolio_data = Some s ->
  0 <= Summary.weighted_poc_n s
  /\ (Summary.weighted_poc_n s == 0
      <-> Forall (fun e => is_valid_project e = true -> current_poc e == 0)
            portfolio_data).
Proof.
  intros Hl. rewrite summary_of_metrics. cbv zeta.
  destruct (weighted_poc_numerator portfolio_data Metrics.zero Hl)
    as [Hn Hz]; [cbn; lra|].
  destruct (contract_total_positive portfolio_data Metrics.zero)
    as [_ Hpos]; [cbn; lra | cbn; lia |].
  set (m := fold_left accumulate_project portfolio_data Metrics.zero) in *.
  destruct (Metrics.valid_projects m =? 0)%nat eqn:Ev; [discriminate|].
  apply Nat.eqb_neq in Ev.
  intros H. injection H as <-. cbn [Summary.weighted_poc_n summarise].
  assert (Ht : 0 < Metrics.total_contract_value_n m) by (apply Hpos; lia).
  destruct (Metrics.total_contract_value_n m >? 0) eqn:E; bool_to_order;
    [|lra].
  set (n := Metrics.weighted_poc_n m) in *.
  set (t := Metrics.total_contract_value_n m) in *.
  assert (Hq : n / t * t == n) by (field; lra).
  split.
  - apply Qle_shift_div_l; lra.
  - split.
    + intros H0. apply Hz. rewrite H0 in Hq. lra.
    + intros Hall.
      assert (H0 : n == 0) by (apply Hz; split; [reflexivity|exact Hall]).
      rewrite H0. field. lra.
Qed.

Lemma weighted_poc_sign_witness :
  let s := default (summarise Metrics.zero)
             (create_enhanced_portfolio_summary
                [("P1", live_project); ("P2", zero_contract_project)]) in
  0 <= Summary.weighted_poc_n s
  /\ (Summary.weighted_poc_n s == 0
      <-> Forall (fun e => is_valid_project e = true -> current_poc e == 0)
            [("P1", live_project); ("P2", zero_contract_project)]).
Proof.
  apply (weighted_poc_sign
           [("P1", live_project); ("P2", zero_contract_project)]).
  - apply List.Forall_cons; [vm_compute; discriminate|].
    apply List.Forall_cons; [vm_compute; discriminate|].
    apply List.Forall_nil.
  - vm_compute. reflexivity.
Defined.

(* ================================================================== *)
(** * Cost and margin deriver: further properties *)

Lemma dict_set_codes k wp d c :
  code wp = k ->
  In c (List.map code (dict_set k wp d)) -> c = k \/ In c (List.map code d).
Proof.
  intros Hk. induction d as [|x t IH]; cbn.
  - intros [H|[]]. left. congruence.
  - destruct (String.eqb (code x) k) eqn:E; cbn.
    + apply String.eqb_eq in E. intros [H|H]; [left; congruence|auto].
    + intros [H|H]; [auto|]. destruct (IH H); auto.
Qed.

Lemma dict_set_NoDup k wp d :
  code wp = k ->
  NoDup (List.map code d) -> NoDup (List.map code (dict_set k wp d)).
Proof.
  intros Hk. induction d as [|x t IH]; cbn; intros Hn.
  - apply NoDup_cons. split; [apply not_elem_of_nil | apply NoDup_nil; exact I].
  - apply NoDup_cons in Hn as [Hx Ht]. rewrite list_elem_of_In in Hx.
    destruct (String.eqb (code x) k) eqn:E; cbn.
    + apply String.eqb_eq in E. apply NoDup_cons.
      rewrite list_elem_of_In. split; [congruence | exact Ht].
    + apply String.eqb_neq in E. apply NoDup_cons.
      rewrite list_elem_of_In. split; [|auto].
      intros H. destruct (dict_set_codes k wp t _ Hk H); congruence.
Qed.

Lemma dict_set_keyed k wp d :
  code wp = k -> is_summary_code k = false ->
  keyed_by_code d -> keyed_by_code (dict_set k wp d).
Proof.
  intros Hk Hs [Hn Hf]. split.
  - apply dict_set_NoDup; assumption.
  - apply dict_set_Forall; [rewrite Hk; exact Hs | exact Hf].
Qed.

Lemma parse_cost_row_keyed mc st row :
  keyed_by_code (work_packages (fst st)) ->
  keyed_by_code (work_packages (fst (parse_cost_row mc st row))).
Proof.
  intros H. unfold parse_cost_row. destruct st as [pd found].
  destruct (item_code row) as [[|c ic]|]; [assumption| |assumption].
  cbn [fst].
  destruct (_ && negb found); [exact H|].
  destruct (negb (existsb _ _)) eqn:E.
  - assert (Hk : keyed_by_code
                   (dict_set (strip (String c ic))
                      (make_work_package (strip (String c ic))
                         (description_cell row)
                         (safe_float (cell_as_sold row))
                         (safe_float (cell_committed row))
                         (safe_float (cell_ctc row))
                         (safe_float (cell_fct_n row))
                         (if (7 <=? mc)%nat
                          then safe_float (cell_fct_n1 row) else 0)
                         (if (9 <=? mc)%nat
                          then safe_float (cell_actuals row) else 0))
                      (work_packages pd))).
    { apply dict_set_keyed; [reflexivity| |exact H].
      apply negb_true_iff in E. exact E. }
    repeat case_cmp; exact Hk.
  - repeat case_cmp; exact H.
Qed.

Lemma parse_cost_row_revenues mc st row :
  revenues (fst (parse_cost_row mc st row)) = revenues (fst st).
Proof. row_cases st row; reflexivity. Qed.

(** What the parse of the sheet keeps, beside the facts of
    [parse_costs_ok]. *)
Lemma parse_costs_keyed revs sheet pd :
  parse_excel_template_v24_costs revs (Some sheet) = Some pd ->
  keyed_by_code (work_packages pd).
Proof.
  intros E.
  destruct (parse_cost_sheet_ok (fun _ => True) sheet
              (initial_project_data revs)) as (_ & Hk & Hz);
    [auto | constructor |].
  destruct (enhanced_cost_analysis_ok _ Hk Hz) as (pd' & E' & Ew & _).
  unfold parse_excel_template_v24_costs in E. rewrite E' in E.
  injection E as <-. rewrite Ew.
  apply (parse_cost_sheet_invariant
           (fun d => keyed_by_code (work_packages d))).
  - intros st row. apply parse_cost_row_keyed.
  - auto.
  - split; [apply NoDup_nil; exact I | constructor].
Qed.

(** X28.  Every work package the parser stores has a code of its own
    and is no summary row (no code contains TOTAL, CM1, CM2 or SELLING,
    in any letter case); its risk-contingency flag is the test the
    contingency and risk engines apply to its description, so those
    engines aggregate exactly the flagged packages; and its
    commitment ratio is committed / as_sold, or 0 without a positive
    as-sold amount. *)
Theorem parsed_work_packages
  (revs : gmap string (gmap string Q)) (sheet : CostSheet)
  (pd : ProjectData) :
  parse_excel_template_v24_costs revs (Some sheet) = Some pd ->
  NoDup (List.map code (work_packages pd))
  /\ Forall (fun wp => is_summary_code (code wp) = false) (work_packages pd)
  /\ Forall derived_fields (work_packages pd)
  /\ risk_contingencies (work_packages pd)
     = List.filter is_risk_contingency (work_packages pd).
Proof.
  intros E.
  destruct (parse_costs_keyed revs sheet pd E) as [Hn Hs].
  destruct (parse_costs_ok derived_fields revs sheet)
    as (pd' & E' & Hd & _); [split; reflexivity|].
  rewrite E in E'. injection E' as <-.
  split; [exact Hn|]. split; [exact Hs|]. split; [exact Hd|].
  unfold risk_contingencies. apply List.filter_ext_in.
  intros wp Hin. rewrite Forall_forall in Hd.
  rewrite <- list_elem_of_In in Hin. destruct (Hd wp Hin) as [Hflag _].
  now rewrite Hflag.
Qed.

Lemma parsed_work_packages_witness :
  let pd := default (initial_project_data ∅)
              (parse_excel_template_v24_costs ∅ (Some sample_sheet)) in
  NoDup (List.map code (work_packages pd))
  /\ Forall (fun wp => is_summary_code (code wp) = false) (work_packages pd)
  /\ Forall derived_fields (work_packages pd)
  /\ risk_contingencies (work_packages pd)
     = List.filter is_risk_contingency (work_packages pd).
Proof.
  apply (parsed_work_packages ∅ sample_sheet). vm_compute. reflexivity.
Defined.

(** The three selling-price cells. *)
Lemma selling_price_key_cases p :
  In p periods ->
  "selling_price_" +:+ p = "selling_price_as_sold"
  \/ "selling_price_" +:+ p = "selling_price_fct_n1"
  \/ "selling_price_" +:+ p = "selling_price_fct_n".
Proof. intros Hp. in_periods Hp; cbn; auto. Qed.

(** A row that is no selling-price row, or any row once the selling
    price has been found, leaves the flag and the selling-price cells
    alone. *)
Lemma parse_cost_row_keeps_selling_price mc st row p :
  In p periods ->
  is_selling_price_row row = false \/ snd st = true ->
  snd (parse_cost_row mc st row) = snd st
  /\ cost_analysis (fst (parse_cost_row mc st row)) !! ("selling_price_" +:+ p)
     = cost_analysis (fst st) !! ("selling_price_" +:+ p).
Proof.
  intros Hp H. unfold parse_cost_row, is_selling_price_row in *.
  destruct st as [pd found]. cbn [fst snd] in *.
  destruct (item_code row) as [[|c ic]|]; [auto| |auto].
  assert (E : ((contains "SELLING PRICE" (upper (strip (String c ic)))
                || contains "SELLING PRICE" (upper (description_cell row)))
               && negb found) = false).
  { destruct H as [H|H]; [rewrite H; reflexivity|].
    rewrite H. apply andb_false_r. }
  rewrite E. cbn [fst snd]. split; [reflexivity|].
  destruct (selling_price_key_cases p Hp) as [->|[->| ->]];
    repeat case_cmp;
    cbn [cost_analysis with_cost_analysis with_work_packages];
    repeat (rewrite lookup_insert_ne; [|discriminate]); reflexivity.
Qed.

Lemma fold_rows_keep_selling_price mc rows st p :
  In p periods ->
  Forall (fun row => is_selling_price_row row = false) rows \/ snd st = true ->
  snd (fold_left (parse_cost_row mc) rows st) = snd st
  /\ cost_analysis (fst (fold_left (parse_cost_row mc) rows st))
       !! ("selling_price_" +:+ p)
     = cost_analysis (fst st) !! ("selling_price_" +:+ p).
Proof.
  intros Hp. revert st. induction rows as [|row rows IH]; intros st H;
    cbn [fold_left]; [auto|].
  assert (Hrow : is_selling_price_row row = false \/ snd st = true).
  { destruct H as [H|H]; [left|right; exact H].
    apply Forall_cons in H. tauto. }
  destruct (parse_cost_row_keeps_selling_price mc st row p Hp Hrow)
    as [Hf Hc].
  destruct (IH (parse_cost_row mc st row)) as [Hf' Hc'].
  { destruct H as [H|H]; [left|right; congruence].
    apply Forall_cons in H. tauto. }
  split; congruence.
Qed.

(** The first selling-price row sets the flag and the three cells. *)
Lemma parse_cost_row_takes_selling_price mc pd row :
  is_selling_price_row row = true ->
  let st := parse_cost_row mc (pd, false) row in
  snd st = true
  /\ cost_analysis (fst st) !! "selling_price_as_sold"
     = Some (safe_float (cell_as_sold row))
  /\ cost_analysis (fst st) !! "selling_price_fct_n1"
     = Some (if (7 <=? mc)%nat then safe_float (cell_fct_n1 row) else 0)
  /\ cost_analysis (fst st) !! "selling_price_fct_n"
     = Some (safe_float (cell_fct_n row)).
Proof.
  intros H. unfold parse_cost_row, is_selling_price_row in *.
  destruct (item_code row) as [[|c ic]|]; try discriminate H.
  rewrite H. cbn [andb negb fst snd cost_analysis with_cost_analysis].
  split; [reflexivity|]. split; [|split].
  - rewrite !lookup_insert_ne by discriminate. apply lookup_insert_eq.
  - rewrite lookup_insert_ne by discriminate. apply lookup_insert_eq.
  - apply lookup_insert_eq.
Qed.

Lemma derive_margins_frame p ca ca' k :
  derive_margins p ca = Some ca' ->
  ~ In k (margin_keys p) -> ca' !! k = ca !! k.
Proof.
  unfold derive_margins. intros E Hk.
  destruct (ca !! ("selling_price_" +:+ p)) as [sp|]; [|discriminate E].
  cbn [mbind option_bind] in E.
  destruct (sp >? 0).
  - destruct (ca !! ("ec_total_" +:+ p)) as [ec|]; [|discriminate E].
    destruct (ca !! ("ic_total_" +:+ p)) as [ic|]; [|discriminate E].
    cbn [mbind option_bind] in E. injection E as <-.
    repeat (rewrite lookup_insert_ne; [|intros <-; apply Hk; key_in_list]).
    reflexivity.
  - injection E as <-. reflexivity.
Qed.

Lemma selling_price_not_margin p q :
  In p periods -> In q periods ->
  ~ In ("selling_price_" +:+ p) (margin_keys q).
Proof.
  intros Hp Hq H. in_periods Hp; in_periods Hq; cbn in H;
    intuition discriminate.
Qed.

(** The selling-price cells after the statements that follow the sheet
    block: the contract value when no selling-price row was found, the
    parsed cells otherwise. *)
Lemma enhanced_cost_analysis_selling_price pd pd' p :
  In p periods ->
  enhanced_cost_analysis pd = Some pd' ->
  selling_price_found pd' = selling_price_found pd
  /\ cost_analysis pd' !! ("selling_price_" +:+ p)
     = if negb (default false (selling_price_found pd))
       then Some (safe_get_value (revenues pd) "Contract Price" "n_ptd")
       else cost_analysis pd !! ("selling_price_" +:+ p).
Proof.
  intros Hp. unfold enhanced_cost_analysis.
  set (cv := safe_get_value (revenues pd) "Contract Price" "n_ptd").
  set (start :=
         if negb (default false (selling_price_found pd))
         then cost_analysis pd !! "total_as_sold" ≫= fun total =>
              if total >? 0
              then Some (selling_price_fallback cv (cost_analysis pd))
              else Some (selling_price_fallback cv (cost_analysis pd))
         else Some (cost_analysis pd)).
  intros E.
  destruct start as [ca1|] eqn:E1; [|discriminate E].
  cbn [mbind option_bind] in E.
  destruct (derive_margins "as_sold" ca1) as [ca2|] eqn:E2; [|discriminate E].
  cbn [mbind option_bind] in E.
  destruct (derive_margins "fct_n1" ca2) as [ca3|] eqn:E3; [|discriminate E].
  cbn [mbind option_bind] in E.
  destruct (derive_margins "fct_n" ca3) as [ca4|] eqn:E4; [|discriminate E].
  cbn [mbind option_bind] in E.
  assert (H14 : ca4 !! ("selling_price_" +:+ p)
                = ca1 !! ("selling_price_" +:+ p)).
  { rewrite (derive_margins_frame _ _ _ _ E4),
      (derive_margins_frame _ _ _ _ E3), (derive_margins_frame _ _ _ _ E2);
      [reflexivity| | |]; apply selling_price_not_margin; auto; key_in_list. }
  assert (H1 : ca1 !! ("selling_price_" +:+ p)
               = if negb (default false (selling_price_found pd))
                 then Some cv
                 else cost_analysis pd !! ("selling_price_" +:+ p)).
  { subst start. destruct (negb _).
    - destruct (cost_analysis pd !! "total_as_sold") as [t|];
        [|discriminate E1]. cbn [mbind option_bind] in E1.
      assert (E1' : ca1 = selling_price_fallback cv (cost_analysis pd))
        by (destruct (t >? 0); congruence).
      rewrite E1'. unfold selling_price_fallback.
      destruct (selling_price_key_cases p Hp) as [->|[->| ->]].
      + rewrite !lookup_insert_ne by discriminate. apply lookup_insert_eq.
      + rewrite lookup_insert_ne by discriminate. apply lookup_insert_eq.
      + apply lookup_insert_eq.
    - congruence. }
  destruct (ca4 !! "total_as_sold") as [tot|]; [|discriminate E].
  cbn [mbind option_bind] in E.
  destruct (tot >? 0).
  - destruct (ca4 !! "total_committed") as [cmt|]; [|discriminate E].
    cbn [mbind option_bind] in E. injection E as <-.
    cbn [selling_price_found cost_analysis with_cost_analysis].
    split; [reflexivity|].
    rewrite lookup_insert_ne; [congruence|].
    destruct (selling_price_key_cases p Hp) as [->|[->| ->]]; discriminate.
  - injection E as <-.
    cbn [selling_price_found cost_analysis with_cost_analysis].
    split; [reflexivity|]. congruence.
Qed.

Lemma parse_cost_sheet_unfold sheet pd :
  let st := fold_left (parse_cost_row (max_column sheet))
              (firstn 49 (cost_rows sheet))
              (with_cost_analysis pd initial_cost_analysis, false) in
  selling_price_found (parse_cost_sheet sheet pd) = Some (snd st)
  /\ cost_analysis (parse_cost_sheet sheet pd) = cost_analysis (fst st)
  /\ revenues (parse_cost_sheet sheet pd) = revenues pd.
Proof.
  cbv zeta. unfold parse_cost_sheet.
  pose proof (fold_rows_invariant (fun d => revenues d = revenues pd)
                (max_column sheet) (firstn 49 (cost_rows sheet))) as Hr.
  specialize (Hr ltac:(intros st row H; cbv beta in *;
                       rewrite parse_cost_row_revenues; exact H)
                (with_cost_analysis pd initial_cost_analysis, false)
                eq_refl).
  destruct (fold_left _ _ _) as [pd1 found]. cbn in *. auto.
Qed.

Lemma cost_total_not_margin p q k :
  In p periods -> In q periods -> In k (cost_total_keys p) ->
  ~ In k (margin_keys q).
Proof.
  intros Hp Hq Hk H. in_periods Hp; in_periods Hq; cbn in Hk, H;
    intuition (subst; discriminate).
Qed.

Lemma cost_total_not_written p k :
  In p periods -> In k (cost_total_keys p) ->
  k <> "selling_price_as_sold" /\ k <> "selling_price_fct_n1"
  /\ k <> "selling_price_fct_n" /\ k <> "committed_ratio".
Proof.
  intros Hp Hk. in_periods Hp; cbn in Hk;
    intuition (subst; discriminate).
Qed.

(** The statements after the sheet block leave the cost totals as the
    row loop wrote them. *)
Lemma enhanced_cost_analysis_cost_totals pd pd' p k :
  In p periods -> In k (cost_total_keys p) ->
  enhanced_cost_analysis pd = Some pd' ->
  cost_analysis pd' !! k = cost_analysis pd !! k.
Proof.
  intros Hp Hk. unfold enhanced_cost_analysis.
  destruct (cost_total_not_written p k Hp Hk) as (N1 & N2 & N3 & N4).
  set (cv := safe_get_value (revenues pd) "Contract Price" "n_ptd").
  set (start :=
         if negb (default false (selling_price_found pd))
         then cost_analysis pd !! "total_as_sold" ≫= fun total =>
              if total >? 0
              then Some (selling_price_fallback cv (cost_analysis pd))
              else Some (selling_price_fallback cv (cost_analysis pd))
         else Some (cost_analysis pd)).
  intros E.
  destruct start as [ca1|] eqn:E1; [|discriminate E].
  cbn [mbind option_bind] in E.
  destruct (derive_margins "as_sold" ca1) as [ca2|] eqn:E2; [|discriminate E].
  cbn [mbind option_bind] in E.
  destruct (derive_margins "fct_n1" ca2) as [ca3|] eqn:E3; [|discriminate E].
  cbn [mbind option_bind] in E.
  destruct (derive_margins "fct_n" ca3) as [ca4|] eqn:E4; [|discriminate E].
  cbn [mbind option_bind] in E.
  assert (H14 : ca4 !! k = ca1 !! k).
  { rewrite (derive_margins_frame _ _ _ _ E4),
      (derive_margins_frame _ _ _ _ E3), (derive_margins_frame _ _ _ _ E2);
      [reflexivity| | |]; apply (cost_total_not_margin p); auto; key_in_list. }
  assert (H1 : ca1 !! k = cost_analysis pd !! k).
  { subst start. destruct (negb _).
    - destruct (cost_analysis pd !! "total_as_sold") as [t|];
        [|discriminate E1]. cbn [mbind option_bind] in E1.
      assert (E1' : ca1 = selling_price_fallback cv (cost_analysis pd))
        by (destruct (t >? 0); congruence).
      rewrite E1'. unfold selling_price_fallback.
      rewrite !lookup_insert_ne by congruence. reflexivity.
    - congruence. }
  destruct (ca4 !! "total_as_sold") as [tot|]; [|discriminate E].
  cbn [mbind option_bind] in E.
  destruct (tot >? 0).
  - destruct (ca4 !! "total_committed") as [cmt|]; [|discriminate E].
    cbn [mbind option_bind] in E. injection E as <-.
    cbn [cost_analysis with_cost_analysis].
    rewrite lookup_insert_ne by congruence. congruence.
  - injection E as <-. cbn [cost_analysis with_cost_analysis]. congruence.
Qed.

(** C7.  The cost sheet is always parsed to a record, and for each of
    the periods as_sold, fct_n1 and fct_n the margin block works on what
    the row loop left: the period's selling price (the cell of the
    selling-price row, or the contract value when no such row was found)
    and its EC and IC totals are carried into the record unchanged; when
    that selling price is positive, CM2_value = CM1_value - IC =
    selling_price - EC - IC exactly, with CM1_value = selling_price - EC
    and both percentages taken over the selling price; when it is 0 (or
    negative), the four margin cells of the period are left at 0.  An
    absent selling-price row with contract value 0 is the second
    case. *)
Theorem derived_margins_identity
  (revs : gmap string (gmap string Q)) (sheet : CostSheet)
  (period : string) :
  In period periods ->
  let rows_read := parse_cost_sheet sheet (initial_project_data revs) in
  let contract_value := safe_get_value revs "Contract Price" "n_ptd" in
  exists pd selling_price ec ic,
    parse_excel_template_v24_costs revs (Some sheet) = Some pd
    /\ period_selling_price contract_value rows_read period
       = Some selling_price
    /\ cost_analysis rows_read !! ("ec_total_" +:+ period) = Some ec
    /\ cost_analysis rows_read !! ("ic_total_" +:+ period) = Some ic
    /\ cost_analysis pd !! ("selling_price_" +:+ period) = Some selling_price
    /\ cost_analysis pd !! ("ec_total_" +:+ period) = Some ec
    /\ cost_analysis pd !! ("ic_total_" +:+ period) = Some ic
    /\ (0 < selling_price ->
        exists cm1 cm2,
          cost_analysis pd !! ("cm1_value_" +:+ period) = Some cm1
          /\ cost_analysis pd !! ("cm2_value_" +:+ period) = Some cm2
          /\ cm2 = cm1 - ic
          /\ cm1 = selling_price - ec
          /\ cm2 = selling_price - ec - ic
          /\ cost_analysis pd !! ("cm1_pct_" +:+ period)
             = Some (cm1 / selling_price * 100)
          /\ cost_analysis pd !! ("cm2_pct_" +:+ period)
             = Some (cm2 / selling_price * 100))
    /\ (selling_price <= 0 -> margins_zero period (cost_analysis pd)).
Proof.
  intros Hp rows_read contract_value.
  destruct (parse_costs_ok (fun _ => True) revs sheet)
    as (pd & E & _ & Hd); [auto|].
  destruct (Hd period Hp) as (sp & ec & ic & Esp & Eec & Eic & Hpos & Hzero).
  exists pd, sp, ec, ic.
  split; [exact E|].
  unfold parse_excel_template_v24_costs in E. fold rows_read in E.
  destruct (enhanced_cost_analysis_selling_price _ pd period Hp E)
    as [_ Hprice].
  destruct (parse_cost_sheet_unfold sheet (initial_project_data revs))
    as (_ & _ & Hrev).
  fold rows_read in Hrev. cbn [revenues initial_project_data] in Hrev.
  rewrite Hrev in Hprice. fold contract_value in Hprice.
  split.
  { unfold period_selling_price. rewrite <- Esp, Hprice.
    destruct (default false (selling_price_found rows_read)); reflexivity. }
  split.
  { rewrite <- Eec. symmetry.
    apply (enhanced_cost_analysis_cost_totals _ _ period); auto. key_in_list. }
  split.
  { rewrite <- Eic. symmetry.
    apply (enhanced_cost_analysis_cost_totals _ _ period); auto. key_in_list. }
  auto 10.
Qed.

Lemma derived_margins_identity_witness :
  let rows_read := parse_cost_sheet sample_sheet (initial_project_data ∅) in
  let contract_value := safe_get_value ∅ "Contract Price" "n_ptd" in
  exists pd selling_price ec ic,
    parse_excel_template_v24_costs ∅ (Some sample_sheet) = Some pd
    /\ period_selling_price contract_value rows_read "as_sold"
       = Some selling_price
    /\ cost_analysis rows_read !! "ec_total_as_sold" = Some ec
    /\ cost_analysis rows_read !! "ic_total_as_sold" = Some ic
    /\ cost_analysis pd !! "selling_price_as_sold" = Some selling_price
    /\ cost_analysis pd !! "ec_total_as_sold" = Some ec
    /\ cost_analysis pd !! "ic_total_as_sold" = Some ic
    /\ (0 < selling_price ->
        exists cm1 cm2,
          cost_analysis pd !! "cm1_value_as_sold" = Some cm1
          /\ cost_analysis pd !! "cm2_value_as_sold" = Some cm2
          /\ cm2 = cm1 - ic
          /\ cm1 = selling_price - ec
          /\ cm2 = selling_price - ec - ic
          /\ cost_analysis pd !! "cm1_pct_as_sold"
             = Some (cm1 / selling_price * 100)
          /\ cost_analysis pd !! "cm2_pct_as_sold"
             = Some (cm2 / selling_price * 100))
    /\ (selling_price <= 0 -> margins_zero "as_sold" (cost_analysis pd)).
Proof.
  apply (derived_margins_identity ∅ sample_sheet "as_sold").
  cbn. tauto.
Defined.

(** On the sample sheet: selling price 1000, EC 600 and IC 200 as sold
    give CM1 400 and CM2 200. *)
Example sample_sheet_margins :
  option_map
    (fun pd => (cost_analysis pd !! "cm1_value_as_sold",
                cost_analysis pd !! "cm2_value_as_sold"))
    (parse_excel_template_v24_costs ∅ (Some sample_sheet))
  = Some (Some (1000 - 600), Some (1000 - 600 - 200)).
Proof. vm_compute. reflexivity. Qed.

(** X29.  When none of the rows read from the sheet is a selling-price
    row, the parse still succeeds, records that no selling price was
    found, and takes the current contract value as the selling price of
    all three periods. *)
Theorem selling_price_falls_back_to_contract_value
  (revs : gmap string (gmap string Q)) (sheet : CostSheet) :
  Forall (fun row => is_selling_price_row row = false)
    (firstn 49 (cost_rows sheet)) ->
  exists pd,
    parse_excel_template_v24_costs revs (Some sheet) = Some pd
    /\ selling_price_found pd = Some false
    /\ (forall p, In p periods ->
          cost_analysis pd !! ("selling_price_" +:+ p)
          = Some (safe_get_value revs "Contract Price" "n_ptd")).
Proof.
  intros Hrows.
  destruct (parse_costs_ok (fun _ => True) revs sheet) as (pd & E & _);
    [auto|].
  exists pd. split; [exact E|].
  unfold parse_excel_template_v24_costs in E.
  destruct (parse_cost_sheet_unfold sheet (initial_project_data revs))
    as (Hfound & _ & Hrev).
  destruct (fold_rows_keep_selling_price (max_column sheet)
              (firstn 49 (cost_rows sheet))
              (with_cost_analysis (initial_project_data revs)
                 initial_cost_analysis, false) "as_sold")
    as [Hflag _]; [key_in_list | left; exact Hrows |].
  rewrite Hflag in Hfound. cbn [snd] in Hfound.
  assert (Hall : forall p, In p periods ->
            selling_price_found pd = Some false
            /\ cost_analysis pd !! ("selling_price_" +:+ p)
               = Some (safe_get_value revs "Contract Price" "n_ptd")).
  { intros p Hp.
    destruct (enhanced_cost_analysis_selling_price _ pd p Hp E) as [Hf Hc].
    rewrite Hfound in Hf, Hc. cbn in Hc. rewrite Hrev in Hc. auto. }
  split; [apply (Hall "as_sold"); key_in_list|].
  intros p Hp. apply Hall, Hp.
Qed.

Lemma selling_price_falls_back_to_contract_value_witness :
  exists pd,
    parse_excel_template_v24_costs contract_only_revenues
      (Some sheet_without_selling_price) = Some pd
    /\ selling_price_found pd = Some false
    /\ (forall p, In p periods ->
          cost_analysis pd !! ("selling_price_" +:+ p)
          = Some (safe_get_value contract_only_revenues "Contract Price"
                    "n_ptd")).
Proof.
  apply (selling_price_falls_back_to_contract_value contract_only_revenues
           sheet_without_selling_price).
  vm_compute.
  repeat (apply List.Forall_cons; [reflexivity|]). apply List.Forall_nil.
Defined.

(** X30.  The first selling-price row among the rows read decides the
    selling prices: its as-sold, previous-forecast and current-forecast
    cells are the three selling prices of the parsed record (the
    previous forecast being 0 on a sheet of fewer than 7 columns),
    whatever the rows after it hold. *)
Theorem first_selling_price_row_wins
  (revs : gmap string (gmap string Q)) (sheet : CostSheet)
  (before after : list CostRow) (row : CostRow) :
  cost_rows sheet = (before ++ row :: after)%list ->
  (length before < 49)%nat ->
  Forall (fun r => is_selling_price_row r = false) before ->
  is_selling_price_row row = true ->
  exists pd,
    parse_excel_template_v24_costs revs (Some sheet) = Some pd
    /\ selling_price_found pd = Some true
    /\ cost_analysis pd !! "selling_price_as_sold"
       = Some (safe_float (cell_as_sold row))
    /\ cost_analysis pd !! "selling_price_fct_n1"
       = Some (if (7 <=? max_column sheet)%nat
               then safe_float (cell_fct_n1 row) else 0)
    /\ cost_analysis pd !! "selling_price_fct_n"
       = Some (safe_float (cell_fct_n row)).
Proof.
  intros Hrows Hlen Hbefore Hrow.
  destruct (parse_costs_ok (fun _ => True) revs sheet) as (pd & E & _);
    [auto|].
  exists pd. split; [exact E|].
  unfold parse_excel_template_v24_costs in E.
  destruct (parse_cost_sheet_unfold sheet (initial_project_data revs))
    as (Hfound & Hca & _).
  set (mc := max_column sheet) in *.
  set (st0 := (with_cost_analysis (initial_project_data revs)
                 initial_cost_analysis, false)) in *.
  assert (Hfirst : firstn 49 (cost_rows sheet)
                   = (before ++ row :: firstn (48 - length before) after)%list).
  { rewrite Hrows, firstn_app, firstn_all2 by lia.
    replace (49 - length before)%nat with (S (48 - length before)) by lia.
    reflexivity. }
  rewrite Hfirst, fold_left_app in Hfound, Hca. cbn [fold_left] in Hfound, Hca.
  set (st1 := fold_left (parse_cost_row mc) before st0) in *.
  assert (Hst1 : snd st1 = false).
  { destruct (fold_rows_keep_selling_price mc before st0 "as_sold")
      as [H _]; [key_in_list | left; exact Hbefore | exact H]. }
  destruct st1 as [pd1 f1]. cbn [snd] in Hst1. subst f1.
  destruct (parse_cost_row_takes_selling_price mc pd1 row Hrow)
    as (Hf2 & Ha & Hb & Hc).
  set (st2 := parse_cost_row mc (pd1, false) row) in *.
  set (rest := firstn (48 - length before) after) in *.
  assert (Hkeep : forall p, In p periods ->
            snd (fold_left (parse_cost_row mc) rest st2) = true
            /\ cost_analysis (fst (fold_left (parse_cost_row mc) rest st2))
                 !! ("selling_price_" +:+ p)
               = cost_analysis (fst st2) !! ("selling_price_" +:+ p)).
  { intros p Hp.
    destruct (fold_rows_keep_selling_price mc rest st2 p Hp) as [H1 H2];
      [right; exact Hf2|]. split; congruence. }
  assert (Hfinal : forall p, In p periods ->
            selling_price_found pd = Some true
            /\ cost_analysis pd !! ("selling_price_" +:+ p)
               = cost_analysis (fst st2) !! ("selling_price_" +:+ p)).
  { intros p Hp. destruct (Hkeep p Hp) as [H1 H2].
    destruct (enhanced_cost_analysis_selling_price _ pd p Hp E) as [Hf Hc'].
    rewrite Hfound, H1 in Hf, Hc'. cbn in Hc'. rewrite Hca in Hc'.
    split; [exact Hf|]. congruence. }
  split; [apply (Hfinal "as_sold"); key_in_list|].
  split; [|split].
  - rewrite <- Ha. apply (Hfinal "as_sold"). key_in_list.
  - rewrite <- Hb. apply (Hfinal "fct_n1"). key_in_list.
  - rewrite <- Hc. apply (Hfinal "fct_n"). key_in_list.
Qed.

Lemma first_selling_price_row_wins_witness :
  exists pd,
    parse_excel_template_v24_costs ∅ (Some sample_sheet) = Some pd
    /\ selling_price_found pd = Some true
    /\ cost_analysis pd !! "selling_price_as_sold" = Some 1000
    /\ cost_analysis pd !! "selling_price_fct_n1" = Some 0
    /\ cost_analysis pd !! "selling_price_fct_n" = Some 1100.
Proof.
  apply (first_selling_price_row_wins ∅ sample_sheet []
           (List.tl (cost_rows sample_sheet))
           (cost_row "Selling Price" "" 1000 1100 0)).
  - reflexivity.
  - cbn. lia.
  - apply List.Forall_nil.
  - reflexivity.
Defined.
